(** * A shallow embedding of the TestRail client ([testrail.py])

    The client is a thin layer over a JSON REST API.  The embedding keeps
    the three ingredients the code is made of:

    - the values that travel: decoded JSON, as the Python values
      [json.loads] produces ([pyval]);
    - the effects: every method may mutate the session object, issue HTTP
      requests and raise; a method is a function [state -> outcome * state]
      where the state holds the [Testrail] object and the chronological
      list of the requests sent so far;
    - the server: an arbitrary function from the history of requests and
      the current request to a reply, so that stateful servers are covered.

    Floating point is left out: JSON numbers are integers, and a report's
    duration is a rational.  A string is a sequence of characters, one
    [ascii] for each (code points below 256).  Of the failures of the
    network only the HTTP error statuses are covered, as in the client,
    which catches nothing else; a response that is not JSON makes the
    decoding raise. *)

From Stdlib Require Import ZArith List String Ascii Bool Lia.
From Stdlib Require Import Permutation DecimalString QArith Qround.
Import ListNotations.

Local Open Scope Z_scope.
Local Open Scope list_scope.
Local Open Scope string_scope.

Set Warnings "-register-all".

(* ================================================================= *)
(** ** Python values *)

(** What [json.loads] returns, and what the client passes around.  A dict
    is kept as an association list in insertion order; its keys are
    strings, as JSON object keys and the dict literals of the client are. *)
Inductive pyval : Type :=
| PNone
| PBool (b : bool)
| PInt (z : Z)
| PStr (s : string)
| PList (l : list pyval)
| PDict (d : list (string * pyval)).

(** The exceptions the modelled code can raise.  [APIError] and
    [EnvironmentError] are raised by the client itself, the others by the
    Python operations it applies to a response: [ValueError] stands for
    the [JSONDecodeError] and the [UnicodeDecodeError] of
    [json.loads(response.decode())], which are both [ValueError]s. *)
Inductive exn : Type :=
| APIError (msg : string)
| EnvironmentError (msg : string)
| TypeError
| KeyError (key : string)
| IndexError
| AttributeError
| ValueError.

Inductive outcome (A : Type) : Type :=
| Ok (a : A)
| Raise (e : exn).
Arguments Ok {A} a.
Arguments Raise {A} e.

Definition obind {A B} (o : outcome A) (k : A -> outcome B) : outcome B :=
  match o with
  | Ok a => k a
  | Raise e => Raise e
  end.

Notation "x <~ o ;; k" := (obind o (fun x => k))
  (at level 61, o at next level, right associativity).

Definition is_api_error {A} (o : outcome A) : bool :=
  match o with
  | Raise (APIError _) => true
  | _ => false
  end.

(** [bool(v)]: the truth value Python gives [v] in [if v] and [not v]. *)
Definition truthy (v : pyval) : bool :=
  match v with
  | PNone => false
  | PBool b => b
  | PInt z => negb (Z.eqb z 0)
  | PStr s => negb (String.eqb s EmptyString)
  | PList l => match l with [] => false | _ :: _ => true end
  | PDict d => match d with [] => false | _ :: _ => true end
  end.

Fixpoint assoc (k : string) (d : list (string * pyval)) : option pyval :=
  match d with
  | [] => None
  | (k', v) :: rest => if String.eqb k k' then Some v else assoc k rest
  end.

(** [v[k]] with a string key. *)
Definition subscript (v : pyval) (k : string) : outcome pyval :=
  match v with
  | PDict d => match assoc k d with
               | Some x => Ok x
               | None => Raise (KeyError k)
               end
  | _ => Raise TypeError
  end.

(** [v[0]]. *)
Definition first_item (v : pyval) : outcome pyval :=
  match v with
  | PList l => match l with
               | x :: _ => Ok x
               | [] => Raise IndexError
               end
  | PStr s => match s with
              | String c _ => Ok (PStr (String c EmptyString))
              | EmptyString => Raise IndexError
              end
  | PDict _ => Raise (KeyError "0")
  | _ => Raise TypeError
  end.

(** [v.get(k, None)]. *)
Definition dict_get_none (v : pyval) (k : string) : outcome pyval :=
  match v with
  | PDict d => match assoc k d with
               | Some x => Ok x
               | None => Ok PNone
               end
  | _ => Raise AttributeError
  end.

(** The characters of a string, each as a string of length one. *)
Fixpoint chars (s : string) : list pyval :=
  match s with
  | EmptyString => []
  | String c rest => PStr (String c EmptyString) :: chars rest
  end.

(** The items a [for] loop (or [set(...)]) draws from [v]. *)
Definition py_iter (v : pyval) : outcome (list pyval) :=
  match v with
  | PList l => Ok l
  | PDict d => Ok (map (fun kv => PStr (fst kv)) d)
  | PStr s => Ok (chars s)
  | _ => Raise TypeError
  end.

(** [needle in hay] on strings: [needle] occurs as a contiguous
    substring. *)
Fixpoint contains (needle hay : string) : bool :=
  prefix needle hay ||
  match hay with
  | EmptyString => false
  | String _ rest => contains needle rest
  end.

(** [name == v] for a string [name]. *)
Definition str_eq (name : string) (v : pyval) : bool :=
  match v with
  | PStr s => String.eqb name s
  | _ => false
  end.

(** [needle in v] for a string [needle]. *)
Definition py_in (needle : string) (v : pyval) : outcome bool :=
  match v with
  | PStr s => Ok (contains needle s)
  | PList l => Ok (existsb (str_eq needle) l)
  | PDict d => Ok (existsb (fun kv => String.eqb needle (fst kv)) d)
  | _ => Raise TypeError
  end.

(** [n == v] for an integer [n]; [True] and [False] are the integers 1
    and 0. *)
Definition num_of (v : pyval) : option Z :=
  match v with
  | PInt z => Some z
  | PBool b => Some (Z.b2z b)
  | _ => None
  end.

Definition int_eq (n : Z) (v : pyval) : bool :=
  match num_of v with
  | Some z => Z.eqb n z
  | None => false
  end.

(** Values that can be a dict key or a set member. *)
Definition hashable (v : pyval) : bool :=
  match v with
  | PList _ | PDict _ => false
  | _ => true
  end.

(** [a == b] between hashable values. *)
Definition key_eq (a b : pyval) : bool :=
  match a, b with
  | PNone, PNone => true
  | PStr s, PStr t => String.eqb s t
  | _, _ => match num_of a, num_of b with
            | Some x, Some y => Z.eqb x y
            | _, _ => false
            end
  end.

Definition key_in (x : pyval) (l : list pyval) : bool := existsb (key_eq x) l.

(** A Python set, as the list of its members without repetition; of two
    equal values the one inserted first stays. *)
Fixpoint set_of_list (l : list pyval) : list pyval :=
  match l with
  | [] => []
  | x :: rest => x :: filter (fun y => negb (key_eq x y)) (set_of_list rest)
  end.

(** [set(v)]. *)
Definition py_set (v : pyval) : outcome (list pyval) :=
  items <~ py_iter v ;;
  if forallb hashable items then Ok (set_of_list items) else Raise TypeError.

(** [a - b] on sets. *)
Definition set_difference (a b : list pyval) : list pyval :=
  filter (fun x => negb (key_in x b)) a.

Fixpoint map_outcome {A B} (f : A -> outcome B) (l : list A) : outcome (list B) :=
  match l with
  | [] => Ok []
  | x :: rest => y <~ f x ;; ys <~ map_outcome f rest ;; Ok (y :: ys)
  end.

Definition Z_str (z : Z) : string := NilZero.string_of_int (Z.to_int z).

Definition newline : string := String (ascii_of_nat 10) EmptyString.

Definition dquote : string := String (ascii_of_nat 34) EmptyString.

(* ================================================================= *)
(** ** The session object, requests and the server *)

(** The attributes [__init__] creates.  [cases_in_run] is the run-case
    cache: a dict from run id to the decoded [get_tests] response. *)
Record Testrail : Type := {
  user : string;
  password : string;
  __run_id : pyval;
  result_map : list (string * pyval);
  cases_in_run : list (pyval * pyval);
  __url : string;
  __project : option string;
  __project_id : pyval;
  __suite : option string;
  __suite_id : pyval
}.

Definition with_project (p : option string) (t : Testrail) : Testrail :=
  {| user := user t; password := password t; __run_id := __run_id t;
     result_map := result_map t; cases_in_run := cases_in_run t;
     __url := __url t; __project := p; __project_id := __project_id t;
     __suite := __suite t; __suite_id := __suite_id t |}.

Definition with_project_id (i : pyval) (t : Testrail) : Testrail :=
  {| user := user t; password := password t; __run_id := __run_id t;
     result_map := result_map t; cases_in_run := cases_in_run t;
     __url := __url t; __project := __project t; __project_id := i;
     __suite := __suite t; __suite_id := __suite_id t |}.

Definition with_suite (n : option string) (t : Testrail) : Testrail :=
  {| user := user t; password := password t; __run_id := __run_id t;
     result_map := result_map t; cases_in_run := cases_in_run t;
     __url := __url t; __project := __project t; __project_id := __project_id t;
     __suite := n; __suite_id := __suite_id t |}.

Definition with_suite_id (i : pyval) (t : Testrail) : Testrail :=
  {| user := user t; password := password t; __run_id := __run_id t;
     result_map := result_map t; cases_in_run := cases_in_run t;
     __url := __url t; __project := __project t; __project_id := __project_id t;
     __suite := __suite t; __suite_id := i |}.

Definition with_run_id (r : pyval) (t : Testrail) : Testrail :=
  {| user := user t; password := password t; __run_id := r;
     result_map := result_map t; cases_in_run := cases_in_run t;
     __url := __url t; __project := __project t; __project_id := __project_id t;
     __suite := __suite t; __suite_id := __suite_id t |}.

Definition with_cases_in_run (c : list (pyval * pyval)) (t : Testrail) : Testrail :=
  {| user := user t; password := password t; __run_id := __run_id t;
     result_map := result_map t; cases_in_run := c;
     __url := __url t; __project := __project t; __project_id := __project_id t;
     __suite := __suite t; __suite_id := __suite_id t |}.

(** [k in cache] and [cache[k]] on the run-case cache. *)
Fixpoint cache_lookup (k : pyval) (c : list (pyval * pyval)) : option pyval :=
  match c with
  | [] => None
  | (k', v) :: rest => if key_eq k k' then Some v else cache_lookup k rest
  end.

Inductive method : Type := GET | POST.

(** One HTTP request as [__send_request] builds it: the full URL, the
    body of a POST (the value handed to [json.dumps]) and the credentials
    that go into the Authorization header. *)
Record request : Type := {
  rq_method : method;
  rq_url : string;
  rq_data : option pyval;
  rq_auth : string * string
}.

(** What [urlopen] gives back: [Reply None body] for a success,
    [Reply (Some code) body] when it raises [HTTPError]; [body] is [None]
    for an empty response and the decoded JSON otherwise.  [Undecodable]
    is a response, with a success or an error status, whose bytes are
    neither empty nor the UTF-8 text of a JSON value. *)
Inductive http_reply : Type :=
| Reply (error_code : option Z) (body : option pyval)
| Undecodable (error_code : option Z).

Definition is_post (r : request) : bool :=
  match rq_method r with
  | POST => true
  | GET => false
  end.

(** The pytest report fields the client reads. *)
Record TestReport : Type := {
  outcome_ : string;
  duration : Q;
  longreprtext : string
}.

(** What the interpreter supplies and the repository does not fix: the
    text [str()] gives for a list or a dict, the order in which a set is
    iterated, and the clock. *)
Class Runtime : Type := {
  repr_container : pyval -> string;
  set_iter : list pyval -> list pyval;
  set_iter_perm : forall l, Permutation (set_iter l) l;
  pacific_now : string
}.

Record state : Type := {
  obj : Testrail;
  sent : list request
}.

(** The type of a method body. *)
Definition M (A : Type) : Type := state -> outcome A * state.

Definition ret {A} (a : A) : M A := fun st => (Ok a, st).

Definition raise {A} (e : exn) : M A := fun st => (Raise e, st).

Definition bind {A B} (m : M A) (k : A -> M B) : M B :=
  fun st =>
    match m st with
    | (Ok a, st') => k a st'
    | (Raise e, st') => (Raise e, st')
    end.

Definition lift {A} (o : outcome A) : M A := fun st => (o, st).

Definition get_self : M Testrail := fun st => (Ok (obj st), st).

Definition modify_self (f : Testrail -> Testrail) : M unit :=
  fun st => (Ok tt, {| obj := f (obj st); sent := sent st |}).

Notation "x <- m ;; k" := (bind m (fun x => k))
  (at level 61, m at next level, right associativity).
Notation "m ;;; k" := (bind m (fun _ => k))
  (at level 61, right associativity).

(* ================================================================= *)
(** ** The client *)

Section Client.

Context {rt : Runtime}.

(** The server: the reply to a request, given the requests answered
    before it. *)
Variable server : list request -> request -> http_reply.

(** [str(v)], as f-strings, [format] and [%s] apply it. *)
Definition py_str (v : pyval) : string :=
  match v with
  | PNone => "None"
  | PBool true => "True"
  | PBool false => "False"
  | PInt z => Z_str z
  | PStr s => s
  | _ => repr_container v
  end.

(** *** Transport *)

(** Lines 211-214: the text put into the [APIError] message. *)
Definition error_text (result : pyval) : outcome string :=
  if truthy result then
    has <~ py_in "error" result ;;
    if (has : bool) then
      e <~ subscript result "error" ;;
      match e with
      | PStr s => Ok (dquote ++ s ++ dquote)
      | _ => Raise TypeError
      end
    else Ok "No additional error message received"
  else Ok "No additional error message received".

(** Lines 185-196: the request object. *)
Definition build_request (self : Testrail) (m : method) (uri : string) (data : pyval)
  : request :=
  {| rq_method := m;
     rq_url := __url self ++ uri;
     rq_data := match m with POST => Some data | GET => None end;
     rq_auth := (user self, password self) |}.

(** Lines 205-208: an empty response body stands for an empty dict. *)
Definition decoded (response : option pyval) : pyval :=
  match response with
  | Some v => v
  | None => PDict []
  end.

Definition __send_request (m : method) (uri : string) (data : pyval) : M pyval :=
  fun st =>
    let self := obj st in
    let rq := build_request self m uri data in
    let st' := {| obj := self; sent := (sent st ++ [rq])%list |} in
    match server (sent st) rq with
    | Reply e response =>
        let result := decoded response in
        match e with
        | None => (Ok result, st')
        | Some code =>
            match error_text result with
            | Ok error =>
                (Raise (APIError ("TestRail API returned HTTP " ++ Z_str code
                                    ++ " (" ++ error ++ ")")), st')
            | Raise x => (Raise x, st')
            end
        end
    | Undecodable _ => (Raise ValueError, st')
    end.

Definition send_get (uri : string) : M pyval := __send_request GET uri PNone.

Definition send_post (uri : string) (data : pyval) : M pyval :=
  __send_request POST uri data.

(** *** Properties of the session *)

Definition project_id : M pyval :=
  self <- get_self ;;
  if truthy (__project_id self) then ret (__project_id self)
  else raise (EnvironmentError
                ("Define the project name as an object attribute like so"
                   ++ newline ++ "client.project = 'Velocloud'")).

Definition suite_id : M pyval :=
  self <- get_self ;;
  if truthy (__suite_id self) then ret (__suite_id self)
  else raise (EnvironmentError
                ("Define the suite name as an object attribute like so"
                   ++ newline ++ "client.suite = 'Master'")).

Definition get_cases_in_run (run_id : pyval) : M pyval :=
  send_get ("get_tests/" ++ py_str run_id).

(** The [run_id] setter.  The dict display evaluates the key, then the
    value (the fetch), then hashes the key. *)
Definition run_id_setter (run_id : pyval) : M unit :=
  modify_self (with_run_id run_id) ;;;
  cases <- get_cases_in_run run_id ;;
  if hashable run_id then modify_self (with_cases_in_run [(run_id, cases)])
  else raise TypeError.

(** *** Name resolution *)

(** The loop shared by the three resolvers (lines 238-241, 273-276 and
    328-331): the first item whose ["name"] equals [name], else [None]. *)
Fixpoint first_named (name : string) (items : list pyval) : outcome pyval :=
  match items with
  | [] => Ok PNone
  | item :: rest =>
      n <~ subscript item "name" ;;
      if str_eq name n then Ok item else first_named name rest
  end.

Definition __get_projects : M pyval := send_get "get_projects".

Definition __get_project_by_name (project_name : string) : M pyval :=
  projects <- __get_projects ;;
  items <- lift (py_iter projects) ;;
  lift (first_named project_name items).

(** [if not project_id: project_id = self.project_id], the opening of
    the methods that take an optional project id ([None] when left out). *)
Definition default_project_id (project_id_arg : pyval) : M pyval :=
  if truthy project_id_arg then ret project_id_arg else project_id.

Definition __get_suites (project_id_arg : pyval) : M pyval :=
  pid <- default_project_id project_id_arg ;;
  send_get ("get_suites/" ++ py_str pid).

Definition __get_suite_by_name (suite_name : string) (project_id_arg : pyval) : M pyval :=
  pid <- default_project_id project_id_arg ;;
  suites <- __get_suites pid ;;
  items <- lift (py_iter suites) ;;
  lift (first_named suite_name items).

Definition project_setter (project_name : option string) : M unit :=
  modify_self (with_project project_name) ;;;
  match project_name with
  | Some name =>
      p <- __get_project_by_name name ;;
      i <- lift (subscript p "id") ;;
      modify_self (with_project_id i)
  | None => modify_self (with_project_id PNone)
  end.

Definition suite_setter (suite_name : option string) : M unit :=
  modify_self (with_suite suite_name) ;;;
  match suite_name with
  | Some name =>
      s <- __get_suite_by_name name PNone ;;
      i <- lift (subscript s "id") ;;
      modify_self (with_suite_id i)
  | None => modify_self (with_suite_id PNone)
  end.

Definition ends_with_slash (s : string) : bool :=
  match rev (list_ascii_of_string s) with
  | c :: _ => Ascii.eqb c "/"%char
  | [] => false
  end.

(** The attributes as [__init__] sets them before it assigns [project]
    and [suite]. *)
Definition new_Testrail (user password base_url : string) : Testrail :=
  {| user := user;
     password := password;
     __run_id := PNone;
     result_map := [("passed", PInt 1); ("failed", PInt 5)];
     cases_in_run := [];
     __url := (if ends_with_slash base_url then base_url else base_url ++ "/")
                ++ "index.php?/api/v2/";
     __project := None;
     __project_id := PNone;
     __suite := None;
     __suite_id := PNone |}.

(** The constructor, run against the requests sent so far. *)
Definition __init__ (user password base_url : string) (history : list request)
  : outcome unit * state :=
  (project_setter (Some "Velocloud") ;;; suite_setter (Some "Master"))
    {| obj := new_Testrail user password base_url; sent := history |}.

Definition _get_plans (project_id_arg : pyval) : M pyval :=
  pid <- default_project_id project_id_arg ;;
  send_get ("get_plans/" ++ py_str pid).

Definition _get_plan_by_name (plan_name : string) (project_id_arg : pyval) : M pyval :=
  pid <- default_project_id project_id_arg ;;
  plans <- _get_plans pid ;;
  items <- lift (py_iter plans) ;;
  lift (first_named plan_name items).

Definition _get_plan (plan_id : pyval) : M pyval :=
  send_get ("get_plan/" ++ py_str plan_id).

Definition _add_plan_entry (plan_id : pyval) (data : pyval) : M pyval :=
  send_post ("add_plan_entry/" ++ py_str plan_id) data.

Definition format_testrun (test_run : string) : string :=
  pacific_now ++ " - " ++ test_run.

(** *** Plan entries and runs *)

Definition add_default_test_run_entry_to_plan
    (test_run_name plan_name : string) (case_ids : pyval) : M pyval :=
  let include_all := if truthy case_ids then false else true in
  if negb include_all && negb (truthy case_ids) then ret (PBool false)
  else
    plan <- _get_plan_by_name plan_name PNone ;;
    match plan with
    | PNone => raise (APIError ("testrail plan '" ++ plan_name ++ "' not found"))
    | _ =>
        plan_id <- lift (subscript plan "id") ;;
        let test_run_name := format_testrun test_run_name in
        suite_id <- suite_id ;;
        let test_run_entry :=
          PDict [("suite_id", suite_id);
                 ("name", PStr test_run_name);
                 ("assignedto_id", PNone);
                 ("include_all", PBool include_all);
                 ("config_ids", PList []);
                 ("case_ids", case_ids);
                 ("runs", PList [PDict [("include_all", PBool false);
                                        ("case_ids", case_ids);
                                        ("config_ids", PList [])]])] in
        _add_plan_entry plan_id test_run_entry
    end.

(** Lines 502-504: the case ids of the tests of a run. *)
Definition case_ids_of (tests : list pyval) : outcome (list pyval) :=
  map_outcome (fun elem => subscript elem "case_id") tests.

Definition check_test_id_duplicate (test_list : pyval) (run_id : pyval)
  : M (list pyval) :=
  test_case_list <- send_get ("get_tests/" ++ py_str run_id) ;;
  tests <- lift (py_iter test_case_list) ;;
  new_list <- lift (case_ids_of tests) ;;
  candidates <- lift (py_set test_list) ;;
  existing <- lift (py_set (PList new_list)) ;;
  ret (set_iter (set_difference candidates existing)).

(** The loop of [get_run_id] (lines 523-527); falling off its end returns
    [None]. *)
Fixpoint scan_runs (run_name : string) (entries : list pyval) : outcome pyval :=
  match entries with
  | [] => Ok PNone
  | each :: rest =>
      runs <~ subscript each "runs" ;;
      run <~ first_item runs ;;
      name <~ subscript run "name" ;;
      hit <~ py_in run_name name ;;
      if (hit : bool) then subscript run "id" else scan_runs run_name rest
  end.

Definition get_run_id (plan_name run_name : string) : M pyval :=
  plan <- _get_plan_by_name plan_name PNone ;;
  plan_id <- lift (subscript plan "id") ;;
  complete_plan <- _get_plan plan_id ;;
  entries <- lift (subscript complete_plan "entries") ;;
  items <- lift (py_iter entries) ;;
  lift (scan_runs run_name items).

(** The [for ... else] of [update_test_run] (lines 466-471): the entry id
    of the first entry whose name contains the run name, or nothing when
    the [else] branch is taken. *)
Fixpoint scan_entries (test_run_name : string) (entries : list pyval)
  : outcome (option pyval) :=
  match entries with
  | [] => Ok None
  | elem :: rest =>
      name <~ subscript elem "name" ;;
      hit <~ py_in test_run_name name ;;
      if (hit : bool) then
        runs <~ subscript elem "runs" ;;
        run <~ first_item runs ;;
        entry_id <~ subscript run "entry_id" ;;
        Ok (Some entry_id)
      else scan_entries test_run_name rest
  end.

Definition update_test_run (test_run_name plan_name : string) (case_ids : pyval)
  : M pyval :=
  test_run_id <- get_run_id plan_name test_run_name ;;
  plan <- _get_plan_by_name plan_name PNone ;;
  plan_id <- lift (subscript plan "id") ;;
  plan_detail <- _get_plan plan_id ;;
  entries <- lift (subscript plan_detail "entries") ;;
  items <- lift (py_iter entries) ;;
  found <- lift (scan_entries test_run_name items) ;;
  match found with
  | None => ret (PBool false)
  | Some entry_id =>
      new_ids <- check_test_id_duplicate case_ids test_run_id ;;
      if negb (truthy (PList new_ids)) then ret (PBool false)
      else
        existing_tests <- get_cases_in_run test_run_id ;;
        tests <- lift (py_iter existing_tests) ;;
        present <- lift (case_ids_of tests) ;;
        let test_run_entry :=
          PDict [("include_all", PBool false);
                 ("case_ids", PList (new_ids ++ present)%list)] in
        send_post ("update_plan_entry/" ++ py_str plan_id ++ "/" ++ py_str entry_id)
                  test_run_entry
  end.

(** *** Results *)

(** Lines 554-557: the case list of a run, from the cache when the run id
    is a key of it and from the server otherwise. *)
Definition tc_list_of (run_id : pyval) : M pyval :=
  self <- get_self ;;
  if hashable run_id then
    match cache_lookup run_id (cases_in_run self) with
    | None => get_cases_in_run run_id
    | Some tc_list => ret tc_list
    end
  else raise TypeError.

(** Lines 558-561. *)
Fixpoint find_case (case_id : Z) (tc_list : list pyval) : outcome pyval :=
  match tc_list with
  | [] => Ok (PBool false)
  | test_case :: rest =>
      c <~ dict_get_none test_case "case_id" ;;
      if int_eq case_id c then dict_get_none test_case "id"
      else find_case case_id rest
  end.

Definition __check_case_in_run (run_id : pyval) (case_id : Z) : M pyval :=
  tc_list <- tc_list_of run_id ;;
  items <- lift (py_iter tc_list) ;;
  lift (find_case case_id items).

Definition dict_get (d : list (string * pyval)) (k : string) (default : pyval) : pyval :=
  match assoc k d with
  | Some v => v
  | None => default
  end.

Definition pad2 (n : Z) : string :=
  if Z.ltb n 10 then "0" ++ Z_str n else Z_str n.

(** [time.strftime('%Hh %Mm %Ss', time.gmtime(secs))]. *)
Definition strftime_hms (secs : Z) : string :=
  pad2 ((secs mod 86400) / 3600) ++ "h "
    ++ pad2 ((secs mod 3600) / 60) ++ "m "
    ++ pad2 (secs mod 60) ++ "s".

(** Lines 580-585: the one result of the POST body. *)
Definition result_record (self : Testrail) (test_id : pyval) (report : TestReport)
  : pyval :=
  PDict [("test_id", test_id);
         ("status_id", dict_get (result_map self) (outcome_ report) (PInt 5));
         ("elapsed", PStr (strftime_hms (Qceiling (duration report))));
         ("comment", PStr (longreprtext report))].

Definition update_test_result (run_id : pyval) (case_id : Z) (report : TestReport)
  : M pyval :=
  test_id <- __check_case_in_run run_id case_id ;;
  if negb (truthy test_id) then ret (PBool false)
  else
    self <- get_self ;;
    let data := PDict [("results", PList [result_record self test_id report])] in
    send_post ("add_results/" ++ py_str run_id) data.

End Client.

(* ================================================================= *)
(** ** Vocabulary of the statements *)

(** No two members are equal under [==]. *)
Inductive distinct : list pyval -> Prop :=
| distinct_nil : distinct []
| distinct_cons x l : key_in x l = false -> distinct l -> distinct (x :: l).

(** The state once [rq] has been sent. *)
Definition after (st : state) (rq : request) : state :=
  {| obj := obj st; sent := (sent st ++ [rq])%list |}.

(** The item is a record with a ["name"]; its name is [name]. *)
Definition named (item : pyval) : Prop := exists n, subscript item "name" = Ok n.

Definition name_is (name : string) (item : pyval) : Prop :=
  subscript item "name" = Ok (PStr name).

(** The first run of a plan entry has the name [name] and the id [id]. *)
Definition first_run (each : pyval) (name : string) (id : pyval) : Prop :=
  exists runs run,
    subscript each "runs" = Ok runs
    /\ first_item runs = Ok run
    /\ subscript run "name" = Ok (PStr name)
    /\ subscript run "id" = Ok id.

(** The id of the first run, in a list of (name, id) pairs, whose name
    contains [run_name]; [None] when there is none. *)
Definition first_containing (run_name : string) (runs : list (string * pyval))
  : pyval :=
  match find (fun r => contains run_name (fst r)) runs with
  | Some r => snd r
  | None => PNone
  end.

(** The name of the plan entry does not contain [test_run_name]. *)
Definition entry_misses (test_run_name : string) (elem : pyval) : Prop :=
  exists n, subscript elem "name" = Ok (PStr n) /\ contains test_run_name n = false.

(** The name of the plan entry contains [test_run_name]. *)
Definition entry_matches (test_run_name : string) (elem : pyval) : Prop :=
  exists n, subscript elem "name" = Ok (PStr n) /\ contains test_run_name n = true.

(** The first run of the plan entry carries the entry id [entry_id]. *)
Definition first_entry_id (elem entry_id : pyval) : Prop :=
  exists runs run,
    subscript elem "runs" = Ok runs
    /\ first_item runs = Ok run
    /\ subscript run "entry_id" = Ok entry_id.

(** The entry [add_default_test_run_entry_to_plan] posts. *)
Definition default_entry {rt : Runtime} (suite_id : pyval) (test_run_name : string)
    (include_all : bool) (case_ids : pyval) : pyval :=
  PDict [("suite_id", suite_id);
         ("name", PStr (format_testrun test_run_name));
         ("assignedto_id", PNone);
         ("include_all", PBool include_all);
         ("config_ids", PList []);
         ("case_ids", case_ids);
         ("runs", PList [PDict [("include_all", PBool false);
                                ("case_ids", case_ids);
                                ("config_ids", PList [])]])].

(** The body [update_test_run] posts. *)
Definition update_entry (case_ids : list pyval) : pyval :=
  PDict [("include_all", PBool false); ("case_ids", PList case_ids)].

(* ================================================================= *)
(** ** A concrete interpreter and server

    Used to run the client on explicit inputs. *)

Module Demo.

#[export] Instance runtime : Runtime :=
  {| repr_container := fun _ => "<container>";
     set_iter := fun l => l;
     set_iter_perm := fun l => Permutation_refl l;
     pacific_now := "2020-01-01 00:00" |}.

Definition api : string := "https://tr.example/index.php?/api/v2/".

Definition projects : pyval :=
  PList [PDict [("id", PInt 3); ("name", PStr "Other")];
         PDict [("id", PInt 1); ("name", PStr "Velocloud")]].

Definition suites : pyval :=
  PList [PDict [("id", PInt 2); ("name", PStr "Master")]].

Definition plans : pyval :=
  PList [PDict [("id", PInt 10); ("name", PStr "Nightly")]].

Definition smoke_run : pyval :=
  PDict [("id", PInt 7); ("name", PStr "2020-01-01 00:00 - smoke");
         ("entry_id", PStr "e-1")].

Definition plan10 : pyval :=
  PDict [("id", PInt 10);
         ("entries",
          PList [PDict [("name", PStr "2019-12-31 09:30 - regression");
                        ("runs", PList [PDict [("id", PInt 6);
                                               ("name", PStr "2019-12-31 09:30 - regression");
                                               ("entry_id", PStr "e-0")]])];
                 PDict [("name", PStr "2020-01-01 00:00 - smoke");
                        ("runs", PList [smoke_run])]])].

Definition tests7 : pyval :=
  PList [PDict [("id", PInt 100); ("case_id", PInt 1)];
         PDict [("id", PInt 101); ("case_id", PInt 2)]].

Definition created : pyval := PDict [("id", PStr "e-2")].

(** A server that answers by URL alone. *)
Definition server (_ : list request) (rq : request) : http_reply :=
  let url := rq_url rq in
  if String.eqb url (api ++ "get_projects") then Reply None (Some projects)
  else if String.eqb url (api ++ "get_suites/1") then Reply None (Some suites)
  else if String.eqb url (api ++ "get_plans/1") then Reply None (Some plans)
  else if String.eqb url (api ++ "get_plan/10") then Reply None (Some plan10)
  else if String.eqb url (api ++ "get_tests/7") then Reply None (Some tests7)
  else if String.eqb url (api ++ "add_plan_entry/10") then Reply None (Some created)
  else if String.eqb url (api ++ "add_results/7") then Reply None None
  else if String.eqb url (api ++ "update_plan_entry/10/e-1") then Reply None None
  else Reply (Some 400) (Some (PDict [("error", PStr "Unknown method")])).

(** The object a successful [Testrail("u", "p", "https://tr.example")]
    leaves behind. *)
Definition client : Testrail :=
  {| user := "u"; password := "p"; __run_id := PNone;
     result_map := [("passed", PInt 1); ("failed", PInt 5)];
     cases_in_run := [];
     __url := api;
     __project := Some "Velocloud"; __project_id := PInt 1;
     __suite := Some "Master"; __suite_id := PInt 2 |}.

Definition start : state := {| obj := client; sent := [] |}.

Definition get (uri : string) : request := build_request client GET uri PNone.

Definition report_passed : TestReport :=
  {| outcome_ := "passed"; duration := 61 # 2; longreprtext := EmptyString |}.

Definition report_skipped : TestReport :=
  {| outcome_ := "skipped"; duration := 0; longreprtext := "skipped: no hardware" |}.

(** The calls examined below. *)
Definition create_with_empty_list : outcome pyval * state :=
  add_default_test_run_entry_to_plan server "smoke" "Nightly" (PList []) start.

Definition first_result : outcome pyval * state :=
  update_test_result server (PInt 7) 1 report_passed start.

Definition second_result : outcome pyval * state :=
  update_test_result server (PInt 7) 1 report_passed (snd first_result).

Definition update_with_known_ids : outcome pyval * state :=
  update_test_run server "smoke" "Nightly" (PList [PInt 1; PInt 2]) start.

Definition passed_post : request :=
  build_request client POST "add_results/7"
    (PDict [("results",
             PList [PDict [("test_id", PInt 100);
                           ("status_id", PInt 1);
                           ("elapsed", PStr "00h 00m 31s");
                           ("comment", PStr EmptyString)]])]).

End Demo.

(* ================================================================= *)
(** ** The remaining operations of the client, and the HTTP handler *)

Section Entities.

Context {rt : Runtime}.
Variable server : list request -> request -> http_reply.

Definition get_all_cases : M pyval :=
  pid <- project_id ;;
  send_get server ("get_cases/" ++ py_str pid).

(** The loop of [get_milestone_id] (lines 130-132); falling off its end
    returns [None]. *)
Fixpoint scan_milestones (name : string) (milestone_list : list pyval)
  : outcome pyval :=
  match milestone_list with
  | [] => Ok PNone
  | elem :: rest =>
      n <~ subscript elem "name" ;;
      hit <~ py_in name n ;;
      if (hit : bool) then subscript elem "id" else scan_milestones name rest
  end.

Definition get_milestone_id (name : string) : M pyval :=
  pid <- project_id ;;
  milestone_list <- send_get server ("get_milestones/" ++ py_str pid) ;;
  if truthy milestone_list then
    items <- lift (py_iter milestone_list) ;;
    lift (scan_milestones name items)
  else ret PNone.

Definition get_cases_based_on_milestone (milestone_id : pyval) : M pyval :=
  pid <- project_id ;;
  total_cases <- send_get server ("get_cases/" ++ py_str pid ++ "&milestone_id="
                                    ++ py_str milestone_id) ;;
  items <- lift (py_iter total_cases) ;;
  case_list <- lift (map_outcome (fun elem => subscript elem "id") items) ;;
  ret (PList case_list).

Definition get_sections : M pyval :=
  pid <- project_id ;;
  send_get server ("get_sections/" ++ py_str pid).

Definition get_users : M pyval := send_get server "get_users".

Definition get_case (case_id : pyval) : M pyval :=
  send_get server ("get_case/" ++ py_str case_id).

Definition update_case (case_id : pyval) (data : pyval) : M pyval :=
  send_post server ("update_case/" ++ py_str case_id) data.

Definition add_results (run_id : pyval) (data : pyval) : M pyval :=
  send_post server ("add_results/" ++ py_str run_id) data.

Definition _get_runs (project_id_arg : pyval) : M pyval :=
  pid <- default_project_id project_id_arg ;;
  send_get server ("get_runs/" ++ py_str pid).

Definition _get_run (run_id : pyval) : M pyval :=
  send_get server ("get_run/" ++ py_str run_id).

Definition _get_results_for_run (run_id : pyval) : M pyval :=
  send_get server ("get_results_for_run/" ++ py_str run_id).

(** The inner loop of [_get_testrun_by_name] (lines 649-651): the first
    run of the entry with exactly the name, if any. *)
Fixpoint scan_testruns (testrun_name : string) (runs : list pyval)
  : outcome (option pyval) :=
  match runs with
  | [] => Ok None
  | testrun :: rest =>
      n <~ subscript testrun "name" ;;
      if str_eq testrun_name n then Ok (Some testrun)
      else scan_testruns testrun_name rest
  end.

(** The outer loop (lines 647-652). *)
Fixpoint scan_named_entries (testrun_name : string) (entries : list pyval)
  : outcome pyval :=
  match entries with
  | [] => Ok PNone
  | entry :: rest =>
      n <~ subscript entry "name" ;;
      if str_eq testrun_name n then
        runs <~ subscript entry "runs" ;;
        items <~ py_iter runs ;;
        found <~ scan_testruns testrun_name items ;;
        match found with
        | Some testrun => Ok testrun
        | None => scan_named_entries testrun_name rest
        end
      else scan_named_entries testrun_name rest
  end.

Definition _get_testrun_by_name (project_name plan_name testrun_name : string)
  : M pyval :=
  project <- __get_project_by_name server project_name ;;
  pid <- lift (subscript project "id") ;;
  plan <- _get_plan_by_name server plan_name pid ;;
  plan_id <- lift (subscript plan "id") ;;
  plan <- _get_plan server plan_id ;;
  entries <- lift (subscript plan "entries") ;;
  items <- lift (py_iter entries) ;;
  lift (scan_named_entries testrun_name items).

Definition get_testrun_results (project_name plan_name testrun_name : string)
  : M pyval :=
  testrun <- _get_testrun_by_name project_name plan_name testrun_name ;;
  match testrun with
  | PNone => ret PNone
  | _ =>
      id <- lift (subscript testrun "id") ;;
      _get_results_for_run id
  end.

(** *** [handler.py] *)

(** [json.dumps], which the handler applies to its response body. *)
Variable json_dumps : pyval -> string.

Definition username : string := "shreyasj@velocloud.net".

Definition handler_password : string := "Cisco123".

Definition default_base_url : string := "https://velocloud.testrail.com".

(** [hello(event, context)], run against the requests sent so far: it
    builds a client with the default base URL, fetches the users and
    wraps them in a response. *)
Definition hello (event context : pyval) (history : list request)
  : outcome pyval * state :=
  match __init__ server username handler_password default_base_url history with
  | (Ok _, st) =>
      (rrr <- get_users ;;
       let body :=
         PDict [("message",
                 PStr "BRO...Go Serverless v1.0! Your function executed successfully!");
                ("input", rrr)] in
       ret (PDict [("statusCode", PInt 200);
                   ("body", PStr (json_dumps body))])) st
  | (Raise e, st) => (Raise e, st)
  end.

End Entities.

(** *** Vocabulary for the frame properties *)

(** The method sends no POST: what it adds to the log are GETs. *)
Definition no_post {A} (m : M A) : Prop :=
  forall st, exists new,
    sent (snd (m st)) = (sent st ++ new)%list /\ existsb is_post new = false.

(** The method leaves the attributes of the object as they are. *)
Definition keeps_object {A} (m : M A) : Prop :=
  forall st, obj (snd (m st)) = obj st.

(** The record has the name [name] and the id [id]. *)
Definition has_name_and_id (elem : pyval) (name : string) (id : pyval) : Prop :=
  subscript elem "name" = Ok (PStr name) /\ subscript elem "id" = Ok id.

(** *** A second server, for the remaining operations *)

Module Demo2.

Definition milestones : pyval :=
  PList [PDict [("id", PInt 4); ("name", PStr "Release 4.0")];
         PDict [("id", PInt 5); ("name", PStr "Release 4.0 beta")]].

Definition cases4 : pyval :=
  PList [PDict [("id", PInt 11); ("title", PStr "login")];
         PDict [("id", PInt 12); ("title", PStr "logout")]].

Definition users : pyval :=
  PList [PDict [("id", PInt 1); ("name", PStr "Ada")]].

Definition plans : pyval :=
  PList [PDict [("id", PInt 10); ("name", PStr "Nightly")];
         PDict [("id", PInt 11); ("name", PStr "Exact")];
         PDict [("id", PInt 12); ("name", PStr "Configs")]].

(** A plan whose entry is named after the run but whose runs are named
    after their configurations. *)
Definition plan12 : pyval :=
  PDict [("id", PInt 12);
         ("entries",
          PList [PDict [("name", PStr "upgrade matrix");
                        ("runs", PList [PDict [("id", PInt 30);
                                               ("name", PStr "Chrome");
                                               ("entry_id", PStr "e-9")]])]])].

Definition exact_run : pyval := PDict [("id", PInt 21); ("name", PStr "smoke")].

Definition plan11 : pyval :=
  PDict [("id", PInt 11);
         ("entries",
          PList [PDict [("name", PStr "2020-01-01 00:00 - smoke");
                        ("runs", PList [Demo.smoke_run])];
                 PDict [("name", PStr "smoke");
                        ("runs", PList [PDict [("id", PInt 20); ("name", PStr "other")];
                                        exact_run])]])].

Definition results21 : pyval := PList [PDict [("status_id", PInt 1)]].

(** A run with a test that has no case id, and one with no test id. *)
Definition tests9 : pyval :=
  PList [PDict [("id", PInt 200)];
         PDict [("case_id", PInt 5)];
         PDict [("id", PInt 202); ("case_id", PInt 5)]].

Definition hosted : string := "https://velocloud.testrail.com/index.php?/api/v2/".

(** Two suites of the same name, under project 3. *)
Definition suites3 : pyval :=
  PList [PDict [("id", PInt 8); ("name", PStr "Master")];
         PDict [("id", PInt 9); ("name", PStr "Master")]].

(** A stand-in for [json.dumps] that shows how many users the body has. *)
Definition dumps (v : pyval) : string :=
  match subscript v "input" with
  | Ok (PList l) => "users: " ++ Z_str (Z.of_nat (List.length l))
  | _ => "no users"
  end.

Definition server (history : list request) (rq : request) : http_reply :=
  let url := rq_url rq in
  if String.eqb url (Demo.api ++ "get_milestones/1") then Reply None (Some milestones)
  else if String.eqb url (Demo.api ++ "get_cases/1&milestone_id=4")
       then Reply None (Some cases4)
  else if String.eqb url (Demo.api ++ "get_users") then Reply None (Some users)
  else if String.eqb url (Demo.api ++ "get_plans/1") then Reply None (Some plans)
  else if String.eqb url (Demo.api ++ "get_plan/11") then Reply None (Some plan11)
  else if String.eqb url (Demo.api ++ "get_plan/12") then Reply None (Some plan12)
  else if String.eqb url (Demo.api ++ "get_results_for_run/21")
       then Reply None (Some results21)
  else if String.eqb url (Demo.api ++ "get_tests/9") then Reply None (Some tests9)
  else if String.eqb url (Demo.api ++ "get_tests/8")
       then Reply (Some 400) (Some (PDict [("error", PInt 17)]))
  else if String.eqb url (Demo.api ++ "get_tests/6") then Reply (Some 403) None
  else if String.eqb url (Demo.api ++ "get_suites/3") then Reply None (Some suites3)
  else if String.eqb url (Demo.api ++ "get_tests/5") then Undecodable None
  else if String.eqb url (hosted ++ "get_projects") then Reply None (Some Demo.projects)
  else if String.eqb url (hosted ++ "get_suites/1") then Reply None (Some Demo.suites)
  else if String.eqb url (hosted ++ "get_users") then Reply None (Some users)
  else Demo.server history rq.

(** A session whose suite was never resolved. *)
Definition no_suite : state :=
  {| obj := with_suite_id PNone (with_suite None Demo.client); sent := [] |}.


End Demo2.

(** The method only adds to the log of requests. *)
Definition appends {A} (m : M A) : Prop :=
  forall st, exists new, sent (snd (m st)) = (sent st ++ new)%list.

(** The method leaves [result_map] as it is. *)
Definition keeps_result_map {A} (m : M A) : Prop :=
  forall st, result_map (obj (snd (m st))) = result_map (obj st).

(* ================================================================= *)
(** ** Facts about the Python operations *)

Lemma prefix_app (a b : string) : prefix a (a ++ b) = true.
Proof.
  induction a as [|c a IH]; simpl.
  - destruct b; reflexivity.
  - rewrite IH. destruct (Ascii.ascii_dec c c); [reflexivity | contradiction].
Qed.

Lemma prefix_split (a h : string) :
  prefix a h = true -> exists b, h = a ++ b.
Proof.
  revert h. induction a as [|c a IH]; intros h H.
  - exists h. reflexivity.
  - destruct h as [|d h]; simpl in H; [discriminate|].
    destruct (Ascii.ascii_dec c d) as [->|]; [|discriminate].
    destruct (IH h H) as [b ->]. exists b. reflexivity.
Qed.

(** [contains] is the substring test: the needle sits somewhere between a
    left and a right remainder. *)
Lemma contains_spec (needle hay : string) :
  contains needle hay = true <-> exists l r, hay = l ++ needle ++ r.
Proof.
  split.
  - induction hay as [|c hay IH]; cbn [contains]; intros H.
    + rewrite orb_false_r in H. destruct (prefix_split _ _ H) as [b Hb].
      exists EmptyString, b. exact Hb.
    + apply orb_true_iff in H. destruct H as [H|H].
      * destruct (prefix_split _ _ H) as [b Hb]. exists EmptyString, b. exact Hb.
      * destruct (IH H) as (l & r & ->). exists (String c l), r. reflexivity.
  - intros (l & r & ->). induction l as [|c l IH].
    + change (EmptyString ++ needle ++ r) with (needle ++ r).
      destruct (needle ++ r) eqn:E; cbn [contains]; rewrite <- E, prefix_app;
        reflexivity.
    + change (String c l ++ needle ++ r) with (String c (l ++ needle ++ r)).
      cbn [contains]. rewrite IH. apply orb_true_r.
Qed.

Lemma contains_refl (s : string) : contains s s = true.
Proof.
  apply contains_spec. exists EmptyString, EmptyString.
  simpl. induction s as [|c s IH]; simpl; [reflexivity | now rewrite <- IH].
Qed.

Lemma key_eq_refl (x : pyval) : hashable x = true -> key_eq x x = true.
Proof.
  destruct x as [| b | z | s | l | d]; simpl; intros H; try discriminate.
  - reflexivity.
  - apply Z.eqb_refl.
  - apply Z.eqb_refl.
  - apply String.eqb_refl.
Qed.

Lemma key_eq_sym (x y : pyval) : key_eq x y = key_eq y x.
Proof.
  destruct x as [| b | z | s | l | d], y as [| b' | z' | s' | l' | d'];
    simpl; try reflexivity; try apply Z.eqb_sym; apply String.eqb_sym.
Qed.

Lemma key_eq_trans (x y z : pyval) :
  key_eq x y = true -> key_eq y z = true -> key_eq x z = true.
Proof.
  destruct x as [| b | n | s | l | d], y as [| b' | n' | s' | l' | d'],
           z as [| b'' | n'' | s'' | l'' | d''];
    simpl; try discriminate; try reflexivity;
    rewrite ?Z.eqb_eq, ?String.eqb_eq; congruence.
Qed.

(** On two integers, or on two strings, [==] is equality. *)
Lemma key_eq_int (a b : Z) : key_eq (PInt a) (PInt b) = true <-> a = b.
Proof. simpl. apply Z.eqb_eq. Qed.

Lemma key_eq_str (a b : string) : key_eq (PStr a) (PStr b) = true <-> a = b.
Proof. simpl. apply String.eqb_eq. Qed.

Lemma key_in_spec (x : pyval) (l : list pyval) :
  key_in x l = true <-> exists y, In y l /\ key_eq x y = true.
Proof. apply existsb_exists. Qed.

Lemma key_in_false (x : pyval) (l : list pyval) :
  key_in x l = false <-> forall y, In y l -> key_eq x y = false.
Proof.
  unfold key_in. induction l as [|a l IH]; simpl.
  - split; [intros _ y [] | reflexivity].
  - rewrite orb_false_iff, IH. split.
    + intros [H1 H2] y [<-|Hy]; auto.
    + intros H. split; [apply H; now left | intros y Hy; apply H; now right].
Qed.

Lemma key_in_eq (x y : pyval) (l : list pyval) :
  key_eq x y = true -> key_in x l = key_in y l.
Proof.
  intros H. unfold key_in. induction l as [|a l IH]; simpl; [reflexivity|].
  rewrite IH. f_equal.
  destruct (key_eq x a) eqn:E1, (key_eq y a) eqn:E2; try reflexivity.
  - rewrite key_eq_sym in H. rewrite (key_eq_trans _ _ _ H E1) in E2. discriminate.
  - rewrite (key_eq_trans _ _ _ H E2) in E1. discriminate.
Qed.

(** *** Sets *)

Lemma key_in_filter_false (f : pyval -> bool) (x : pyval) (l : list pyval) :
  key_in x l = false -> key_in x (filter f l) = false.
Proof.
  rewrite !key_in_false. intros H y Hy. apply filter_In in Hy. apply H, Hy.
Qed.

Lemma distinct_filter (f : pyval -> bool) (l : list pyval) :
  distinct l -> distinct (filter f l).
Proof.
  induction 1 as [|x l Hx Hl IH]; simpl; [constructor|].
  destruct (f x); [constructor|]; auto using key_in_filter_false.
Qed.

Lemma key_in_perm (x : pyval) (l l' : list pyval) :
  Permutation l l' -> key_in x l = key_in x l'.
Proof.
  unfold key_in. induction 1; simpl; try congruence.
  destruct (key_eq x x0), (key_eq x y); reflexivity.
Qed.

Lemma distinct_perm (l l' : list pyval) :
  Permutation l l' -> distinct l -> distinct l'.
Proof.
  induction 1 as [| x l l' Hp IH | x y l | l l' l'' _ IH1 _ IH2]; intros Hd.
  - constructor.
  - inversion Hd; subst. constructor; [|auto].
    now rewrite <- (key_in_perm x l l' Hp).
  - inversion Hd as [|? ? Hy Hd']; subst. inversion Hd' as [|? ? Hx Hl]; subst.
    unfold key_in in Hy. simpl in Hy. apply orb_false_iff in Hy as [Hyx Hyl].
    constructor; [|constructor; assumption].
    unfold key_in. simpl. rewrite key_eq_sym, Hyx. exact Hx.
  - auto.
Qed.

Lemma distinct_NoDup (l : list pyval) :
  forallb hashable l = true -> distinct l -> NoDup l.
Proof.
  intros Hh Hd. induction Hd as [|x l Hx Hl IH]; [constructor|].
  simpl in Hh. apply andb_true_iff in Hh as [Hhx Hhl].
  constructor; [|auto].
  intros Hin. rewrite key_in_false in Hx. specialize (Hx x Hin).
  rewrite (key_eq_refl x Hhx) in Hx. discriminate Hx.
Qed.

Lemma set_of_list_In (x : pyval) (l : list pyval) :
  In x (set_of_list l) -> In x l.
Proof.
  induction l as [|a l IH]; simpl; [tauto|].
  intros [->|H]; [now left|]. apply filter_In in H. right. apply IH, H.
Qed.

Lemma set_of_list_distinct (l : list pyval) : distinct (set_of_list l).
Proof.
  induction l as [|a l IH]; simpl; constructor.
  - apply key_in_false. intros y Hy. apply filter_In in Hy as [_ Hy].
    now apply negb_true_iff in Hy.
  - now apply distinct_filter.
Qed.

Lemma set_of_list_covers (x : pyval) (l : list pyval) :
  hashable x = true -> In x l -> key_in x (set_of_list l) = true.
Proof.
  intros Hx. induction l as [|a l IH]; simpl; [tauto|].
  intros [->|Hin]; unfold key_in; simpl.
  - now rewrite key_eq_refl.
  - destruct (key_eq x a) eqn:Exa; [reflexivity|]. simpl.
    specialize (IH Hin). apply key_in_spec in IH as (z & Hz & Hxz).
    apply existsb_exists. exists z. split; [|exact Hxz].
    apply filter_In. split; [exact Hz|]. apply negb_true_iff.
    destruct (key_eq a z) eqn:Eaz; [|reflexivity].
    rewrite key_eq_sym in Eaz. rewrite (key_eq_trans _ _ _ Hxz Eaz) in Exa.
    discriminate.
Qed.

Lemma key_in_set_of_list (x : pyval) (l : list pyval) :
  forallb hashable l = true -> key_in x (set_of_list l) = key_in x l.
Proof.
  intros Hh. destruct (key_in x l) eqn:E.
  - apply key_in_spec in E as (y & Hy & Hxy).
    assert (Hhy : hashable y = true) by (rewrite forallb_forall in Hh; auto).
    pose proof (set_of_list_covers y l Hhy Hy) as Hc.
    now rewrite (key_in_eq x y _ Hxy).
  - apply key_in_false. intros y Hy. rewrite key_in_false in E.
    apply E. now apply set_of_list_In.
Qed.

Lemma forallb_hashable_sub (l l' : list pyval) :
  (forall x, In x l' -> In x l) ->
  forallb hashable l = true -> forallb hashable l' = true.
Proof.
  rewrite !forallb_forall. auto.
Qed.

(** The list Python builds from [set(cs) - set(es)]. *)
Lemma difference_spec {rt : Runtime} (cs es : list pyval) :
  forallb hashable cs = true ->
  forallb hashable es = true ->
  let r := set_iter (set_difference (set_of_list cs) (set_of_list es)) in
  (forall x, In x r -> In x cs /\ key_in x es = false) /\
  (forall x, In x cs -> key_in x es = false -> key_in x r = true) /\
  distinct r /\ NoDup r.
Proof.
  intros Hcs Hes r.
  pose proof (set_iter_perm (set_difference (set_of_list cs) (set_of_list es)))
    as Hp. fold r in Hp.
  assert (Hin : forall x, In x r -> In x cs /\ key_in x es = false).
  { intros x Hx. apply (Permutation_in _ Hp) in Hx.
    apply filter_In in Hx as [Hx Hn]. apply negb_true_iff in Hn.
    rewrite key_in_set_of_list in Hn by assumption.
    split; [now apply set_of_list_In | exact Hn]. }
  assert (Hd : distinct r).
  { apply (distinct_perm _ _ (Permutation_sym Hp)).
    apply distinct_filter, set_of_list_distinct. }
  repeat split; try assumption.
  - apply Hin; assumption.
  - apply Hin; assumption.
  - intros x Hx Hn. rewrite (key_in_perm x _ _ Hp).
    assert (Hhx : hashable x = true) by (rewrite forallb_forall in Hcs; auto).
    pose proof (set_of_list_covers x cs Hhx Hx) as Hc.
    apply key_in_spec in Hc as (z & Hz & Hxz).
    apply key_in_spec. exists z. split; [|exact Hxz].
    apply filter_In. split; [exact Hz|]. apply negb_true_iff.
    rewrite key_in_set_of_list by assumption.
    rewrite key_eq_sym in Hxz. now rewrite (key_in_eq z x es Hxz).
  - apply distinct_NoDup; [|exact Hd].
    apply (forallb_hashable_sub cs); [|exact Hcs]. intros x Hx. apply Hin, Hx.
Qed.

(* ================================================================= *)
(** ** Running method bodies *)

Lemma bind_ok {A B} (m : M A) (k : A -> M B) (st st' : state) (a : A) :
  m st = (Ok a, st') -> bind m k st = k a st'.
Proof. unfold bind. now intros ->. Qed.

Lemma bind_raise {A B} (m : M A) (k : A -> M B) (st st' : state) (e : exn) :
  m st = (Raise e, st') -> bind m k st = (Raise e, st').
Proof. unfold bind. now intros ->. Qed.

Lemma lift_ok {A B} (o : outcome A) (k : A -> M B) (st : state) (a : A) :
  o = Ok a -> bind (lift o) k st = k a st.
Proof. now intros ->. Qed.

Lemma first_named_none (name : string) (items : list pyval) :
  Forall named items ->
  (forall p, In p items -> ~ name_is name p) ->
  first_named name items = Ok PNone.
Proof.
  induction 1 as [|p items [n Hn] _ IH]; intros Hno; simpl; [reflexivity|].
  rewrite Hn. simpl.
  destruct (str_eq name n) eqn:E.
  - exfalso. apply (Hno p (or_introl eq_refl)). unfold name_is.
    destruct n; simpl in E; try discriminate.
    apply String.eqb_eq in E. now subst.
  - apply IH. intros q Hq. apply Hno. now right.
Qed.

Lemma first_named_first (name : string) (before after : list pyval) (p : pyval) :
  Forall named before ->
  (forall q, In q before -> ~ name_is name q) ->
  name_is name p ->
  first_named name (before ++ p :: after) = Ok p.
Proof.
  induction 1 as [|q before [n Hn] _ IH]; intros Hno Hp; simpl.
  - rewrite Hp. simpl. now rewrite String.eqb_refl.
  - rewrite Hn. simpl. destruct (str_eq name n) eqn:E.
    + exfalso. apply (Hno q (or_introl eq_refl)). unfold name_is.
      destruct n; simpl in E; try discriminate.
      apply String.eqb_eq in E. now subst.
    + apply IH; [|exact Hp]. intros r Hr. apply Hno. now right.
Qed.

Section Properties.

Context {rt : Runtime}.
Variable server : list request -> request -> http_reply.

(** *** Transport *)

Lemma send_request_ok (m : method) (uri : string) (data : pyval) (st : state)
    (body : option pyval) :
  server (sent st) (build_request (obj st) m uri data) = Reply None body ->
  __send_request server m uri data st
  = (Ok (decoded body), after st (build_request (obj st) m uri data)).
Proof. unfold __send_request. now intros ->. Qed.

(** Whatever the reply, a call of the transport sends exactly one request
    and leaves the object alone. *)
Lemma send_request_state (m : method) (uri : string) (data : pyval) (st : state) :
  snd (__send_request server m uri data st)
  = after st (build_request (obj st) m uri data).
Proof.
  unfold __send_request.
  destruct (server _ _) as [[code|] body | code]; [|reflexivity|reflexivity].
  destruct (error_text _); reflexivity.
Qed.

(** Only an HTTP error status makes the transport raise [APIError]. *)
Lemma send_request_api_error (m : method) (uri : string) (data : pyval) (st : state) :
  is_api_error (fst (__send_request server m uri data st)) = true ->
  exists code body,
    server (sent st) (build_request (obj st) m uri data) = Reply (Some code) body.
Proof.
  unfold __send_request.
  destruct (server _ _) as [[code|] body | code];
    [eauto | discriminate | discriminate].
Qed.

Lemma default_project_id_ok (arg pid : pyval) (st st' : state) :
  default_project_id arg st = (Ok pid, st') ->
  st' = st /\ truthy pid = true /\ default_project_id pid st = (Ok pid, st).
Proof.
  unfold default_project_id, project_id, bind, get_self, ret, raise.
  destruct (truthy arg) eqn:E.
  - intros [= <- <-]. now rewrite E.
  - destruct (truthy (__project_id (obj st))) eqn:E'; [|discriminate].
    intros [= <- <-]. now rewrite E'.
Qed.

(** *** Reading an identifier that was never resolved *)

Lemma new_Testrail_unresolved (u p base : string) :
  __project_id (new_Testrail u p base) = PNone
  /\ __suite_id (new_Testrail u p base) = PNone.
Proof. split; reflexivity. Qed.

Lemma project_setter_None (st : state) :
  project_setter server None st
  = (Ok tt, {| obj := with_project_id PNone (with_project None (obj st));
               sent := sent st |}).
Proof. reflexivity. Qed.

Lemma get_project_by_name_obj (name : string) (st : state) :
  obj (snd (__get_project_by_name server name st)) = obj st.
Proof.
  unfold __get_project_by_name, __get_projects, send_get, bind.
  pose proof (send_request_state GET "get_projects" PNone st) as Hs.
  destruct (__send_request server GET "get_projects" PNone st) as [[ps|e] st1];
    simpl in Hs; subst st1; [|reflexivity].
  unfold lift. destruct (py_iter ps); [|reflexivity].
  destruct (first_named name a); reflexivity.
Qed.

(** An assignment of [project] that raises leaves the stored id as it
    was: a failed resolution does not resolve. *)
Lemma project_setter_raise_keeps_id (name : option string) (st st' : state) (e : exn) :
  project_setter server name st = (Raise e, st') ->
  __project_id (obj st') = __project_id (obj st).
Proof.
  destruct name as [name|]; [|discriminate].
  unfold project_setter, bind at 1, modify_self at 1.
  set (st0 := {| obj := with_project (Some name) (obj st); sent := sent st |}).
  unfold bind.
  pose proof (get_project_by_name_obj name st0) as Ho.
  destruct (__get_project_by_name server name st0) as [[p|e0] st1]; simpl in Ho.
  - unfold lift. destruct (subscript p "id"); [discriminate|].
    intros [= _ <-]. now rewrite Ho.
  - intros [= _ <-]. now rewrite Ho.
Qed.

(** C5.  In every session whose project id (respectively suite id) is
    unset -- [None], as the constructor leaves it, or any other value the
    guard [if self.__project_id] takes for false -- reading the
    [project_id] (respectively [suite_id]) property raises the
    configuration error [EnvironmentError] whose message tells the caller
    to assign the name first; the outcome is not an [APIError], and the
    session and the request log are untouched. *)
Theorem unresolved_id_raises_configuration_error (st : state) :
  (truthy (__project_id (obj st)) = false ->
   project_id st
   = (Raise (EnvironmentError
               ("Define the project name as an object attribute like so"
                  ++ newline ++ "client.project = 'Velocloud'")), st)
   /\ is_api_error (fst (project_id st)) = false)
  /\
  (truthy (__suite_id (obj st)) = false ->
   suite_id st
   = (Raise (EnvironmentError
               ("Define the suite name as an object attribute like so"
                  ++ newline ++ "client.suite = 'Master'")), st)
   /\ is_api_error (fst (suite_id st)) = false).
Proof.
  split; intros H.
  - unfold project_id, bind, get_self, raise. rewrite H. split; reflexivity.
  - unfold suite_id, bind, get_self, raise. rewrite H. split; reflexivity.
Qed.

(** *** Assigning [run_id] *)

(** C10.  Assigning the [run_id] property to [R], when the fetch of the
    tests of [R] succeeds, leaves a run-case cache that holds the single
    key [R], bound to the freshly fetched case list: whatever the cache
    held before, every key different from [R] is absent afterwards.  The
    assignment sends that one GET and stores [R] as the current run. *)
Theorem run_id_assignment_replaces_cache (st : state) (R : pyval)
    (body : option pyval) :
  hashable R = true ->
  server (sent st) (build_request (obj st) GET ("get_tests/" ++ py_str R) PNone)
  = Reply None body ->
  let st' := snd (run_id_setter server R st) in
  fst (run_id_setter server R st) = Ok tt
  /\ cases_in_run (obj st') = [(R, decoded body)]
  /\ __run_id (obj st') = R
  /\ (forall K, key_eq K R = false -> cache_lookup K (cases_in_run (obj st')) = None)
  /\ cache_lookup R (cases_in_run (obj st')) = Some (decoded body)
  /\ sent st'
     = (sent st ++ [build_request (obj st) GET ("get_tests/" ++ py_str R) PNone])%list.
Proof.
  intros HR Hsrv.
  assert (E : run_id_setter server R st
              = (Ok tt,
                 {| obj := with_cases_in_run [(R, decoded body)]
                             (with_run_id R (obj st));
                    sent := (sent st ++ [build_request (obj st) GET
                                           ("get_tests/" ++ py_str R) PNone])%list |})).
  { unfold run_id_setter, bind at 1, modify_self at 1.
    unfold get_cases_in_run, send_get.
    erewrite bind_ok
      by (apply send_request_ok; simpl; unfold build_request in *; simpl;
          exact Hsrv).
    rewrite HR. reflexivity. }
  rewrite E. simpl. repeat split.
  - intros K HK. now rewrite HK.
  - now rewrite key_eq_refl.
Qed.

(** *** Resolving a project or a suite by name *)

(** C9.  Resolution of a project by name: when the server answers the
    GET of [get_projects] with a list of records that have a name, and no
    record has exactly the given name, [__get_project_by_name] returns
    [None] and does not raise; when some record has exactly the name, it
    returns the first such record.  Resolution of a suite by name is the
    same over the answer to [get_suites/<project id>], the project id
    being the argument or, without one, the id stored in the session.
    Matching is string equality ([name_is]). *)
Theorem name_resolution_absent_or_first_match (name : string) (st : state) :
  (forall body items,
      let rq := build_request (obj st) GET "get_projects" PNone in
      server (sent st) rq = Reply None body ->
      py_iter (decoded body) = Ok items ->
      (Forall named items ->
       (forall p, In p items -> ~ name_is name p) ->
       __get_project_by_name server name st = (Ok PNone, after st rq))
      /\ (forall before p rest,
            items = (before ++ p :: rest)%list ->
            Forall named before ->
            (forall q, In q before -> ~ name_is name q) ->
            name_is name p ->
            __get_project_by_name server name st = (Ok p, after st rq)))
  /\
  (forall arg body items,
      let pid := if truthy arg then arg else __project_id (obj st) in
      let rq := build_request (obj st) GET ("get_suites/" ++ py_str pid) PNone in
      truthy pid = true ->
      server (sent st) rq = Reply None body ->
      py_iter (decoded body) = Ok items ->
      (Forall named items ->
       (forall s, In s items -> ~ name_is name s) ->
       __get_suite_by_name server name arg st = (Ok PNone, after st rq))
      /\ (forall before s rest,
            items = (before ++ s :: rest)%list ->
            Forall named before ->
            (forall q, In q before -> ~ name_is name q) ->
            name_is name s ->
            __get_suite_by_name server name arg st = (Ok s, after st rq))).
Proof.
  split.
  - intros body items rq Hs Hit.
    assert (E : __get_project_by_name server name st
                = (first_named name items, after st rq)).
    { unfold __get_project_by_name, __get_projects, send_get.
      rewrite (bind_ok _ _ _ _ _ (send_request_ok _ _ _ _ _ Hs)).
      now rewrite (lift_ok _ _ _ _ Hit). }
    split.
    + intros Hnamed Hno. now rewrite E, (first_named_none name items Hnamed Hno).
    + intros before p rest -> Hnamed Hno Hp.
      now rewrite E, (first_named_first name before rest p Hnamed Hno Hp).
  - intros arg body items pid rq Hpid Hs Hit.
    assert (Hd : default_project_id arg st = (Ok pid, st)).
    { unfold default_project_id, project_id, bind, get_self, ret. unfold pid in *.
      destruct (truthy arg); [reflexivity|]. now rewrite Hpid. }
    assert (Hd' : default_project_id pid st = (Ok pid, st)).
    { unfold default_project_id. now rewrite Hpid. }
    assert (E : __get_suite_by_name server name arg st
                = (first_named name items, after st rq)).
    { unfold __get_suite_by_name, __get_suites.
      rewrite (bind_ok _ _ _ _ _ Hd).
      rewrite (bind_ok _ _ _ _ _
                 (eq_trans (bind_ok _ _ _ _ _ Hd')
                    (send_request_ok GET _ PNone st body Hs))).
      now rewrite (lift_ok _ _ _ _ Hit). }
    split.
    + intros Hnamed Hno. now rewrite E, (first_named_none name items Hnamed Hno).
    + intros before s rest -> Hnamed Hno Hp.
      now rewrite E, (first_named_first name before rest s Hnamed Hno Hp).
Qed.

(** *** Candidate case ids against the ids of a run *)

Lemma check_test_id_duplicate_run (st st1 : state) (cs : list pyval)
    (run_id tcl : pyval) (tests E : list pyval) :
  send_get server ("get_tests/" ++ py_str run_id) st = (Ok tcl, st1) ->
  py_iter tcl = Ok tests ->
  case_ids_of tests = Ok E ->
  forallb hashable cs = true ->
  forallb hashable E = true ->
  check_test_id_duplicate server (PList cs) run_id st
  = (Ok (set_iter (set_difference (set_of_list cs) (set_of_list E))), st1).
Proof.
  intros Hget Hit HE Hcs HhE. unfold check_test_id_duplicate.
  rewrite (bind_ok _ _ _ _ _ Hget), (lift_ok _ _ _ _ Hit), (lift_ok _ _ _ _ HE).
  unfold py_set. simpl py_iter. simpl obind. rewrite Hcs, HhE. reflexivity.
Qed.

(** C3.  With the tests of the run fetched and [E] the list of their case
    ids, [check_test_id_duplicate(candidates, run)] returns a list [r]
    that is the set difference: every member of [r] is a candidate and is
    not in [E]; every candidate that is not in [E] is in [r] (up to [==],
    and as itself when no other candidate equals it); and no two members
    of [r] are equal. *)
Theorem check_test_id_duplicate_is_set_difference (st st1 : state)
    (cs : list pyval) (run_id tcl : pyval) (tests E : list pyval) :
  send_get server ("get_tests/" ++ py_str run_id) st = (Ok tcl, st1) ->
  py_iter tcl = Ok tests ->
  case_ids_of tests = Ok E ->
  forallb hashable cs = true ->
  forallb hashable E = true ->
  exists r,
    check_test_id_duplicate server (PList cs) run_id st = (Ok r, st1)
    /\ (forall x, In x r -> In x cs /\ key_in x E = false)
    /\ (forall x, In x cs -> key_in x E = false -> key_in x r = true)
    /\ (forall x, In x cs -> key_in x E = false ->
                  (forall y, In y cs -> key_eq x y = true -> y = x) -> In x r)
    /\ distinct r
    /\ NoDup r.
Proof.
  intros Hget Hit HE Hcs HhE.
  exists (set_iter (set_difference (set_of_list cs) (set_of_list E))).
  destruct (difference_spec cs E Hcs HhE) as (H1 & H2 & H3 & H4).
  split; [now apply (check_test_id_duplicate_run st st1 cs run_id tcl tests E)|].
  repeat split; try assumption; try (now apply H1).
  intros x Hx Hn Huniq.
  destruct (proj1 (key_in_spec _ _) (H2 x Hx Hn)) as (y & Hy & Hxy).
  assert (y = x) as -> by (apply Huniq; [apply H1, Hy | exact Hxy]).
  exact Hy.
Qed.

(** *** Finding a run in a plan *)

Lemma scan_runs_find (run_name : string) (items : list pyval)
    (runs : list (string * pyval)) :
  Forall2 (fun each r => first_run each (fst r) (snd r)) items runs ->
  scan_runs run_name items = Ok (first_containing run_name runs).
Proof.
  unfold first_containing.
  induction 1 as [|each [n i] items runs (rs & r & H1 & H2 & H3 & H4) _ IH];
    simpl; [reflexivity|].
  simpl in H3, H4. rewrite H1. simpl. rewrite H2. simpl. rewrite H3. simpl.
  destruct (contains run_name n); [exact H4 | exact IH].
Qed.

(** C8.  [get_run_id(plan_name, run_name)] resolves the plan by name,
    fetches it, and scans its entries in order: it returns the id of the
    first entry whose first run has a name that contains [run_name] as a
    substring, and [None] when no entry has one. *)
Theorem get_run_id_first_substring_match
    (plan_name run_name : string) (st st1 st2 : state)
    (plan plan_id complete_plan entries : pyval) (items : list pyval)
    (runs : list (string * pyval)) :
  _get_plan_by_name server plan_name PNone st = (Ok plan, st1) ->
  subscript plan "id" = Ok plan_id ->
  _get_plan server plan_id st1 = (Ok complete_plan, st2) ->
  subscript complete_plan "entries" = Ok entries ->
  py_iter entries = Ok items ->
  Forall2 (fun each r => first_run each (fst r) (snd r)) items runs ->
  get_run_id server plan_name run_name st
  = (Ok (first_containing run_name runs), st2)
  /\ ((forall r, In r runs -> contains run_name (fst r) = false) ->
      get_run_id server plan_name run_name st = (Ok PNone, st2)).
Proof.
  intros Hplan Hid Hcp Hent Hit Hruns.
  assert (E : get_run_id server plan_name run_name st
              = (Ok (first_containing run_name runs), st2)).
  { unfold get_run_id.
    rewrite (bind_ok _ _ _ _ _ Hplan), (lift_ok _ _ _ _ Hid),
      (bind_ok _ _ _ _ _ Hcp), (lift_ok _ _ _ _ Hent), (lift_ok _ _ _ _ Hit).
    unfold lift. now rewrite (scan_runs_find run_name items runs Hruns). }
  split; [exact E|]. intros Hno. rewrite E. unfold first_containing.
  destruct (find _ runs) as [r|] eqn:F; [|reflexivity].
  apply find_some in F as [Hin Hc]. rewrite (Hno r Hin) in Hc. discriminate.
Qed.

(** *** Posting a result *)

Lemma tc_list_of_cached (run_id tc_list : pyval) (st : state) :
  hashable run_id = true ->
  cache_lookup run_id (cases_in_run (obj st)) = Some tc_list ->
  tc_list_of server run_id st = (Ok tc_list, st).
Proof.
  intros Hh Hc. unfold tc_list_of, bind, get_self. now rewrite Hh, Hc.
Qed.

Lemma tc_list_of_miss (run_id : pyval) (st : state) :
  hashable run_id = true ->
  cache_lookup run_id (cases_in_run (obj st)) = None ->
  tc_list_of server run_id st = get_cases_in_run server run_id st.
Proof.
  intros Hh Hc. unfold tc_list_of, bind, get_self. now rewrite Hh, Hc.
Qed.

(** Looking a run's case list up never touches the object and sends at
    most the one GET of the tests of the run. *)
Lemma tc_list_of_state (run_id : pyval) (st : state) :
  snd (tc_list_of server run_id st) = st
  \/ snd (tc_list_of server run_id st)
     = after st (build_request (obj st) GET ("get_tests/" ++ py_str run_id) PNone).
Proof.
  unfold tc_list_of, bind, get_self.
  destruct (hashable run_id); [|now left].
  destruct (cache_lookup _ _); [now left|].
  right. apply send_request_state.
Qed.

Lemma check_case_state (run_id : pyval) (case_id : Z) (st : state) :
  snd (__check_case_in_run server run_id case_id st)
  = snd (tc_list_of server run_id st).
Proof.
  unfold __check_case_in_run, bind.
  destruct (tc_list_of server run_id st) as [[tcl|e] st1]; [|reflexivity].
  unfold lift. destruct (py_iter tcl); [|reflexivity].
  destruct (find_case case_id a); reflexivity.
Qed.

Lemma check_case_obj (run_id : pyval) (case_id : Z) (st : state) :
  obj (snd (__check_case_in_run server run_id case_id st)) = obj st.
Proof.
  rewrite check_case_state.
  destruct (tc_list_of_state run_id st) as [-> | ->]; reflexivity.
Qed.

Lemma find_case_absent (case_id : Z) (items : list pyval) :
  (forall t, In t items ->
             exists d, t = PDict d
                       /\ int_eq case_id (dict_get d "case_id" PNone) = false) ->
  find_case case_id items = Ok (PBool false).
Proof.
  induction items as [|t items IH]; intros H; simpl; [reflexivity|].
  destruct (H t (or_introl eq_refl)) as (d & -> & Hd).
  unfold dict_get in Hd. simpl.
  destruct (assoc "case_id" d); simpl; try rewrite Hd; apply IH;
    intros t' Ht'; apply H; now right.
Qed.

(** C6.  When the case list of the run -- cached, or fetched by this
    call -- holds no record whose case id equals [case_id],
    [update_test_result] returns [False]: it does not raise, and the only
    request it may have sent is the GET that fetched the list, so no POST
    is issued. *)
Theorem update_test_result_absent_case (st st1 : state) (run_id : pyval)
    (case_id : Z) (report : TestReport) (tc_list : pyval) (items : list pyval) :
  tc_list_of server run_id st = (Ok tc_list, st1) ->
  py_iter tc_list = Ok items ->
  (forall t, In t items ->
             exists d, t = PDict d
                       /\ int_eq case_id (dict_get d "case_id" PNone) = false) ->
  update_test_result server run_id case_id report st = (Ok (PBool false), st1)
  /\ obj st1 = obj st
  /\ (exists new, sent st1 = (sent st ++ new)%list
                  /\ existsb is_post new = false).
Proof.
  intros Htc Hit Habs.
  assert (E : __check_case_in_run server run_id case_id st
              = (Ok (PBool false), st1)).
  { unfold __check_case_in_run.
    rewrite (bind_ok _ _ _ _ _ Htc), (lift_ok _ _ _ _ Hit).
    unfold lift. now rewrite (find_case_absent case_id items Habs). }
  split.
  { unfold update_test_result. now rewrite (bind_ok _ _ _ _ _ E). }
  pose proof (tc_list_of_state run_id st) as Hs. rewrite Htc in Hs. simpl in Hs.
  destruct Hs as [-> | ->].
  - split; [reflexivity|]. exists []. rewrite app_nil_r. split; reflexivity.
  - split; [reflexivity|]. eexists. split; reflexivity.
Qed.

(** C4.  The [result_map] the constructor builds maps ["passed"] to 1,
    ["failed"] to 5 and, through [.get(outcome, 5)], every other outcome
    to 5.  Hence, on an object whose [result_map] is still the one the
    constructor built (no method assigns it), whenever the case resolves
    to a test id [T], the only
    POST [update_test_result] sends goes to [add_results/<run_id>] with a
    body that holds a single result whose [test_id] is [T] and whose
    [status_id] is 1 or 5; the call returns what that POST returns.  The
    POST is sent for every [T] the guard [if not test_id] lets through;
    for the others the call returns [False] and sends nothing. *)
Theorem update_test_result_posts_test_id_and_status (user password base_url : string)
    (st st1 : state) (run_id : pyval) (case_id : Z) (report : TestReport)
    (T : pyval) :
  result_map (obj st) = result_map (new_Testrail user password base_url) ->
  __check_case_in_run server run_id case_id st = (Ok T, st1) ->
  (dict_get (result_map (new_Testrail user password base_url)) "passed" (PInt 5)
   = PInt 1
   /\ dict_get (result_map (new_Testrail user password base_url)) "failed" (PInt 5)
      = PInt 5
   /\ (forall o, o <> "passed" -> o <> "failed" ->
                 dict_get (result_map (new_Testrail user password base_url)) o
                   (PInt 5) = PInt 5))
  /\ exists status,
      (status = 1 \/ status = 5)
      /\ dict_get (result_map (obj st)) (outcome_ report) (PInt 5) = PInt status
      /\ let body :=
           PDict [("results",
                   PList [PDict [("test_id", T);
                                 ("status_id", PInt status);
                                 ("elapsed",
                                  PStr (strftime_hms (Qceiling (duration report))));
                                 ("comment", PStr (longreprtext report))]])] in
         let uri := "add_results/" ++ py_str run_id in
         let post := build_request (obj st) POST uri body in
         update_test_result server run_id case_id report st
         = (if truthy T then send_post server uri body st1
            else (Ok (PBool false), st1))
         /\ sent (snd (update_test_result server run_id case_id report st))
            = (sent st1 ++ (if truthy T then [post] else []))%list
         /\ rq_data post = Some body.
Proof.
  intros Hmap Hcheck.
  assert (Hobj : obj st1 = obj st).
  { pose proof (check_case_obj run_id case_id st) as H.
    now rewrite Hcheck in H. }
  assert (Hget : forall o, dict_get (result_map (obj st)) o (PInt 5)
                           = if String.eqb o "passed" then PInt 1 else PInt 5).
  { intros o. rewrite Hmap. unfold dict_get. simpl.
    destruct (String.eqb o "passed"); [reflexivity|].
    destruct (String.eqb o "failed"); reflexivity. }
  split.
  { rewrite <- Hmap, !Hget. repeat split; try reflexivity.
    intros o Hp _. apply String.eqb_neq in Hp. now rewrite Hget, Hp. }
  exists (if String.eqb (outcome_ report) "passed" then 1 else 5).
  split; [destruct (String.eqb _ _); auto|].
  split; [rewrite Hget; now destruct (String.eqb _ _)|].
  cbv zeta.
  assert (E : update_test_result server run_id case_id report st
              = if truthy T then
                  send_post server ("add_results/" ++ py_str run_id)
                    (PDict [("results",
                       PList [PDict [("test_id", T);
                         ("status_id",
                          PInt (if String.eqb (outcome_ report) "passed"
                                then 1 else 5));
                         ("elapsed",
                          PStr (strftime_hms (Qceiling (duration report))));
                         ("comment", PStr (longreprtext report))]])]) st1
                else (Ok (PBool false), st1)).
  { unfold update_test_result. rewrite (bind_ok _ _ _ _ _ Hcheck).
    destruct (truthy T); [|reflexivity].
    cbn [negb]. unfold bind at 1, get_self. unfold result_record.
    rewrite Hobj, Hget. now destruct (String.eqb _ _). }
  split; [exact E|]. split; [|reflexivity].
  rewrite E. destruct (truthy T).
  - unfold send_post. rewrite send_request_state. simpl. now rewrite Hobj.
  - simpl. now rewrite app_nil_r.
Qed.

(** A call of [update_test_result] ends in the state its lookup of the
    case ends in, or one POST later. *)
Lemma update_test_result_state (run_id : pyval) (case_id : Z)
    (report : TestReport) (st : state) :
  let st1 := snd (__check_case_in_run server run_id case_id st) in
  snd (update_test_result server run_id case_id report st) = st1
  \/ exists body,
      snd (update_test_result server run_id case_id report st)
      = after st1 (build_request (obj st1) POST
                     ("add_results/" ++ py_str run_id) body).
Proof.
  unfold update_test_result, bind.
  destruct (__check_case_in_run server run_id case_id st) as [[T|e] st1]; simpl;
    [|now left].
  destruct (negb (truthy T)); [now left|].
  right. eexists. unfold send_post. apply send_request_state.
Qed.

(** C2 (as the code has it).  When [run_id] is not a key of the run-case
    cache, [update_test_result] fetches the tests of the run with a GET,
    but stores nothing: the object, and with it the cache, is the same
    after the call.  A second call with the same run id therefore sends
    the same GET again.  (Only an assignment of the [run_id] property
    fills the cache.) *)
Theorem update_test_result_fetches_without_caching (st : state)
    (run_id : pyval) (case_id : Z) (report : TestReport) :
  hashable run_id = true ->
  cache_lookup run_id (cases_in_run (obj st)) = None ->
  let fetch := build_request (obj st) GET ("get_tests/" ++ py_str run_id) PNone in
  let st1 := snd (update_test_result server run_id case_id report st) in
  obj st1 = obj st
  /\ cache_lookup run_id (cases_in_run (obj st1)) = None
  /\ (exists rest, sent st1 = (sent st ++ fetch :: rest)%list)
  /\ (forall case_id' report',
        exists rest',
          sent (snd (update_test_result server run_id case_id' report' st1))
          = (sent st1 ++ fetch :: rest')%list).
Proof.
  intros Hh.
  assert (Hcall : forall s c r,
            cache_lookup run_id (cases_in_run (obj s)) = None ->
            obj (snd (update_test_result server run_id c r s)) = obj s
            /\ exists rest,
                sent (snd (update_test_result server run_id c r s))
                = (sent s ++ build_request (obj s) GET
                                 ("get_tests/" ++ py_str run_id) PNone :: rest)%list).
  { intros s c r Hmiss.
    pose proof (check_case_state run_id c s) as Hs.
    rewrite (tc_list_of_miss run_id s Hh Hmiss) in Hs.
    unfold get_cases_in_run, send_get in Hs. rewrite send_request_state in Hs.
    destruct (update_test_result_state run_id c r s) as [E | [body E]];
      rewrite E, Hs; simpl.
    - split; [reflexivity|]. exists []. reflexivity.
    - split; [reflexivity|]. eexists. rewrite <- app_assoc. reflexivity. }
  intros Hmiss fetch st1.
  destruct (Hcall st case_id report Hmiss) as [Hobj Hsent].
  fold st1 in Hobj, Hsent.
  assert (Hmiss1 : cache_lookup run_id (cases_in_run (obj st1)) = None)
    by now rewrite Hobj.
  repeat split; try assumption.
  intros c' r'. destruct (Hcall st1 c' r' Hmiss1) as [_ Hsent1].
  rewrite Hobj in Hsent1. exact Hsent1.
Qed.

(** *** Creating and updating plan entries *)

(** The guard of line 420 cannot fire: [include_all] is false only when
    [case_ids] is true. *)
Lemma empty_run_guard_unreachable (case_ids : pyval) :
  let include_all := if truthy case_ids then false else true in
  negb include_all && negb (truthy case_ids) = false.
Proof. simpl. now destruct (truthy case_ids). Qed.

Lemma get_plan_by_name_state (plan_name : string) (arg plan : pyval)
    (st st1 : state) :
  _get_plan_by_name server plan_name arg st = (Ok plan, st1) ->
  exists pid,
    default_project_id arg st = (Ok pid, st)
    /\ st1 = after st (build_request (obj st) GET ("get_plans/" ++ py_str pid) PNone).
Proof.
  unfold _get_plan_by_name, _get_plans, send_get, bind.
  destruct (default_project_id arg st) as [[pid|e] st0] eqn:Hd; [|discriminate].
  destruct (default_project_id_ok _ _ _ _ Hd) as (-> & Ht & Hd').
  rewrite Hd'.
  pose proof (send_request_state GET ("get_plans/" ++ py_str pid) PNone st) as Hs.
  destruct (__send_request server GET _ PNone st) as [[plans|e] st2];
    simpl in Hs; subst st2; [|discriminate].
  unfold lift. destruct (py_iter plans); [|discriminate].
  destruct (first_named plan_name a); [|discriminate].
  intros [= _ <-]. exists pid. split; reflexivity.
Qed.

(** C1 (as the code has it).  When [case_ids] is empty (or [None]),
    [include_all] is set to true and the operation goes on: it looks the
    plan up with a GET and, the plan found and the suite id resolved,
    sends one [add_plan_entry] POST whose entry has [include_all] true and
    carries the given [case_ids]; it returns what that POST returns. *)
Theorem add_default_entry_without_case_ids_includes_all (st st1 : state)
    (test_run_name plan_name : string) (case_ids plan plan_id : pyval) :
  truthy case_ids = false ->
  _get_plan_by_name server plan_name PNone st = (Ok plan, st1) ->
  subscript plan "id" = Ok plan_id ->
  truthy (__suite_id (obj st)) = true ->
  let entry := default_entry (__suite_id (obj st)) test_run_name true case_ids in
  let uri := "add_plan_entry/" ++ py_str plan_id in
  add_default_test_run_entry_to_plan server test_run_name plan_name case_ids st
  = send_post server uri entry st1
  /\ (exists pid,
        sent st1
        = (sent st ++ [build_request (obj st) GET
                         ("get_plans/" ++ py_str pid) PNone])%list)
  /\ sent (snd (add_default_test_run_entry_to_plan server test_run_name plan_name
                  case_ids st))
     = (sent st1 ++ [build_request (obj st) POST uri entry])%list
  /\ subscript entry "include_all" = Ok (PBool true)
  /\ subscript entry "case_ids" = Ok case_ids.
Proof.
  intros Hc Hplan Hid Hsuite entry uri.
  destruct (get_plan_by_name_state _ _ _ _ _ Hplan) as (pid & _ & Hst1).
  assert (Hobj : obj st1 = obj st) by now subst st1.
  assert (E : add_default_test_run_entry_to_plan server test_run_name plan_name
                case_ids st = send_post server uri entry st1).
  { unfold add_default_test_run_entry_to_plan. rewrite Hc. cbn [negb andb].
    rewrite (bind_ok _ _ _ _ _ Hplan).
    destruct plan; try discriminate Hid.
    rewrite (lift_ok _ _ _ _ Hid).
    unfold suite_id, bind at 1, get_self. unfold bind at 1.
    rewrite Hobj, Hsuite. reflexivity. }
  split; [exact E|]. split; [exists pid; now subst st1|].
  split; [|split; reflexivity].
  rewrite E. unfold send_post. rewrite send_request_state. simpl.
  now rewrite Hobj.
Qed.

Lemma scan_entries_none (test_run_name : string) (items : list pyval) :
  (forall e, In e items -> entry_misses test_run_name e) ->
  scan_entries test_run_name items = Ok None.
Proof.
  induction items as [|e items IH]; intros H; simpl; [reflexivity|].
  destruct (H e (or_introl eq_refl)) as (n & Hn & Hc).
  rewrite Hn. simpl. rewrite Hc. apply IH. intros e' He'. apply H. now right.
Qed.

Lemma scan_entries_first (test_run_name : string) (before rest : list pyval)
    (elem entry_id : pyval) :
  (forall e, In e before -> entry_misses test_run_name e) ->
  entry_matches test_run_name elem ->
  first_entry_id elem entry_id ->
  scan_entries test_run_name (before ++ elem :: rest) = Ok (Some entry_id).
Proof.
  intros Hb (n & Hn & Hc) (runs & run & H1 & H2 & H3).
  induction before as [|e before IH]; simpl.
  - rewrite Hn. simpl. rewrite Hc, H1. simpl. rewrite H2. simpl. now rewrite H3.
  - destruct (Hb e (or_introl eq_refl)) as (m & Hm & Hmc).
    rewrite Hm. simpl. rewrite Hmc. apply IH. intros e' He'. apply Hb. now right.
Qed.

(** C7 (as the code has it).  With the run id, the plan and its entries
    looked up: if no entry of the plan has a name containing
    [test_run_name], [update_test_run] returns [False].  Otherwise the
    first such entry is taken and the incoming ids are reduced to those
    not yet in the run; if none is left the operation returns [False] and
    posts nothing; else it fetches the tests of the run and posts, to
    [update_plan_entry/<plan>/<entry>], a body with [include_all] false
    and as [case_ids] the new ids followed by the case ids already in the
    run. *)
Theorem update_test_run_posts_merged_ids
    (test_run_name plan_name : string) (cs : list pyval)
    (st st1 st2 st3 : state) (rid plan plan_id detail entries : pyval)
    (items : list pyval) :
  get_run_id server plan_name test_run_name st = (Ok rid, st1) ->
  _get_plan_by_name server plan_name PNone st1 = (Ok plan, st2) ->
  subscript plan "id" = Ok plan_id ->
  _get_plan server plan_id st2 = (Ok detail, st3) ->
  subscript detail "entries" = Ok entries ->
  py_iter entries = Ok items ->
  let call := update_test_run server test_run_name plan_name (PList cs) st in
  ((forall e, In e items -> entry_misses test_run_name e) ->
   call = (Ok (PBool false), st3))
  /\
  (forall before elem rest entry_id tcl st4 tests E,
      items = (before ++ elem :: rest)%list ->
      (forall e, In e before -> entry_misses test_run_name e) ->
      entry_matches test_run_name elem ->
      first_entry_id elem entry_id ->
      send_get server ("get_tests/" ++ py_str rid) st3 = (Ok tcl, st4) ->
      py_iter tcl = Ok tests ->
      case_ids_of tests = Ok E ->
      forallb hashable cs = true ->
      forallb hashable E = true ->
      exists new_ids,
        check_test_id_duplicate server (PList cs) rid st3 = (Ok new_ids, st4)
        /\ (forall x, In x new_ids -> In x cs /\ key_in x E = false)
        /\ (forall x, In x cs -> key_in x E = false -> key_in x new_ids = true)
        /\ (new_ids = [] -> call = (Ok (PBool false), st4))
        /\ (new_ids <> [] ->
            forall existing st5 tests' present,
              get_cases_in_run server rid st4 = (Ok existing, st5) ->
              py_iter existing = Ok tests' ->
              case_ids_of tests' = Ok present ->
              let body := update_entry (new_ids ++ present) in
              let uri := "update_plan_entry/" ++ py_str plan_id ++ "/"
                           ++ py_str entry_id in
              call = send_post server uri body st5
              /\ sent (snd call)
                 = (sent st5 ++ [build_request (obj st5) POST uri body])%list
              /\ subscript body "include_all" = Ok (PBool false)
              /\ subscript body "case_ids" = Ok (PList (new_ids ++ present)))).
Proof.
  intros Hrid Hplan Hid Hdetail Hent Hit call.
  assert (Hpre : forall found,
            scan_entries test_run_name items = Ok found ->
            call = match found with
                   | None => (Ok (PBool false), st3)
                   | Some entry_id =>
                       (new_ids <- check_test_id_duplicate server (PList cs) rid ;;
                        if negb (truthy (PList new_ids)) then ret (PBool false)
                        else
                          existing_tests <- get_cases_in_run server rid ;;
                          tests <- lift (py_iter existing_tests) ;;
                          present <- lift (case_ids_of tests) ;;
                          send_post server
                            ("update_plan_entry/" ++ py_str plan_id ++ "/"
                               ++ py_str entry_id)
                            (update_entry (new_ids ++ present))) st3
                   end).
  { intros found Hf. unfold call, update_test_run.
    rewrite (bind_ok _ _ _ _ _ Hrid), (bind_ok _ _ _ _ _ Hplan),
      (lift_ok _ _ _ _ Hid), (bind_ok _ _ _ _ _ Hdetail),
      (lift_ok _ _ _ _ Hent), (lift_ok _ _ _ _ Hit), (lift_ok _ _ _ _ Hf).
    destruct found; reflexivity. }
  split.
  { intros Hno. apply (Hpre None). now apply scan_entries_none. }
  intros before elem rest entry_id tcl st4 tests E -> Hb Hm He Hget Htests HE
         Hcs HhE.
  pose proof (check_test_id_duplicate_run st3 st4 cs rid tcl tests E
                Hget Htests HE Hcs HhE) as Hdup.
  destruct (difference_spec cs E Hcs HhE) as (H1 & H2 & _ & _).
  set (new_ids := set_iter (set_difference (set_of_list cs) (set_of_list E))) in *.
  exists new_ids. split; [exact Hdup|]. split; [exact H1|]. split; [exact H2|].
  rewrite (Hpre (Some entry_id)) by now apply scan_entries_first.
  rewrite (bind_ok _ _ _ _ _ Hdup).
  split.
  - intros ->. reflexivity.
  - intros Hne existing st5 tests' present Hex Ht' Hp body uri.
    destruct new_ids as [|x new_ids]; [contradiction|]. cbn [truthy negb].
    rewrite (bind_ok _ _ _ _ _ Hex), (lift_ok _ _ _ _ Ht'), (lift_ok _ _ _ _ Hp).
    split; [reflexivity|]. split; [|split; reflexivity].
    unfold send_post. now rewrite send_request_state.
Qed.

End Properties.

(* ================================================================= *)
(** ** The client run against the demo server *)

#[local] Existing Instance Demo.runtime.

Lemma unresolved_id_witness :
  fst (project_id {| obj := new_Testrail "u" "p" "https://tr.example"; sent := [] |})
  = Raise (EnvironmentError
             ("Define the project name as an object attribute like so"
                ++ newline ++ "client.project = 'Velocloud'"))
  /\ is_api_error
       (fst (suite_id {| obj := new_Testrail "u" "p" "https://tr.example";
                         sent := [] |})) = false.
Proof.
  destruct (unresolved_id_raises_configuration_error
              {| obj := new_Testrail "u" "p" "https://tr.example"; sent := [] |})
    as [Hp Hs].
  destruct (Hp eq_refl) as [Ep _]. destruct (Hs eq_refl) as [_ Es].
  split; [now rewrite Ep | exact Es].
Defined.

Lemma run_id_assignment_witness :
  cases_in_run (obj (snd (run_id_setter Demo.server (PInt 7)
                            {| obj := with_cases_in_run [(PInt 6, PList [])] Demo.client;
                               sent := [] |})))
  = [(PInt 7, Demo.tests7)].
Proof.
  apply (run_id_assignment_replaces_cache Demo.server
           {| obj := with_cases_in_run [(PInt 6, PList [])] Demo.client; sent := [] |}
           (PInt 7) (Some Demo.tests7));
    reflexivity.
Defined.

Lemma name_resolution_witness :
  (__get_project_by_name Demo.server "Velo" Demo.start
   = (Ok PNone, after Demo.start (Demo.get "get_projects"))
   /\ __get_project_by_name Demo.server "Velocloud" Demo.start
      = (Ok (PDict [("id", PInt 1); ("name", PStr "Velocloud")]),
         after Demo.start (Demo.get "get_projects")))
  /\ (__get_suite_by_name Demo.server "Mast" PNone Demo.start
      = (Ok PNone, after Demo.start (Demo.get "get_suites/1"))
      /\ __get_suite_by_name Demo2.server "Master" (PInt 3) Demo.start
         = (Ok (PDict [("id", PInt 8); ("name", PStr "Master")]),
            after Demo.start (Demo.get "get_suites/3"))).
Proof.
  split.
  - split.
    + destruct (name_resolution_absent_or_first_match Demo.server "Velo"
                  Demo.start) as [Hp _].
      destruct (Hp (Some Demo.projects)
                  [PDict [("id", PInt 3); ("name", PStr "Other")];
                   PDict [("id", PInt 1); ("name", PStr "Velocloud")]]
                  eq_refl eq_refl) as [Habsent _].
      apply Habsent.
      * repeat constructor; eexists; reflexivity.
      * intros p [<-|[<-|[]]]; discriminate.
    + destruct (name_resolution_absent_or_first_match Demo.server "Velocloud"
                  Demo.start) as [Hp _].
      destruct (Hp (Some Demo.projects)
                  [PDict [("id", PInt 3); ("name", PStr "Other")];
                   PDict [("id", PInt 1); ("name", PStr "Velocloud")]]
                  eq_refl eq_refl) as [_ Hfirst].
      apply (Hfirst [PDict [("id", PInt 3); ("name", PStr "Other")]] _ []).
      * reflexivity.
      * repeat constructor; eexists; reflexivity.
      * intros q [<-|[]]; discriminate.
      * reflexivity.
  - split.
    + destruct (name_resolution_absent_or_first_match Demo.server "Mast"
                  Demo.start) as [_ Hs].
      destruct (Hs PNone (Some Demo.suites)
                  [PDict [("id", PInt 2); ("name", PStr "Master")]]
                  eq_refl eq_refl eq_refl) as [Habsent _].
      apply Habsent.
      * repeat constructor; eexists; reflexivity.
      * intros p [<-|[]]; discriminate.
    + destruct (name_resolution_absent_or_first_match Demo2.server "Master"
                  Demo.start) as [_ Hs].
      destruct (Hs (PInt 3) (Some Demo2.suites3)
                  [PDict [("id", PInt 8); ("name", PStr "Master")];
                   PDict [("id", PInt 9); ("name", PStr "Master")]]
                  eq_refl eq_refl eq_refl) as [_ Hfirst].
      apply (Hfirst [] _ [PDict [("id", PInt 9); ("name", PStr "Master")]]);
        [reflexivity | constructor | intros q [] | reflexivity].
Defined.

Lemma check_test_id_duplicate_witness :
  exists r,
    check_test_id_duplicate Demo.server
      (PList [PInt 1; PInt 3; PInt 3; PBool true; PStr "C9"]) (PInt 7) Demo.start
    = (Ok r, after Demo.start (Demo.get "get_tests/7"))
    /\ NoDup r
    /\ In (PInt 3) r
    /\ ~ In (PInt 1) r.
Proof.
  destruct (check_test_id_duplicate_is_set_difference Demo.server
              Demo.start (after Demo.start (Demo.get "get_tests/7"))
              [PInt 1; PInt 3; PInt 3; PBool true; PStr "C9"] (PInt 7)
              Demo.tests7
              [PDict [("id", PInt 100); ("case_id", PInt 1)];
               PDict [("id", PInt 101); ("case_id", PInt 2)]]
              [PInt 1; PInt 2]
              eq_refl eq_refl eq_refl eq_refl eq_refl)
    as (r & Hr & Hsound & _ & Hself & _ & Hnd).
  exists r. repeat split; try assumption.
  - apply Hself; [simpl; tauto | reflexivity |].
    intros y Hy. simpl in Hy.
    destruct Hy as [<-|[<-|[<-|[<-|[<-|[]]]]]]; (discriminate || reflexivity).
  - intros Hin. destruct (Hsound _ Hin) as [_ Hn]. discriminate Hn.
Defined.

Lemma get_run_id_witness :
  get_run_id Demo.server "Nightly" "smoke" Demo.start
  = (Ok (PInt 7),
     after (after Demo.start (Demo.get "get_plans/1")) (Demo.get "get_plan/10")).
Proof.
  apply (get_run_id_first_substring_match Demo.server "Nightly" "smoke"
           Demo.start (after Demo.start (Demo.get "get_plans/1"))
           (after (after Demo.start (Demo.get "get_plans/1")) (Demo.get "get_plan/10"))
           (PDict [("id", PInt 10); ("name", PStr "Nightly")]) (PInt 10)
           Demo.plan10
           (PList [PDict [("name", PStr "2019-12-31 09:30 - regression");
                          ("runs", PList [PDict [("id", PInt 6);
                                                 ("name", PStr "2019-12-31 09:30 - regression");
                                                 ("entry_id", PStr "e-0")]])];
                   PDict [("name", PStr "2020-01-01 00:00 - smoke");
                          ("runs", PList [Demo.smoke_run])]])
           _
           [("2019-12-31 09:30 - regression", PInt 6);
            ("2020-01-01 00:00 - smoke", PInt 7)]
           eq_refl eq_refl eq_refl eq_refl eq_refl).
  repeat constructor; do 2 eexists; repeat split; reflexivity.
Defined.

Lemma update_test_result_absent_case_witness :
  update_test_result Demo.server (PInt 7) 9 Demo.report_passed Demo.start
  = (Ok (PBool false), after Demo.start (Demo.get "get_tests/7")).
Proof.
  apply (update_test_result_absent_case Demo.server
           Demo.start (after Demo.start (Demo.get "get_tests/7"))
           (PInt 7) 9 Demo.report_passed Demo.tests7
           [PDict [("id", PInt 100); ("case_id", PInt 1)];
            PDict [("id", PInt 101); ("case_id", PInt 2)]]
           eq_refl eq_refl).
  intros t [<-|[<-|[]]]; eexists; split; reflexivity.
Defined.

Lemma update_test_result_posts_witness :
  sent (snd (update_test_result Demo.server (PInt 7) 2 Demo.report_skipped
               (snd (__init__ Demo.server "u" "p" "https://tr.example" []))))
  = [Demo.get "get_projects"; Demo.get "get_suites/1"; Demo.get "get_tests/7";
     build_request Demo.client POST "add_results/7"
       (PDict [("results",
                PList [PDict [("test_id", PInt 101);
                              ("status_id", PInt 5);
                              ("elapsed", PStr "00h 00m 00s");
                              ("comment", PStr "skipped: no hardware")]])])].
Proof.
  destruct (update_test_result_posts_test_id_and_status Demo.server
              "u" "p" "https://tr.example"
              (snd (__init__ Demo.server "u" "p" "https://tr.example" []))
              (after (snd (__init__ Demo.server "u" "p" "https://tr.example" []))
                 (Demo.get "get_tests/7"))
              (PInt 7) 2 Demo.report_skipped (PInt 101)
              eq_refl eq_refl)
    as (_ & status & _ & Hstatus & _ & Hsent & _).
  injection Hstatus as <-. exact Hsent.
Defined.

Lemma update_test_result_fetches_witness :
  exists rest,
    sent (snd (update_test_result Demo.server (PInt 7) 1 Demo.report_passed
                 (snd (update_test_result Demo.server (PInt 7) 1
                         Demo.report_passed Demo.start))))
    = (sent (snd (update_test_result Demo.server (PInt 7) 1 Demo.report_passed
                    Demo.start))
         ++ Demo.get "get_tests/7" :: rest)%list.
Proof.
  destruct (update_test_result_fetches_without_caching Demo.server Demo.start
              (PInt 7) 1 Demo.report_passed eq_refl eq_refl)
    as (_ & _ & _ & Hagain).
  exact (Hagain 1 Demo.report_passed).
Defined.

(** C2, refuted as stated: the cache has no entry for run 7, the first
    call fetches the tests of the run and posts the result, the cache is
    still empty afterwards, and the second call sends the same GET once
    more. *)
Lemma update_test_result_does_not_cache :
  cache_lookup (PInt 7) (cases_in_run (obj Demo.start)) = None
  /\ sent (snd Demo.first_result) = [Demo.get "get_tests/7"; Demo.passed_post]
  /\ cache_lookup (PInt 7) (cases_in_run (obj (snd Demo.first_result))) = None
  /\ sent (snd Demo.second_result)
     = [Demo.get "get_tests/7"; Demo.passed_post;
        Demo.get "get_tests/7"; Demo.passed_post].
Proof. repeat split. Qed.

Lemma add_default_entry_witness :
  add_default_test_run_entry_to_plan Demo.server "smoke" "Nightly" (PList [])
    Demo.start
  = send_post Demo.server "add_plan_entry/10"
      (default_entry (PInt 2) "smoke" true (PList []))
      (after Demo.start (Demo.get "get_plans/1")).
Proof.
  apply (add_default_entry_without_case_ids_includes_all Demo.server
           Demo.start (after Demo.start (Demo.get "get_plans/1"))
           "smoke" "Nightly" (PList [])
           (PDict [("id", PInt 10); ("name", PStr "Nightly")]) (PInt 10)
           eq_refl eq_refl eq_refl eq_refl).
Defined.

(** C1, refuted as stated: called with the empty list, the operation
    does not return [False]; it looks the plan up and posts an entry that
    includes all cases. *)
Lemma add_default_entry_empty_list_contacts_server :
  fst Demo.create_with_empty_list = Ok Demo.created
  /\ fst Demo.create_with_empty_list <> Ok (PBool false)
  /\ sent (snd Demo.create_with_empty_list)
     = [Demo.get "get_plans/1";
        build_request Demo.client POST "add_plan_entry/10"
          (default_entry (PInt 2) "smoke" true (PList []))].
Proof. repeat split. discriminate. Qed.

Lemma update_test_run_witness :
  sent (snd (update_test_run Demo.server "smoke" "Nightly"
               (PList [PInt 1; PInt 3]) Demo.start))
  = [Demo.get "get_plans/1"; Demo.get "get_plan/10";
     Demo.get "get_plans/1"; Demo.get "get_plan/10";
     Demo.get "get_tests/7"; Demo.get "get_tests/7";
     build_request Demo.client POST "update_plan_entry/10/e-1"
       (update_entry [PInt 3; PInt 1; PInt 2])].
Proof.
  pose (s1 := after (after Demo.start (Demo.get "get_plans/1"))
                (Demo.get "get_plan/10")).
  pose (s2 := after s1 (Demo.get "get_plans/1")).
  pose (s3 := after s2 (Demo.get "get_plan/10")).
  pose (s4 := after s3 (Demo.get "get_tests/7")).
  pose (s5 := after s4 (Demo.get "get_tests/7")).
  pose (tests := [PDict [("id", PInt 100); ("case_id", PInt 1)];
                  PDict [("id", PInt 101); ("case_id", PInt 2)]]).
  destruct (update_test_run_posts_merged_ids Demo.server "smoke" "Nightly"
              [PInt 1; PInt 3] Demo.start s1 s2 s3 (PInt 7)
              (PDict [("id", PInt 10); ("name", PStr "Nightly")]) (PInt 10)
              Demo.plan10
              (PList [PDict [("name", PStr "2019-12-31 09:30 - regression");
                             ("runs", PList [PDict [("id", PInt 6);
                                                    ("name", PStr "2019-12-31 09:30 - regression");
                                                    ("entry_id", PStr "e-0")]])];
                      PDict [("name", PStr "2020-01-01 00:00 - smoke");
                             ("runs", PList [Demo.smoke_run])]])
              _ eq_refl eq_refl eq_refl eq_refl eq_refl eq_refl)
    as [_ Hmatch].
  destruct (Hmatch
              [PDict [("name", PStr "2019-12-31 09:30 - regression");
                      ("runs", PList [PDict [("id", PInt 6);
                                             ("name", PStr "2019-12-31 09:30 - regression");
                                             ("entry_id", PStr "e-0")]])]]
              (PDict [("name", PStr "2020-01-01 00:00 - smoke");
                      ("runs", PList [Demo.smoke_run])])
              [] (PStr "e-1") Demo.tests7 s4 tests [PInt 1; PInt 2])
    as (new_ids & Hdup & _ & _ & _ & Hpost).
  - reflexivity.
  - intros e [<-|[]]. eexists. split; reflexivity.
  - eexists. split; reflexivity.
  - do 2 eexists. repeat split; reflexivity.
  - reflexivity.
  - reflexivity.
  - reflexivity.
  - reflexivity.
  - reflexivity.
  - vm_compute in Hdup. injection Hdup as <-.
    destruct (Hpost ltac:(discriminate) Demo.tests7 s5 tests [PInt 1; PInt 2]
                eq_refl eq_refl eq_refl) as (_ & Hsent & _).
    exact Hsent.
Defined.

(** C7, refuted as stated: an entry of the plan has a name containing
    the run name, yet nothing is posted: every incoming id is already in
    the run, and the operation returns [False]. *)
Lemma update_test_run_known_ids_posts_nothing :
  (entries <~ subscript Demo.plan10 "entries" ;;
   items <~ py_iter entries ;;
   scan_entries "smoke" items) = Ok (Some (PStr "e-1"))
  /\ fst Demo.update_with_known_ids = Ok (PBool false)
  /\ existsb is_post (sent (snd Demo.update_with_known_ids)) = false.
Proof. repeat split. Qed.

(** Assigning [project] a name the server does not list: the resolver
    returns [None], the setter subscripts it and raises [TypeError]; the
    id resolved earlier stays in place. *)
Lemma project_setter_unknown_name :
  project_setter Demo.server (Some "Nope") Demo.start
  = (Raise TypeError,
     {| obj := with_project (Some "Nope") Demo.client;
        sent := [Demo.get "get_projects"] |}).
Proof. reflexivity. Qed.

(* ================================================================= *)
(** ** Frame properties of the methods *)

Lemma no_post_ret {A} (a : A) : no_post (ret a).
Proof. intros st. exists []. now rewrite app_nil_r. Qed.

Lemma no_post_raise {A} (e : exn) : no_post (@raise A e).
Proof. intros st. exists []. now rewrite app_nil_r. Qed.

Lemma no_post_lift {A} (o : outcome A) : no_post (lift o).
Proof. intros st. exists []. now rewrite app_nil_r. Qed.

Lemma no_post_get_self : no_post get_self.
Proof. intros st. exists []. now rewrite app_nil_r. Qed.

Lemma no_post_modify_self (f : Testrail -> Testrail) : no_post (modify_self f).
Proof. intros st. exists []. simpl. now rewrite app_nil_r. Qed.

Lemma no_post_bind {A B} (m : M A) (k : A -> M B) :
  no_post m -> (forall a, no_post (k a)) -> no_post (bind m k).
Proof.
  intros Hm Hk st. unfold bind.
  destruct (Hm st) as (n1 & E1 & P1).
  destruct (m st) as [[a|e] st1]; simpl in E1.
  - destruct (Hk a st1) as (n2 & E2 & P2).
    exists (n1 ++ n2)%list. rewrite E2, E1, app_assoc. split; [reflexivity|].
    now rewrite existsb_app, P1, P2.
  - exists n1. now split.
Qed.

Lemma keeps_object_ret {A} (a : A) : keeps_object (ret a).
Proof. intros st. reflexivity. Qed.

Lemma keeps_object_raise {A} (e : exn) : keeps_object (@raise A e).
Proof. intros st. reflexivity. Qed.

Lemma keeps_object_lift {A} (o : outcome A) : keeps_object (lift o).
Proof. intros st. reflexivity. Qed.

Lemma keeps_object_get_self : keeps_object get_self.
Proof. intros st. reflexivity. Qed.

Lemma keeps_object_bind {A B} (m : M A) (k : A -> M B) :
  keeps_object m -> (forall a, keeps_object (k a)) -> keeps_object (bind m k).
Proof.
  intros Hm Hk st. unfold bind. specialize (Hm st).
  destruct (m st) as [[a|e] st1]; simpl in Hm.
  - now rewrite Hk.
  - exact Hm.
Qed.

Section Frames.

Context {rt : Runtime}.
Variable server : list request -> request -> http_reply.

Lemma no_post_send_get (uri : string) : no_post (send_get server uri).
Proof.
  intros st. unfold send_get. rewrite send_request_state.
  eexists. split; reflexivity.
Qed.

Lemma keeps_object_send (m : method) (uri : string) (data : pyval) :
  keeps_object (__send_request server m uri data).
Proof. intros st. now rewrite send_request_state. Qed.

End Frames.

Ltac frame_step :=
  first
    [ apply no_post_bind; [|intros ?]
    | apply keeps_object_bind; [|intros ?]
    | apply no_post_ret | apply no_post_raise | apply no_post_lift
    | apply no_post_get_self | apply no_post_modify_self
    | apply no_post_send_get
    | apply keeps_object_ret | apply keeps_object_raise
    | apply keeps_object_lift | apply keeps_object_get_self
    | apply keeps_object_send
    | match goal with
      | |- no_post (if ?b then _ else _) => destruct b
      | |- keeps_object (if ?b then _ else _) => destruct b
      | |- no_post (match ?x with _ => _ end) => destruct x
      | |- keeps_object (match ?x with _ => _ end) => destruct x
      end ].

Ltac frame := repeat frame_step.

Section FrameProperties.

Context {rt : Runtime}.
Variable server : list request -> request -> http_reply.

(** X1.  Every lookup of the client -- the fetchers, the resolvers by
    name, the deduplication and the search of a case in a run -- and the
    three property setters add only GET requests to the log, whatever the
    server replies. *)
Theorem lookups_never_post :
  no_post (get_all_cases server)
  /\ (forall name, no_post (get_milestone_id server name))
  /\ (forall m, no_post (get_cases_based_on_milestone server m))
  /\ no_post (get_sections server)
  /\ no_post (get_users server)
  /\ (forall c, no_post (get_case server c))
  /\ (forall r, no_post (get_cases_in_run server r))
  /\ (forall p, no_post (_get_runs server p))
  /\ (forall r, no_post (_get_run server r))
  /\ (forall r, no_post (_get_results_for_run server r))
  /\ (forall p, no_post (_get_plans server p))
  /\ (forall n p, no_post (_get_plan_by_name server n p))
  /\ (forall i, no_post (_get_plan server i))
  /\ (forall p r, no_post (get_run_id server p r))
  /\ (forall l r, no_post (check_test_id_duplicate server l r))
  /\ (forall r c, no_post (__check_case_in_run server r c))
  /\ (forall a b c, no_post (_get_testrun_by_name server a b c))
  /\ (forall a b c, no_post (get_testrun_results server a b c))
  /\ (forall n, no_post (project_setter server n))
  /\ (forall n, no_post (suite_setter server n))
  /\ (forall r, no_post (run_id_setter server r)).
Proof.
  repeat split; intros;
    unfold get_all_cases, get_milestone_id, get_cases_based_on_milestone,
      get_sections, get_users, get_case, get_cases_in_run, _get_runs, _get_run,
      _get_results_for_run, get_run_id, check_test_id_duplicate,
      __check_case_in_run, tc_list_of, get_testrun_results,
      _get_testrun_by_name, project_setter, suite_setter, run_id_setter,
      __get_suite_by_name, __get_suites, __get_project_by_name, __get_projects,
      _get_results_for_run, _get_plan_by_name, _get_plans, _get_plan,
      get_cases_in_run, default_project_id, project_id;
    frame.
Qed.

(** X2.  Only the three property setters change the object: every other
    method, the ones that post included, returns with all attributes --
    the resolved ids, the current run and the run-case cache -- as they
    were, whether it returns or raises. *)
Theorem only_setters_change_object :
  keeps_object (get_all_cases server)
  /\ (forall name, keeps_object (get_milestone_id server name))
  /\ (forall m, keeps_object (get_cases_based_on_milestone server m))
  /\ keeps_object (get_sections server)
  /\ keeps_object (get_users server)
  /\ (forall c, keeps_object (get_case server c))
  /\ (forall c d, keeps_object (update_case server c d))
  /\ (forall r, keeps_object (get_cases_in_run server r))
  /\ (forall r d, keeps_object (add_results server r d))
  /\ (forall p, keeps_object (_get_runs server p))
  /\ (forall r, keeps_object (_get_run server r))
  /\ (forall r, keeps_object (_get_results_for_run server r))
  /\ (forall n p, keeps_object (_get_plan_by_name server n p))
  /\ (forall i, keeps_object (_get_plan server i))
  /\ (forall p r, keeps_object (get_run_id server p r))
  /\ (forall l r, keeps_object (check_test_id_duplicate server l r))
  /\ (forall a b c, keeps_object (_get_testrun_by_name server a b c))
  /\ (forall a b c, keeps_object (get_testrun_results server a b c))
  /\ (forall a b c, keeps_object (add_default_test_run_entry_to_plan server a b c))
  /\ (forall a b c, keeps_object (update_test_run server a b c))
  /\ (forall r c p, keeps_object (update_test_result server r c p)).
Proof.
  repeat split; intros;
    unfold get_all_cases, get_milestone_id, get_cases_based_on_milestone,
      get_sections, get_users, get_case, update_case, add_results,
      get_cases_in_run, _get_runs, _get_run,
      _get_results_for_run, update_test_run, get_run_id, check_test_id_duplicate,
      update_test_result, __check_case_in_run, tc_list_of, get_testrun_results,
      _get_testrun_by_name, add_default_test_run_entry_to_plan, _add_plan_entry,
      __get_project_by_name, __get_projects,
      _get_results_for_run, _get_plan_by_name, _get_plans, _get_plan,
      get_cases_in_run, default_project_id, project_id, suite_id,
      send_get, send_post;
    frame.
Qed.

End FrameProperties.

(* ================================================================= *)
(** ** The transport *)

Lemma assoc_existsb (k : string) (d : list (string * pyval)) :
  existsb (fun kv => String.eqb k (fst kv)) d
  = match assoc k d with Some _ => true | None => false end.
Proof.
  induction d as [|[k' v] d IH]; simpl; [reflexivity|].
  destruct (String.eqb k k'); [reflexivity | exact IH].
Qed.

Lemma error_text_dict (d : list (string * pyval)) :
  error_text (PDict d)
  = match assoc "error" d with
    | Some (PStr msg) => Ok (dquote ++ msg ++ dquote)
    | Some _ => Raise TypeError
    | None => Ok "No additional error message received"
    end.
Proof.
  unfold error_text. destruct d as [|kv d]; [reflexivity|].
  cbn [truthy py_in obind]. rewrite assoc_existsb. unfold subscript.
  destruct (assoc "error" (kv :: d)) as [v|]; [|reflexivity].
  destruct v; reflexivity.
Qed.

Section TransportProperties.

Context {rt : Runtime}.
Variable server : list request -> request -> http_reply.

(** X3.  The transport returns exactly when the server answers with a
    success status and a body that is empty or decodes as JSON; a body
    that does not decode makes [json.loads] raise [ValueError], whatever
    the status.  On an HTTP error status with a decoded body it raises
    [APIError] with the status in the message, followed by the quoted
    [error] string of the response when the response is an object that
    has one, and by a fixed phrase when the response is empty or an
    object without [error]. *)
Theorem transport_api_error_contract (m : method) (uri : string) (data : pyval)
    (st : state) :
  let rq := build_request (obj st) m uri data in
  let call := __send_request server m uri data st in
  ((exists v, fst call = Ok v) <-> (exists body, server (sent st) rq = Reply None body))
  /\ (forall body, server (sent st) rq = Reply None body -> fst call = Ok (decoded body))
  /\ (forall code, server (sent st) rq = Undecodable code -> fst call = Raise ValueError)
  /\ (forall code body d msg,
        server (sent st) rq = Reply (Some code) body ->
        decoded body = PDict d ->
        assoc "error" d = Some (PStr msg) ->
        fst call
        = Raise (APIError ("TestRail API returned HTTP " ++ Z_str code ++ " ("
                             ++ (dquote ++ msg ++ dquote) ++ ")")))
  /\ (forall code body d,
        server (sent st) rq = Reply (Some code) body ->
        decoded body = PDict d ->
        assoc "error" d = None ->
        fst call
        = Raise (APIError ("TestRail API returned HTTP " ++ Z_str code ++ " ("
                             ++ "No additional error message received" ++ ")"))).
Proof.
  cbv zeta. unfold __send_request. repeat split.
  - intros [v Hv]. destruct (server _ _) as [[code|] body | code].
    + cbv beta iota in Hv. destruct (error_text _); discriminate.
    + eauto.
    + discriminate.
  - intros [body ->]. eexists. reflexivity.
  - intros body ->. reflexivity.
  - intros code ->. reflexivity.
  - intros code body d msg -> Hd He. cbv beta iota.
    rewrite Hd, error_text_dict, He. reflexivity.
  - intros code body d -> Hd He. cbv beta iota.
    rewrite Hd, error_text_dict, He. reflexivity.
Qed.

(** X4.  When an HTTP error comes with an object whose [error] field is
    not a string, building the message fails: the transport raises
    [TypeError] instead of [APIError]; the request has been sent all the
    same. *)
Theorem transport_malformed_error_raises_TypeError (m : method) (uri : string)
    (data : pyval) (st : state) (code : Z) (body : option pyval)
    (d : list (string * pyval)) (v : pyval) :
  server (sent st) (build_request (obj st) m uri data) = Reply (Some code) body ->
  decoded body = PDict d ->
  assoc "error" d = Some v ->
  (forall msg, v <> PStr msg) ->
  __send_request server m uri data st
  = (Raise TypeError, after st (build_request (obj st) m uri data)).
Proof.
  intros Hs Hd He Hv. unfold __send_request.
  rewrite Hs. cbv beta iota. rewrite Hd, error_text_dict, He.
  destruct v; try reflexivity. now destruct (Hv s).
Qed.

End TransportProperties.

Lemma transport_api_error_witness :
  fst (__send_request Demo2.server GET "get_tests/6" PNone Demo.start)
  = Raise (APIError "TestRail API returned HTTP 403 (No additional error message received)")
  /\ fst (__send_request Demo2.server GET "get_tests/5" PNone Demo.start)
     = Raise ValueError.
Proof.
  split.
  - destruct (transport_api_error_contract Demo2.server GET "get_tests/6" PNone
                Demo.start) as (_ & _ & _ & _ & H).
    exact (H 403 None [] eq_refl eq_refl eq_refl).
  - destruct (transport_api_error_contract Demo2.server GET "get_tests/5" PNone
                Demo.start) as (_ & _ & H & _).
    exact (H None eq_refl).
Defined.

Lemma transport_malformed_error_witness :
  __send_request Demo2.server GET "get_tests/8" PNone Demo.start
  = (Raise TypeError, after Demo.start (Demo.get "get_tests/8")).
Proof.
  apply (transport_malformed_error_raises_TypeError Demo2.server GET "get_tests/8"
           PNone Demo.start 400 (Some (PDict [("error", PInt 17)]))
           [("error", PInt 17)] (PInt 17) eq_refl eq_refl eq_refl).
  discriminate.
Defined.

(* ================================================================= *)
(** ** Milestones, cases and runs by name *)

Lemma bind_inv_ok {A B} (m : M A) (k : A -> M B) (st st' : state) (b : B) :
  bind m k st = (Ok b, st') ->
  exists a st1, m st = (Ok a, st1) /\ k a st1 = (Ok b, st').
Proof.
  unfold bind. destruct (m st) as [[a|e] st1]; [eauto | discriminate].
Qed.

Lemma lift_inv_ok {A B} (o : outcome A) (k : A -> M B) (st st' : state) (b : B) :
  bind (lift o) k st = (Ok b, st') ->
  exists a, o = Ok a /\ k a st = (Ok b, st').
Proof.
  unfold bind, lift. destruct o as [a|e]; [eauto | discriminate].
Qed.

Lemma project_id_ok (st : state) :
  truthy (__project_id (obj st)) = true ->
  project_id st = (Ok (__project_id (obj st)), st).
Proof. intros H. unfold project_id, bind, get_self. now rewrite H. Qed.

Lemma str_eq_true (name : string) (v : pyval) :
  str_eq name v = true <-> v = PStr name.
Proof.
  destruct v; simpl; try (split; [discriminate | intros [=]]).
  rewrite String.eqb_eq. split; [now intros -> | now intros [= ->]].
Qed.

Lemma scan_milestones_find (name : string) (items : list pyval)
    (ms : list (string * pyval)) :
  Forall2 (fun elem r => has_name_and_id elem (fst r) (snd r)) items ms ->
  scan_milestones name items = Ok (first_containing name ms).
Proof.
  unfold first_containing.
  induction 1 as [|elem [n i] items ms [H1 H2] _ IH]; simpl; [reflexivity|].
  simpl in H1, H2. rewrite H1. simpl.
  destruct (contains name n); [exact H2 | exact IH].
Qed.

Lemma map_outcome_Forall2 {A B} (f : A -> outcome B) (l : list A) (r : list B) :
  Forall2 (fun x y => f x = Ok y) l r -> map_outcome f l = Ok r.
Proof.
  induction 1 as [|x y l r H _ IH]; simpl; [reflexivity|].
  now rewrite H, IH.
Qed.

Lemma map_outcome_raise {A B} (f : A -> outcome B) (before rest : list A)
    (x : A) (e : exn) :
  Forall (fun y => exists b, f y = Ok b) before ->
  f x = Raise e ->
  map_outcome f (before ++ x :: rest) = Raise e.
Proof.
  induction 1 as [|y before [b Hb] _ IH]; intros Hx; simpl.
  - now rewrite Hx.
  - rewrite Hb. simpl. now rewrite IH.
Qed.

Lemma map_outcome_length {A B} (f : A -> outcome B) (l : list A) (r : list B) :
  map_outcome f l = Ok r -> List.length r = List.length l.
Proof.
  revert r. induction l as [|x l IH]; simpl; intros r.
  - now intros [= <-].
  - destruct (f x) as [y|]; [|discriminate]. simpl.
    destruct (map_outcome f l) as [ys|]; [|discriminate]. simpl.
    intros [= <-]. simpl. now rewrite (IH ys).
Qed.

Lemma scan_testruns_sound (name : string) (items : list pyval) (r : pyval) :
  scan_testruns name items = Ok (Some r) -> In r items /\ name_is name r.
Proof.
  induction items as [|t items IH]; simpl; [discriminate|].
  destruct (subscript t "name") as [n|] eqn:Hn; [|discriminate]. simpl.
  destruct (str_eq name n) eqn:E.
  - intros [= <-]. apply str_eq_true in E. subst n. split; [now left | exact Hn].
  - intros H. destruct (IH H). split; [now right | assumption].
Qed.

Lemma scan_named_entries_sound (name : string) (entries : list pyval) (r : pyval) :
  scan_named_entries name entries = Ok r ->
  r = PNone
  \/ (name_is name r
      /\ exists entry runs items,
          In entry entries /\ name_is name entry
          /\ subscript entry "runs" = Ok runs /\ py_iter runs = Ok items
          /\ In r items).
Proof.
  induction entries as [|entry entries IH]; simpl.
  - intros [= <-]. now left.
  - destruct (subscript entry "name") as [n|] eqn:Hn; [|discriminate]. simpl.
    assert (Hrest : scan_named_entries name entries = Ok r ->
                    r = PNone
                    \/ (name_is name r
                        /\ exists e runs items,
                            In e (entry :: entries) /\ name_is name e
                            /\ subscript e "runs" = Ok runs
                            /\ py_iter runs = Ok items /\ In r items)).
    { intros H. destruct (IH H) as [->|(Hr & e & runs & items & He & Hrest)];
        [now left|]. right. split; [exact Hr|].
      exists e, runs, items. split; [now right | exact Hrest]. }
    destruct (str_eq name n) eqn:E; [|exact Hrest].
    apply str_eq_true in E. subst n.
    destruct (subscript entry "runs") as [runs|] eqn:Hruns; [|discriminate]. simpl.
    destruct (py_iter runs) as [items|] eqn:Hitems; [|discriminate]. simpl.
    destruct (scan_testruns name items) as [[t|]|] eqn:Hscan; simpl;
      [|exact Hrest|discriminate].
    intros [= <-]. destruct (scan_testruns_sound _ _ _ Hscan) as [Hin Hname].
    right. split; [exact Hname|].
    exists entry, runs, items. repeat split; try assumption. now left.
Qed.

Lemma scan_testruns_none (name : string) (items : list pyval) :
  scan_testruns name items = Ok None ->
  forall t, In t items -> ~ name_is name t.
Proof.
  induction items as [|x items IH]; simpl; [intros _ t []|].
  destruct (subscript x "name") as [n|] eqn:Hn; [|discriminate]. simpl.
  destruct (str_eq name n) eqn:E; [discriminate|].
  intros H t [<-|Ht]; [|now apply IH].
  unfold name_is. rewrite Hn. intros [= ->]. simpl in E.
  now rewrite String.eqb_refl in E.
Qed.

Lemma scan_named_entries_none (name : string) (entries : list pyval) :
  scan_named_entries name entries = Ok PNone ->
  forall entry runs items t,
    In entry entries -> name_is name entry ->
    subscript entry "runs" = Ok runs -> py_iter runs = Ok items ->
    In t items -> ~ name_is name t.
Proof.
  induction entries as [|e entries IH]; simpl; [intros _ ? ? ? ? []|].
  destruct (subscript e "name") as [n|] eqn:Hn; [|discriminate]. simpl.
  destruct (str_eq name n) eqn:E.
  - destruct (subscript e "runs") as [rs|] eqn:Hrs; [|discriminate]. simpl.
    destruct (py_iter rs) as [its|] eqn:Hits; [|discriminate]. simpl.
    destruct (scan_testruns name its) as [[t0|]|] eqn:Hscan; simpl;
      [| |discriminate].
    + intros [= ->]. destruct (scan_testruns_sound _ _ _ Hscan) as [_ Hbad].
      discriminate Hbad.
    + intros H entry runs items t [<-|Hin] He Hruns Hitems Ht.
      * rewrite Hrs in Hruns. injection Hruns as <-.
        rewrite Hits in Hitems. injection Hitems as <-.
        now apply (scan_testruns_none name its Hscan).
      * now apply (IH H entry runs items t).
  - intros H entry runs items t [<-|Hin] He Hruns Hitems Ht.
    + unfold name_is in He. rewrite Hn in He. injection He as ->.
      simpl in E. now rewrite String.eqb_refl in E.
    + now apply (IH H entry runs items t).
Qed.

Section LookupProperties.

Context {rt : Runtime}.
Variable server : list request -> request -> http_reply.

(** X5.  With the project resolved and the milestones fetched,
    [get_milestone_id(name)] returns the id of the first milestone whose
    name contains [name] as a substring, and [None] when there is none;
    an empty response gives [None] as well. *)
Theorem get_milestone_id_first_substring_match (name : string) (st : state)
    (body : option pyval) :
  truthy (__project_id (obj st)) = true ->
  let rq := build_request (obj st) GET
              ("get_milestones/" ++ py_str (__project_id (obj st))) PNone in
  server (sent st) rq = Reply None body ->
  (forall items ms,
      py_iter (decoded body) = Ok items ->
      Forall2 (fun elem r => has_name_and_id elem (fst r) (snd r)) items ms ->
      get_milestone_id server name st = (Ok (first_containing name ms), after st rq))
  /\ (truthy (decoded body) = false ->
      get_milestone_id server name st = (Ok PNone, after st rq)).
Proof.
  intros Hp rq Hs.
  assert (E : get_milestone_id server name st
              = (if truthy (decoded body) then
                   items <- lift (py_iter (decoded body)) ;;
                   lift (scan_milestones name items)
                 else ret PNone) (after st rq)).
  { unfold get_milestone_id. rewrite (bind_ok _ _ _ _ _ (project_id_ok st Hp)).
    unfold send_get. now rewrite (bind_ok _ _ _ _ _ (send_request_ok server _ _ _ _ _ Hs)). }
  split.
  - intros items ms Hit Hms. rewrite E.
    destruct (truthy (decoded body)) eqn:Ht.
    + rewrite (lift_ok _ _ _ _ Hit). unfold lift.
      now rewrite (scan_milestones_find name items ms Hms).
    + assert (items = []) as ->.
      { destruct (decoded body) as [| b | z | s | l | d]; simpl in Ht, Hit;
          try discriminate.
        - destruct s; [now injection Hit as <- | discriminate].
        - destruct l; [now injection Hit as <- | discriminate].
        - destruct d; [now injection Hit as <- | discriminate]. }
      inversion Hms. reflexivity.
  - intros Ht. rewrite E, Ht. reflexivity.
Qed.

(** X6.  With the project resolved and the cases of the milestone
    fetched, [get_cases_based_on_milestone] returns the ids of the cases,
    one per case and in the order of the response; a case without an
    [id] makes it raise [KeyError]. *)
Theorem get_cases_based_on_milestone_lists_ids (milestone_id : pyval) (st : state)
    (body : option pyval) (items : list pyval) :
  truthy (__project_id (obj st)) = true ->
  let rq := build_request (obj st) GET
              ("get_cases/" ++ py_str (__project_id (obj st)) ++ "&milestone_id="
                 ++ py_str milestone_id) PNone in
  server (sent st) rq = Reply None body ->
  py_iter (decoded body) = Ok items ->
  (forall ids,
      Forall2 (fun elem i => subscript elem "id" = Ok i) items ids ->
      get_cases_based_on_milestone server milestone_id st
      = (Ok (PList ids), after st rq)
      /\ List.length ids = List.length items)
  /\ (forall before d rest,
        items = (before ++ PDict d :: rest)%list ->
        Forall (fun elem => exists i, subscript elem "id" = Ok i) before ->
        assoc "id" d = None ->
        get_cases_based_on_milestone server milestone_id st
        = (Raise (KeyError "id"), after st rq)).
Proof.
  intros Hp rq Hs Hit.
  assert (E : get_cases_based_on_milestone server milestone_id st
              = (case_list <- lift (map_outcome (fun elem => subscript elem "id") items) ;;
                 ret (PList case_list)) (after st rq)).
  { unfold get_cases_based_on_milestone.
    rewrite (bind_ok _ _ _ _ _ (project_id_ok st Hp)).
    unfold send_get.
    rewrite (bind_ok _ _ _ _ _ (send_request_ok server _ _ _ _ _ Hs)).
    now rewrite (lift_ok _ _ _ _ Hit). }
  split.
  - intros ids Hids. rewrite E.
    pose proof (map_outcome_Forall2 _ _ _ Hids) as Hm.
    rewrite (lift_ok _ _ _ _ Hm). split; [reflexivity|].
    now apply (map_outcome_length _ _ _ Hm).
  - intros before d rest -> Hb Hd. rewrite E.
    rewrite (map_outcome_raise (fun elem => subscript elem "id") before rest
               (PDict d) (KeyError "id") Hb).
    + reflexivity.
    + simpl. now rewrite Hd.
Qed.

(** X7.  A call of [_get_testrun_by_name] that returns has resolved the
    project and the plan by name and fetched the plan; over the entries
    of that plan, what it returns is either a run whose name is exactly
    [testrun_name], taken from the runs of an entry whose name is exactly
    [testrun_name] too, or [None], and then no entry of that name holds a
    run of that name: this lookup matches by equality, not by
    substring. *)
Theorem get_testrun_by_name_is_exact (project_name plan_name testrun_name : string)
    (st st' : state) (r : pyval) :
  _get_testrun_by_name server project_name plan_name testrun_name st = (Ok r, st') ->
  exists project pid plan plan_id detail entries items st1 st2,
    __get_project_by_name server project_name st = (Ok project, st1)
    /\ subscript project "id" = Ok pid
    /\ _get_plan_by_name server plan_name pid st1 = (Ok plan, st2)
    /\ subscript plan "id" = Ok plan_id
    /\ _get_plan server plan_id st2 = (Ok detail, st')
    /\ subscript detail "entries" = Ok entries
    /\ py_iter entries = Ok items
    /\ ((r = PNone
         /\ forall entry runs ritems t,
             In entry items -> name_is testrun_name entry ->
             subscript entry "runs" = Ok runs -> py_iter runs = Ok ritems ->
             In t ritems -> ~ name_is testrun_name t)
        \/ (name_is testrun_name r
            /\ exists entry runs ritems,
                In entry items
                /\ name_is testrun_name entry
                /\ subscript entry "runs" = Ok runs
                /\ py_iter runs = Ok ritems
                /\ In r ritems)).
Proof.
  unfold _get_testrun_by_name. intros H.
  apply bind_inv_ok in H as (project & s1 & Hproj & H).
  apply lift_inv_ok in H as (pid & Hpid & H).
  apply bind_inv_ok in H as (plan & s2 & Hplan & H).
  apply lift_inv_ok in H as (plan_id & Hplan_id & H).
  apply bind_inv_ok in H as (detail & s3 & Hdetail & H).
  apply lift_inv_ok in H as (entries & Hentries & H).
  apply lift_inv_ok in H as (items & Hitems & H).
  unfold lift in H. injection H as H <-.
  exists project, pid, plan, plan_id, detail, entries, items, s1, s2.
  repeat (split; [assumption|]).
  destruct (scan_named_entries_sound _ _ _ H)
    as [->|(Hr & entry & runs & its & Hin & He & Hruns & Hits & Hrin)].
  - left. split; [reflexivity|]. now apply scan_named_entries_none.
  - right. split; [exact Hr|]. exists entry, runs, its. repeat split; assumption.
Qed.

End LookupProperties.

Lemma get_milestone_id_witness :
  get_milestone_id Demo2.server "4.0" Demo.start
  = (Ok (PInt 4), after Demo.start (Demo.get "get_milestones/1")).
Proof.
  destruct (get_milestone_id_first_substring_match Demo2.server "4.0" Demo.start
              (Some Demo2.milestones) eq_refl eq_refl) as [H _].
  apply (H [PDict [("id", PInt 4); ("name", PStr "Release 4.0")];
            PDict [("id", PInt 5); ("name", PStr "Release 4.0 beta")]]
           [("Release 4.0", PInt 4); ("Release 4.0 beta", PInt 5)] eq_refl).
  repeat constructor.
Defined.

Lemma get_cases_based_on_milestone_witness :
  get_cases_based_on_milestone Demo2.server (PInt 4) Demo.start
  = (Ok (PList [PInt 11; PInt 12]),
     after Demo.start (Demo.get "get_cases/1&milestone_id=4")).
Proof.
  destruct (get_cases_based_on_milestone_lists_ids Demo2.server (PInt 4) Demo.start
              (Some Demo2.cases4)
              [PDict [("id", PInt 11); ("title", PStr "login")];
               PDict [("id", PInt 12); ("title", PStr "logout")]]
              eq_refl eq_refl eq_refl) as [H _].
  apply (H [PInt 11; PInt 12]). repeat constructor.
Defined.

Lemma get_testrun_by_name_witness :
  exists entry runs,
    In entry [PDict [("name", PStr "2020-01-01 00:00 - smoke");
                     ("runs", PList [Demo.smoke_run])];
              PDict [("name", PStr "smoke");
                     ("runs", PList [PDict [("id", PInt 20); ("name", PStr "other")];
                                     Demo2.exact_run])]]
    /\ name_is "smoke" entry
    /\ subscript entry "runs" = Ok (PList runs)
    /\ In Demo2.exact_run runs.
Proof.
  destruct (get_testrun_by_name_is_exact Demo2.server "Velocloud" "Exact" "smoke"
              Demo.start
              (after (after (after Demo.start (Demo.get "get_projects"))
                        (Demo.get "get_plans/1")) (Demo.get "get_plan/11"))
              Demo2.exact_run eq_refl)
    as (project & pid & plan & plan_id & detail & entries & items & s1 & s2
        & Hproj & Hpid & Hplan & Hplan_id & Hdetail & Hentries & Hitems & H).
  vm_compute in Hproj. injection Hproj as <- <-.
  vm_compute in Hpid. injection Hpid as <-.
  vm_compute in Hplan. injection Hplan as <- <-.
  vm_compute in Hplan_id. injection Hplan_id as <-.
  vm_compute in Hdetail. injection Hdetail as <-.
  vm_compute in Hentries. injection Hentries as <-.
  vm_compute in Hitems. injection Hitems as <-.
  destruct H as [[H _] | (_ & entry & runs & ritems & Hin & He & Hruns & Hits & Hrin)].
  - discriminate H.
  - destruct Hin as [<-|[<-|[]]]; [discriminate He|].
    vm_compute in Hruns. injection Hruns as <-.
    vm_compute in Hits. injection Hits as <-.
    eexists. eexists. split; [right; left; reflexivity|].
    split; [exact He|]. split; [reflexivity | exact Hrin].
Defined.

(* ================================================================= *)
(** ** Creating and updating plan entries: names and failures *)

Lemma append_nil_r (s : string) : s ++ EmptyString = s.
Proof. induction s as [|c s IH]; simpl; [reflexivity | now rewrite IH]. Qed.

Lemma append_assoc (a b c : string) : (a ++ b) ++ c = a ++ b ++ c.
Proof. induction a as [|x a IH]; simpl; [reflexivity | now rewrite IH]. Qed.

Lemma length_append (a b : string) :
  String.length (a ++ b) = (String.length a + String.length b)%nat.
Proof. induction a as [|x a IH]; simpl; [reflexivity | now rewrite IH]. Qed.

Lemma appends_ret {A} (a : A) : appends (ret a).
Proof. intros st. exists []. now rewrite app_nil_r. Qed.

Lemma appends_raise {A} (e : exn) : appends (@raise A e).
Proof. intros st. exists []. now rewrite app_nil_r. Qed.

Lemma appends_lift {A} (o : outcome A) : appends (lift o).
Proof. intros st. exists []. now rewrite app_nil_r. Qed.

Lemma appends_get_self : appends get_self.
Proof. intros st. exists []. now rewrite app_nil_r. Qed.

Lemma appends_bind {A B} (m : M A) (k : A -> M B) :
  appends m -> (forall a, appends (k a)) -> appends (bind m k).
Proof.
  intros Hm Hk st. unfold bind. destruct (Hm st) as (n1 & E1).
  destruct (m st) as [[a|e] st1]; simpl in E1.
  - destruct (Hk a st1) as (n2 & E2). exists (n1 ++ n2)%list.
    now rewrite E2, E1, app_assoc.
  - now exists n1.
Qed.

(** What follows a first step only adds to what the first step sent. *)
Lemma bind_sent {A B} (m : M A) (k : A -> M B) (st : state) :
  (forall a, appends (k a)) ->
  exists new, sent (snd (bind m k st)) = (sent (snd (m st)) ++ new)%list.
Proof.
  intros Hk. unfold bind. destruct (m st) as [[a|e] st1]; simpl.
  - apply Hk.
  - exists []. now rewrite app_nil_r.
Qed.

Section EntryProperties.

Context {rt : Runtime}.
Variable server : list request -> request -> http_reply.

Lemma appends_send (m : method) (uri : string) (data : pyval) :
  appends (__send_request server m uri data).
Proof. intros st. rewrite send_request_state. now eexists. Qed.

Lemma contains_format_testrun (n : string) : contains n (format_testrun n) = true.
Proof.
  apply contains_spec. exists (pacific_now ++ " - "), EmptyString.
  unfold format_testrun. now rewrite append_nil_r, append_assoc.
Qed.

Lemma format_testrun_differs (n : string) : format_testrun n <> n.
Proof.
  intros H. apply (f_equal String.length) in H. unfold format_testrun in H.
  rewrite !length_append in H. simpl in H. lia.
Qed.

(** X8.  The entry [add_default_test_run_entry_to_plan] posts for the
    name [n] is named ["<now> - n"].  The two lookups that test for a
    substring -- the scan of [get_run_id] and the scan of
    [update_test_run] -- accept such an entry when asked for [n]; the
    lookup of [_get_testrun_by_name], which tests for equality, passes it
    over. *)
Theorem timestamped_name_found_by_substring_only (n : string) :
  (forall sid b cids,
      subscript (default_entry sid n b cids) "name" = Ok (PStr (format_testrun n)))
  /\ (forall entry id rest,
        first_run entry (format_testrun n) id ->
        scan_runs n (entry :: rest) = Ok id)
  /\ (forall entry entry_id rest,
        name_is (format_testrun n) entry ->
        first_entry_id entry entry_id ->
        scan_entries n (entry :: rest) = Ok (Some entry_id))
  /\ (forall entry rest,
        name_is (format_testrun n) entry ->
        scan_named_entries n (entry :: rest) = scan_named_entries n rest).
Proof.
  repeat split.
  - intros entry id rest (runs & run & H1 & H2 & H3 & H4). simpl.
    rewrite H1. simpl. rewrite H2. simpl. rewrite H3. simpl.
    now rewrite contains_format_testrun.
  - intros entry eid rest Hn (runs & run & H1 & H2 & H3). simpl.
    rewrite Hn. simpl. rewrite contains_format_testrun, H1. simpl.
    rewrite H2. simpl. now rewrite H3.
  - intros entry rest Hn. simpl. rewrite Hn. simpl.
    destruct (String.eqb n (format_testrun n)) eqn:E; [|reflexivity].
    apply String.eqb_eq in E. symmetry in E. now apply format_testrun_differs in E.
Qed.

Lemma get_plan_by_name_run (plan_name : string) (st : state) (body : option pyval)
    (items : list pyval) :
  truthy (__project_id (obj st)) = true ->
  server (sent st)
    (build_request (obj st) GET ("get_plans/" ++ py_str (__project_id (obj st))) PNone)
  = Reply None body ->
  py_iter (decoded body) = Ok items ->
  _get_plan_by_name server plan_name PNone st
  = (first_named plan_name items,
     after st (build_request (obj st) GET
                 ("get_plans/" ++ py_str (__project_id (obj st))) PNone)).
Proof.
  intros Hp Hs Hit.
  unfold _get_plan_by_name, _get_plans, default_project_id, project_id, send_get,
    bind, get_self, ret, lift.
  cbn [truthy]. rewrite !Hp.
  rewrite (send_request_ok server _ _ _ _ _ Hs). now rewrite Hit.
Qed.

(** X9.  When the project's plans are fetched and none has exactly the
    name [plan_name], [add_default_test_run_entry_to_plan] raises
    [APIError] with a message that names the plan, whatever the case ids;
    it has sent the one GET of the plans and nothing else. *)
Theorem add_default_entry_unknown_plan (test_run_name plan_name : string)
    (case_ids : pyval) (st : state) (body : option pyval) (items : list pyval) :
  truthy (__project_id (obj st)) = true ->
  let rq := build_request (obj st) GET
              ("get_plans/" ++ py_str (__project_id (obj st))) PNone in
  server (sent st) rq = Reply None body ->
  py_iter (decoded body) = Ok items ->
  Forall named items ->
  (forall p, In p items -> ~ name_is plan_name p) ->
  add_default_test_run_entry_to_plan server test_run_name plan_name case_ids st
  = (Raise (APIError ("testrail plan '" ++ plan_name ++ "' not found")),
     after st rq).
Proof.
  intros Hp rq Hs Hit Hnamed Hno.
  pose proof (get_plan_by_name_run plan_name st body items Hp Hs Hit) as Hplan.
  rewrite (first_named_none plan_name items Hnamed Hno) in Hplan.
  unfold add_default_test_run_entry_to_plan.
  rewrite (empty_run_guard_unreachable case_ids).
  now rewrite (bind_ok _ _ _ _ _ Hplan).
Qed.

(** X10.  For every value of [case_ids], once the plan is found and the
    suite id resolved, the entry posted has [include_all] true exactly
    when [case_ids] is empty or [None], carries [case_ids] itself, and
    holds one run with [include_all] false and the same [case_ids]. *)
Theorem add_default_entry_include_all (st st1 : state)
    (test_run_name plan_name : string) (case_ids plan plan_id : pyval) :
  _get_plan_by_name server plan_name PNone st = (Ok plan, st1) ->
  subscript plan "id" = Ok plan_id ->
  truthy (__suite_id (obj st)) = true ->
  let entry := default_entry (__suite_id (obj st)) test_run_name
                 (negb (truthy case_ids)) case_ids in
  add_default_test_run_entry_to_plan server test_run_name plan_name case_ids st
  = send_post server ("add_plan_entry/" ++ py_str plan_id) entry st1
  /\ subscript entry "include_all" = Ok (PBool (negb (truthy case_ids)))
  /\ subscript entry "case_ids" = Ok case_ids
  /\ subscript entry "runs"
     = Ok (PList [PDict [("include_all", PBool false); ("case_ids", case_ids);
                         ("config_ids", PList [])]]).
Proof.
  intros Hplan Hid Hsuite entry.
  destruct (get_plan_by_name_state server _ _ _ _ _ Hplan) as (pid & _ & Hst1).
  assert (Hobj : obj st1 = obj st) by now subst st1.
  split; [|repeat split].
  unfold add_default_test_run_entry_to_plan.
  rewrite (empty_run_guard_unreachable case_ids).
  rewrite (bind_ok _ _ _ _ _ Hplan).
  destruct plan; try discriminate Hid.
  rewrite (lift_ok _ _ _ _ Hid).
  unfold suite_id, bind at 1, get_self. unfold bind at 1.
  rewrite Hobj, Hsuite. unfold entry. now destruct (truthy case_ids).
Qed.

(** X11.  When the plan is found but the suite id is unset, the
    operation raises the configuration error after the lookup of the
    plan: nothing is posted. *)
Theorem add_default_entry_unresolved_suite (st st1 : state)
    (test_run_name plan_name : string) (case_ids plan plan_id : pyval) :
  _get_plan_by_name server plan_name PNone st = (Ok plan, st1) ->
  subscript plan "id" = Ok plan_id ->
  truthy (__suite_id (obj st)) = false ->
  add_default_test_run_entry_to_plan server test_run_name plan_name case_ids st
  = (Raise (EnvironmentError
              ("Define the suite name as an object attribute like so"
                 ++ newline ++ "client.suite = 'Master'")), st1)
  /\ exists pid,
      sent st1 = (sent st ++ [build_request (obj st) GET
                                ("get_plans/" ++ py_str pid) PNone])%list.
Proof.
  intros Hplan Hid Hsuite.
  destruct (get_plan_by_name_state server _ _ _ _ _ Hplan) as (pid & _ & Hst1).
  assert (Hobj : obj st1 = obj st) by now subst st1.
  split; [|exists pid; now subst st1].
  unfold add_default_test_run_entry_to_plan.
  rewrite (empty_run_guard_unreachable case_ids).
  rewrite (bind_ok _ _ _ _ _ Hplan).
  destruct plan; try discriminate Hid.
  rewrite (lift_ok _ _ _ _ Hid).
  unfold suite_id, bind at 1, get_self. unfold bind at 1.
  now rewrite Hobj, Hsuite.
Qed.

(** X12.  When the project's plans are fetched and none has exactly the
    name [plan_name], [get_run_id] and [update_test_run] subscript the
    [None] the resolver returned: both raise [TypeError] -- not
    [APIError], and not a [False] result -- after the one GET of the
    plans. *)
Theorem unknown_plan_raises_TypeError (plan_name run_name : string)
    (case_ids : pyval) (st : state) (body : option pyval) (items : list pyval) :
  truthy (__project_id (obj st)) = true ->
  let rq := build_request (obj st) GET
              ("get_plans/" ++ py_str (__project_id (obj st))) PNone in
  server (sent st) rq = Reply None body ->
  py_iter (decoded body) = Ok items ->
  Forall named items ->
  (forall p, In p items -> ~ name_is plan_name p) ->
  get_run_id server plan_name run_name st = (Raise TypeError, after st rq)
  /\ update_test_run server run_name plan_name case_ids st
     = (Raise TypeError, after st rq).
Proof.
  intros Hp rq Hs Hit Hnamed Hno.
  pose proof (get_plan_by_name_run plan_name st body items Hp Hs Hit) as Hplan.
  rewrite (first_named_none plan_name items Hnamed Hno) in Hplan.
  assert (E : get_run_id server plan_name run_name st = (Raise TypeError, after st rq)).
  { unfold get_run_id. now rewrite (bind_ok _ _ _ _ _ Hplan). }
  split; [exact E|].
  unfold update_test_run. now rewrite (bind_raise _ _ _ _ _ E).
Qed.

End EntryProperties.

Ltac grow :=
  repeat first
    [ apply appends_bind; [|intros ?]
    | apply appends_ret | apply appends_raise | apply appends_lift
    | apply appends_get_self | apply appends_send
    | match goal with
      | |- appends (if ?b then _ else _) => destruct b
      | |- appends (match ?x with _ => _ end) => destruct x
      end ].

Section UpdateProperties.

Context {rt : Runtime}.
Variable server : list request -> request -> http_reply.

(** The part of [update_test_run] that follows the search of the entry
    (lines 473-486). *)
Lemma update_test_run_found (test_run_name plan_name : string) (case_ids : pyval)
    (st st1 st2 st3 : state) (rid plan plan_id detail entries : pyval)
    (before rest : list pyval) (elem entry_id : pyval) :
  get_run_id server plan_name test_run_name st = (Ok rid, st1) ->
  _get_plan_by_name server plan_name PNone st1 = (Ok plan, st2) ->
  subscript plan "id" = Ok plan_id ->
  _get_plan server plan_id st2 = (Ok detail, st3) ->
  subscript detail "entries" = Ok entries ->
  py_iter entries = Ok (before ++ elem :: rest)%list ->
  (forall e, In e before -> entry_misses test_run_name e) ->
  entry_matches test_run_name elem ->
  first_entry_id elem entry_id ->
  update_test_run server test_run_name plan_name case_ids st
  = (new_ids <- check_test_id_duplicate server case_ids rid ;;
     if negb (truthy (PList new_ids)) then ret (PBool false)
     else
       existing_tests <- get_cases_in_run server rid ;;
       tests <- lift (py_iter existing_tests) ;;
       present <- lift (case_ids_of tests) ;;
       send_post server
         ("update_plan_entry/" ++ py_str plan_id ++ "/" ++ py_str entry_id)
         (update_entry (new_ids ++ present))) st3.
Proof.
  intros Hrid Hplan Hid Hdetail Hent Hit Hb Hm He.
  unfold update_test_run.
  rewrite (bind_ok _ _ _ _ _ Hrid), (bind_ok _ _ _ _ _ Hplan),
    (lift_ok _ _ _ _ Hid), (bind_ok _ _ _ _ _ Hdetail),
    (lift_ok _ _ _ _ Hent), (lift_ok _ _ _ _ Hit),
    (lift_ok _ _ _ _ (scan_entries_first _ _ _ _ _ Hb Hm He)).
  reflexivity.
Qed.

(** X13.  [update_test_run] takes the run id from [get_run_id], which
    looks at the name of the first run of each entry, and the entry from
    its own scan, which looks at the name of the entry.  When an entry
    name contains the run name but no first run does, the run id is
    [None] and is used as it is: the tests are fetched from
    [get_tests/None]. *)
Theorem update_test_run_without_run_id (test_run_name plan_name : string)
    (case_ids : pyval) (st st1 st2 st3 : state)
    (plan plan_id detail entries : pyval)
    (before rest : list pyval) (elem entry_id : pyval) :
  get_run_id server plan_name test_run_name st = (Ok PNone, st1) ->
  _get_plan_by_name server plan_name PNone st1 = (Ok plan, st2) ->
  subscript plan "id" = Ok plan_id ->
  _get_plan server plan_id st2 = (Ok detail, st3) ->
  subscript detail "entries" = Ok entries ->
  py_iter entries = Ok (before ++ elem :: rest)%list ->
  (forall e, In e before -> entry_misses test_run_name e) ->
  entry_matches test_run_name elem ->
  first_entry_id elem entry_id ->
  exists more,
    sent (snd (update_test_run server test_run_name plan_name case_ids st))
    = (sent st3 ++ build_request (obj st3) GET "get_tests/None" PNone :: more)%list.
Proof.
  intros Hrid Hplan Hid Hdetail Hent Hit Hb Hm He.
  rewrite (update_test_run_found _ _ case_ids _ _ _ _ _ _ _ _ _ _ _ _ _
             Hrid Hplan Hid Hdetail Hent Hit Hb Hm He).
  match goal with
  | |- context [bind ?m ?k st3] => destruct (bind_sent m k st3) as (n1 & E1)
  end.
  { intros new_ids. unfold get_cases_in_run, send_get, send_post. grow. }
  rewrite E1. unfold check_test_id_duplicate.
  match goal with
  | |- context [bind ?m ?k st3] => destruct (bind_sent m k st3) as (n2 & E2)
  end.
  { intros tcl. grow. }
  rewrite E2. unfold send_get. rewrite send_request_state. simpl.
  exists (n2 ++ n1)%list. now rewrite <- !app_assoc.
Qed.

(** X14.  Called without case ids (the default [None]) on a run whose
    entry is found, [update_test_run] fetches the tests of the run and
    then fails on [set(None)]: it raises [TypeError] and posts nothing. *)
Theorem update_test_run_without_case_ids (test_run_name plan_name : string)
    (st st1 st2 st3 st4 : state) (rid plan plan_id detail entries tcl : pyval)
    (before rest : list pyval) (elem entry_id : pyval) (tests E : list pyval) :
  get_run_id server plan_name test_run_name st = (Ok rid, st1) ->
  _get_plan_by_name server plan_name PNone st1 = (Ok plan, st2) ->
  subscript plan "id" = Ok plan_id ->
  _get_plan server plan_id st2 = (Ok detail, st3) ->
  subscript detail "entries" = Ok entries ->
  py_iter entries = Ok (before ++ elem :: rest)%list ->
  (forall e, In e before -> entry_misses test_run_name e) ->
  entry_matches test_run_name elem ->
  first_entry_id elem entry_id ->
  send_get server ("get_tests/" ++ py_str rid) st3 = (Ok tcl, st4) ->
  py_iter tcl = Ok tests ->
  case_ids_of tests = Ok E ->
  update_test_run server test_run_name plan_name PNone st = (Raise TypeError, st4).
Proof.
  intros Hrid Hplan Hid Hdetail Hent Hit Hb Hm He Hget Htests HE.
  rewrite (update_test_run_found _ _ PNone _ _ _ _ _ _ _ _ _ _ _ _ _
             Hrid Hplan Hid Hdetail Hent Hit Hb Hm He).
  apply bind_raise. unfold check_test_id_duplicate.
  rewrite (bind_ok _ _ _ _ _ Hget), (lift_ok _ _ _ _ Htests), (lift_ok _ _ _ _ HE).
  reflexivity.
Qed.

End UpdateProperties.

Lemma timestamped_name_witness :
  scan_runs "smoke"
    [PDict [("name", PStr "2020-01-01 00:00 - smoke");
            ("runs", PList [Demo.smoke_run])]]
  = Ok (PInt 7)
  /\ scan_named_entries "smoke"
       [PDict [("name", PStr "2020-01-01 00:00 - smoke");
               ("runs", PList [Demo.smoke_run])]]
     = Ok PNone.
Proof.
  destruct (timestamped_name_found_by_substring_only "smoke") as (_ & H1 & _ & H2).
  split.
  - apply H1. do 2 eexists. repeat split; reflexivity.
  - rewrite H2; reflexivity.
Defined.

Lemma add_default_entry_unknown_plan_witness :
  add_default_test_run_entry_to_plan Demo.server "smoke" "Weekly"
    (PList [PInt 1]) Demo.start
  = (Raise (APIError "testrail plan 'Weekly' not found"),
     after Demo.start (Demo.get "get_plans/1")).
Proof.
  apply (add_default_entry_unknown_plan Demo.server "smoke" "Weekly"
           (PList [PInt 1]) Demo.start (Some Demo.plans)
           [PDict [("id", PInt 10); ("name", PStr "Nightly")]]
           eq_refl eq_refl eq_refl).
  - repeat constructor. eexists. reflexivity.
  - intros p [<-|[]]. discriminate.
Defined.

Lemma add_default_entry_include_all_witness :
  add_default_test_run_entry_to_plan Demo.server "smoke" "Nightly"
    (PList [PInt 1]) Demo.start
  = send_post Demo.server "add_plan_entry/10"
      (default_entry (PInt 2) "smoke" false (PList [PInt 1]))
      (after Demo.start (Demo.get "get_plans/1")).
Proof.
  apply (add_default_entry_include_all Demo.server
           Demo.start (after Demo.start (Demo.get "get_plans/1"))
           "smoke" "Nightly" (PList [PInt 1])
           (PDict [("id", PInt 10); ("name", PStr "Nightly")]) (PInt 10)
           eq_refl eq_refl eq_refl).
Defined.

Lemma add_default_entry_unresolved_suite_witness :
  existsb is_post
    (sent (snd (add_default_test_run_entry_to_plan Demo.server "smoke" "Nightly"
                  PNone Demo2.no_suite))) = false.
Proof.
  destruct (add_default_entry_unresolved_suite Demo.server
              Demo2.no_suite (after Demo2.no_suite (Demo.get "get_plans/1"))
              "smoke" "Nightly" PNone
              (PDict [("id", PInt 10); ("name", PStr "Nightly")]) (PInt 10)
              eq_refl eq_refl eq_refl) as [E _].
  rewrite E. reflexivity.
Defined.

Lemma unknown_plan_witness :
  update_test_run Demo.server "smoke" "Weekly" (PList [PInt 1]) Demo.start
  = (Raise TypeError, after Demo.start (Demo.get "get_plans/1")).
Proof.
  apply (unknown_plan_raises_TypeError Demo.server "Weekly" "smoke"
           (PList [PInt 1]) Demo.start (Some Demo.plans)
           [PDict [("id", PInt 10); ("name", PStr "Nightly")]]
           eq_refl eq_refl eq_refl).
  - repeat constructor. eexists. reflexivity.
  - intros p [<-|[]]. discriminate.
Defined.

Lemma update_test_run_without_run_id_witness :
  exists more,
    sent (snd (update_test_run Demo2.server "upgrade" "Configs" (PList [PInt 1])
                 Demo.start))
    = ([Demo.get "get_plans/1"; Demo.get "get_plan/12";
        Demo.get "get_plans/1"; Demo.get "get_plan/12"]
         ++ Demo.get "get_tests/None" :: more)%list.
Proof.
  pose (s1 := after (after Demo.start (Demo.get "get_plans/1"))
                (Demo.get "get_plan/12")).
  pose (s3 := after (after s1 (Demo.get "get_plans/1")) (Demo.get "get_plan/12")).
  apply (update_test_run_without_run_id Demo2.server "upgrade" "Configs"
           (PList [PInt 1]) Demo.start s1 (after s1 (Demo.get "get_plans/1")) s3
           (PDict [("id", PInt 12); ("name", PStr "Configs")]) (PInt 12)
           Demo2.plan12
           (PList [PDict [("name", PStr "upgrade matrix");
                          ("runs", PList [PDict [("id", PInt 30);
                                                 ("name", PStr "Chrome");
                                                 ("entry_id", PStr "e-9")]])]])
           [] []
           (PDict [("name", PStr "upgrade matrix");
                   ("runs", PList [PDict [("id", PInt 30);
                                          ("name", PStr "Chrome");
                                          ("entry_id", PStr "e-9")]])])
           (PStr "e-9") eq_refl eq_refl eq_refl eq_refl eq_refl eq_refl).
  - intros e [].
  - eexists. split; reflexivity.
  - do 2 eexists. repeat split; reflexivity.
Defined.

Lemma update_test_run_without_case_ids_witness :
  update_test_run Demo.server "smoke" "Nightly" PNone Demo.start
  = (Raise TypeError,
     after (after (after (after (after Demo.start (Demo.get "get_plans/1"))
                            (Demo.get "get_plan/10"))
                     (Demo.get "get_plans/1"))
              (Demo.get "get_plan/10"))
       (Demo.get "get_tests/7")).
Proof.
  pose (s1 := after (after Demo.start (Demo.get "get_plans/1"))
                (Demo.get "get_plan/10")).
  pose (s3 := after (after s1 (Demo.get "get_plans/1")) (Demo.get "get_plan/10")).
  apply (update_test_run_without_case_ids Demo.server "smoke" "Nightly"
           Demo.start s1 (after s1 (Demo.get "get_plans/1")) s3
           (after s3 (Demo.get "get_tests/7"))
           (PInt 7)
           (PDict [("id", PInt 10); ("name", PStr "Nightly")]) (PInt 10)
           Demo.plan10
           (PList [PDict [("name", PStr "2019-12-31 09:30 - regression");
                          ("runs", PList [PDict [("id", PInt 6);
                                                 ("name", PStr "2019-12-31 09:30 - regression");
                                                 ("entry_id", PStr "e-0")]])];
                   PDict [("name", PStr "2020-01-01 00:00 - smoke");
                          ("runs", PList [Demo.smoke_run])]])
           Demo.tests7
           [PDict [("name", PStr "2019-12-31 09:30 - regression");
                   ("runs", PList [PDict [("id", PInt 6);
                                          ("name", PStr "2019-12-31 09:30 - regression");
                                          ("entry_id", PStr "e-0")]])]]
           []
           (PDict [("name", PStr "2020-01-01 00:00 - smoke");
                   ("runs", PList [Demo.smoke_run])])
           (PStr "e-1")
           [PDict [("id", PInt 100); ("case_id", PInt 1)];
            PDict [("id", PInt 101); ("case_id", PInt 2)]]
           [PInt 1; PInt 2]
           eq_refl eq_refl eq_refl eq_refl eq_refl eq_refl).
  - intros e [<-|[]]. eexists. split; reflexivity.
  - eexists. split; reflexivity.
  - do 2 eexists. repeat split; reflexivity.
  - reflexivity.
  - reflexivity.
  - reflexivity.
Defined.

(* ================================================================= *)
(** ** The current run and its cache *)

Lemma find_case_first (case_id : Z) (before rest : list pyval)
    (d : list (string * pyval)) :
  (forall t, In t before ->
             exists d', t = PDict d'
                        /\ int_eq case_id (dict_get d' "case_id" PNone) = false) ->
  int_eq case_id (dict_get d "case_id" PNone) = true ->
  find_case case_id (before ++ PDict d :: rest) = Ok (dict_get d "id" PNone).
Proof.
  intros Hb Hd. induction before as [|t before IH]; simpl.
  - unfold dict_get in *. destruct (assoc "case_id" d); simpl;
      [|discriminate Hd]. rewrite Hd. destruct (assoc "id" d); reflexivity.
  - destruct (Hb t (or_introl eq_refl)) as (d' & -> & Hd'). simpl.
    unfold dict_get in Hd'. destruct (assoc "case_id" d'); simpl;
      try rewrite Hd'; apply IH; intros t' Ht'; apply Hb; now right.
Qed.

Lemma find_case_skips (case_id : Z) (before rest : list pyval)
    (d : list (string * pyval)) :
  assoc "case_id" d = None ->
  find_case case_id (before ++ PDict d :: rest) = find_case case_id (before ++ rest).
Proof.
  intros Hd. induction before as [|t before IH]; simpl.
  - now rewrite Hd.
  - destruct (dict_get_none t "case_id"); [|reflexivity]. simpl.
    destruct (int_eq case_id a); [reflexivity | exact IH].
Qed.

Section RunProperties.

Context {rt : Runtime}.
Variable server : list request -> request -> http_reply.


(** X16.  After a successful assignment of [run_id] to [R],
    [update_test_result] for [R] looks the case up in the list fetched by
    the assignment and sends no GET: it sends nothing, or the one POST of
    the result. *)
Theorem update_test_result_uses_assigned_run (st : state) (R : pyval)
    (body : option pyval) (case_id : Z) (report : TestReport) :
  hashable R = true ->
  server (sent st) (build_request (obj st) GET ("get_tests/" ++ py_str R) PNone)
  = Reply None body ->
  let st1 := snd (run_id_setter server R st) in
  __check_case_in_run server R case_id st1
  = ((items <~ py_iter (decoded body) ;; find_case case_id items), st1)
  /\ (sent (snd (update_test_result server R case_id report st1)) = sent st1
      \/ exists data,
          sent (snd (update_test_result server R case_id report st1))
          = (sent st1 ++ [build_request (obj st1) POST
                            ("add_results/" ++ py_str R) data])%list).
Proof.
  intros HR Hs st1.
  assert (E1 : st1 = {| obj := with_cases_in_run [(R, decoded body)]
                                 (with_run_id R (obj st));
                        sent := (sent st ++ [build_request (obj st) GET
                                               ("get_tests/" ++ py_str R) PNone])%list |}).
  { unfold st1, run_id_setter, bind at 1, modify_self at 1.
    unfold get_cases_in_run, send_get.
    erewrite bind_ok
      by (apply send_request_ok; simpl; unfold build_request in *; simpl;
          exact Hs).
    rewrite HR. reflexivity. }
  assert (Htc : tc_list_of server R st1 = (Ok (decoded body), st1)).
  { apply tc_list_of_cached; [exact HR|]. rewrite E1. simpl.
    now rewrite (key_eq_refl R HR). }
  assert (Hcheck : __check_case_in_run server R case_id st1
                   = ((items <~ py_iter (decoded body) ;; find_case case_id items),
                      st1)).
  { unfold __check_case_in_run. rewrite (bind_ok _ _ _ _ _ Htc).
    unfold bind, lift. destruct (py_iter (decoded body)); reflexivity. }
  split; [exact Hcheck|].
  destruct (update_test_result_state server R case_id report st1) as [E | [data E]];
    rewrite E, Hcheck; simpl; [now left | right; now exists data].
Qed.

(** X17.  A test without a [case_id] in the response: the deduplication
    subscripts it and raises [KeyError], before it looks at the
    candidates; the search of a case in the run reads it with [.get] and
    passes the test over. *)
Theorem test_without_case_id (test_list run_id tcl : pyval) (st st1 : state)
    (before rest : list pyval) (d : list (string * pyval)) :
  send_get server ("get_tests/" ++ py_str run_id) st = (Ok tcl, st1) ->
  py_iter tcl = Ok (before ++ PDict d :: rest)%list ->
  Forall (fun t => exists c, subscript t "case_id" = Ok c) before ->
  assoc "case_id" d = None ->
  check_test_id_duplicate server test_list run_id st
  = (Raise (KeyError "case_id"), st1)
  /\ (forall case_id,
        find_case case_id (before ++ PDict d :: rest)
        = find_case case_id (before ++ rest)).
Proof.
  intros Hget Hit Hb Hd. split.
  - unfold check_test_id_duplicate.
    rewrite (bind_ok _ _ _ _ _ Hget), (lift_ok _ _ _ _ Hit).
    unfold case_ids_of.
    rewrite (map_outcome_raise (fun elem => subscript elem "case_id") before rest
               (PDict d) (KeyError "case_id") Hb); [reflexivity|].
    simpl. now rewrite Hd.
  - intros c. now apply find_case_skips.
Qed.

(** X18.  The search of a case in a run returns the [id] of the first
    test whose case id equals the one asked for, and [None] when that
    test has no [id]; in that case [update_test_result] takes the case
    for absent and returns [False], whatever tests follow. *)
Theorem check_case_returns_first_match (run_id tcl : pyval) (case_id : Z)
    (st st1 : state) (before rest : list pyval) (d : list (string * pyval)) :
  tc_list_of server run_id st = (Ok tcl, st1) ->
  py_iter tcl = Ok (before ++ PDict d :: rest)%list ->
  (forall t, In t before ->
             exists d', t = PDict d'
                        /\ int_eq case_id (dict_get d' "case_id" PNone) = false) ->
  int_eq case_id (dict_get d "case_id" PNone) = true ->
  __check_case_in_run server run_id case_id st = (Ok (dict_get d "id" PNone), st1)
  /\ (assoc "id" d = None ->
      forall report,
        update_test_result server run_id case_id report st
        = (Ok (PBool false), st1)).
Proof.
  intros Htc Hit Hb Hd.
  assert (E : __check_case_in_run server run_id case_id st
              = (Ok (dict_get d "id" PNone), st1)).
  { unfold __check_case_in_run.
    rewrite (bind_ok _ _ _ _ _ Htc), (lift_ok _ _ _ _ Hit).
    unfold lift. now rewrite (find_case_first case_id before rest d Hb Hd). }
  split; [exact E|]. intros Hid report.
  unfold update_test_result. rewrite (bind_ok _ _ _ _ _ E).
  unfold dict_get. now rewrite Hid.
Qed.

End RunProperties.


Lemma update_test_result_uses_assigned_run_witness :
  __check_case_in_run Demo.server (PInt 7) 2
    (snd (run_id_setter Demo.server (PInt 7) Demo.start))
  = (Ok (PInt 101), snd (run_id_setter Demo.server (PInt 7) Demo.start)).
Proof.
  destruct (update_test_result_uses_assigned_run Demo.server Demo.start (PInt 7)
              (Some Demo.tests7) 2 Demo.report_passed eq_refl eq_refl) as [H _].
  exact H.
Defined.

Lemma test_without_case_id_witness :
  check_test_id_duplicate Demo2.server (PList [PInt 5]) (PInt 9) Demo.start
  = (Raise (KeyError "case_id"), after Demo.start (Demo.get "get_tests/9")).
Proof.
  apply (test_without_case_id Demo2.server (PList [PInt 5]) (PInt 9) Demo2.tests9
           Demo.start (after Demo.start (Demo.get "get_tests/9"))
           [] [PDict [("case_id", PInt 5)];
               PDict [("id", PInt 202); ("case_id", PInt 5)]]
           [("id", PInt 200)] eq_refl eq_refl (Forall_nil _) eq_refl).
Defined.

Lemma check_case_returns_first_match_witness :
  update_test_result Demo2.server (PInt 9) 5 Demo.report_passed Demo.start
  = (Ok (PBool false), after Demo.start (Demo.get "get_tests/9")).
Proof.
  destruct (check_case_returns_first_match Demo2.server (PInt 9) Demo2.tests9 5
              Demo.start (after Demo.start (Demo.get "get_tests/9"))
              [PDict [("id", PInt 200)]]
              [PDict [("id", PInt 202); ("case_id", PInt 5)]]
              [("case_id", PInt 5)] eq_refl eq_refl) as [_ H].
  - intros t [<-|[]]. eexists. split; reflexivity.
  - reflexivity.
  - exact (H eq_refl Demo.report_passed).
Defined.

(* ================================================================= *)
(** ** Assigning the project and the suite; the constructor *)

Lemma list_ascii_of_string_app (a b : string) :
  list_ascii_of_string (a ++ b)
  = (list_ascii_of_string a ++ list_ascii_of_string b)%list.
Proof. induction a as [|c a IH]; simpl; [reflexivity | now rewrite IH]. Qed.

Lemma string_of_list_ascii_app (a b : list ascii) :
  string_of_list_ascii (a ++ b)%list
  = string_of_list_ascii a ++ string_of_list_ascii b.
Proof. induction a as [|c a IH]; simpl; [reflexivity | now rewrite IH]. Qed.

Lemma ends_with_slash_spec (s : string) :
  ends_with_slash s = true <-> exists b, s = b ++ "/".
Proof.
  unfold ends_with_slash. split.
  - destruct (rev (list_ascii_of_string s)) as [|c l] eqn:E; [discriminate|].
    intros H. apply Ascii.eqb_eq in H. subst c.
    apply (f_equal (@rev ascii)) in E. rewrite rev_involutive in E. simpl in E.
    exists (string_of_list_ascii (rev l)).
    rewrite <- (string_of_list_ascii_of_string s), E, string_of_list_ascii_app.
    reflexivity.
  - intros [b ->]. rewrite list_ascii_of_string_app, rev_app_distr. reflexivity.
Qed.

Section SetterProperties.

Context {rt : Runtime}.
Variable server : list request -> request -> http_reply.

Lemma get_project_by_name_inv (name : string) (st st1 : state) (p : pyval) :
  __get_project_by_name server name st = (Ok p, st1) ->
  st1 = after st (build_request (obj st) GET "get_projects" PNone).
Proof.
  unfold __get_project_by_name, __get_projects, send_get, bind.
  pose proof (send_request_state server GET "get_projects" PNone st) as Hs.
  destruct (__send_request server GET "get_projects" PNone st) as [[ps|e] s];
    simpl in Hs; subst s; [|discriminate].
  unfold lift. destruct (py_iter ps); [|discriminate].
  destruct (first_named name a); [|discriminate]. now intros [= _ <-].
Qed.

Lemma get_suite_by_name_inv (name : string) (st st1 : state) (s : pyval) :
  __get_suite_by_name server name PNone st = (Ok s, st1) ->
  truthy (__project_id (obj st)) = true
  /\ st1 = after st (build_request (obj st) GET
                       ("get_suites/" ++ py_str (__project_id (obj st))) PNone).
Proof.
  unfold __get_suite_by_name, __get_suites, default_project_id, project_id,
    send_get, bind, get_self, ret, raise. cbn [truthy].
  destruct (truthy (__project_id (obj st))) eqn:Hp; [|discriminate].
  rewrite Hp.
  match goal with
  | |- context [__send_request server GET ?u PNone st] =>
      pose proof (send_request_state server GET u PNone st) as Hs;
      destruct (__send_request server GET u PNone st) as [[ss|e] s1]
  end; simpl in Hs; subst s1; [|discriminate].
  unfold lift. destruct (py_iter ss); [|discriminate].
  destruct (first_named name a); [|discriminate].
  intros [= _ <-]. now split.
Qed.

(** X19.  An assignment of [project] (or [suite]) that raises has
    already stored the new name, and leaves the id that was stored
    before: name and id of the object no longer belong together. *)
Theorem failed_assignment_keeps_old_id (name : option string) (st st' : state)
    (e : exn) :
  (project_setter server name st = (Raise e, st') ->
   __project (obj st') = name
   /\ __project_id (obj st') = __project_id (obj st))
  /\ (suite_setter server name st = (Raise e, st') ->
      __suite (obj st') = name
      /\ __suite_id (obj st') = __suite_id (obj st)).
Proof.
  assert (Kp : forall n, keeps_object (__get_project_by_name server n)).
  { intros n. unfold __get_project_by_name, __get_projects, send_get. frame. }
  assert (Ks : forall n, keeps_object (__get_suite_by_name server n PNone)).
  { intros n. unfold __get_suite_by_name, __get_suites, default_project_id,
      project_id, send_get. frame. }
  split.
  - destruct name as [name|]; [|discriminate].
    unfold project_setter, bind at 1, modify_self at 1.
    set (st0 := {| obj := with_project (Some name) (obj st); sent := sent st |}).
    unfold bind. specialize (Kp name st0).
    destruct (__get_project_by_name server name st0) as [[p|e0] s1]; simpl in Kp.
    + unfold lift. destruct (subscript p "id"); [discriminate|].
      intros [= _ <-]. rewrite Kp. split; reflexivity.
    + intros [= _ <-]. rewrite Kp. split; reflexivity.
  - destruct name as [name|]; [|discriminate].
    unfold suite_setter, bind at 1, modify_self at 1.
    set (st0 := {| obj := with_suite (Some name) (obj st); sent := sent st |}).
    unfold bind. specialize (Ks name st0).
    destruct (__get_suite_by_name server name PNone st0) as [[p|e0] s1];
      simpl in Ks.
    + unfold lift. destruct (subscript p "id"); [discriminate|].
      intros [= _ <-]. rewrite Ks. split; reflexivity.
    + intros [= _ <-]. rewrite Ks. split; reflexivity.
Qed.

(** X20.  When the projects are fetched and [p] is the first one with
    exactly the name assigned, the assignment of [project] stores the
    name and the [id] of [p] after one GET; reading [project_id]
    afterwards returns that id, provided it is a value the guard of the
    getter takes for true. *)
Theorem project_assignment_stores_first_match (name : string) (st : state)
    (body : option pyval) (before rest : list pyval) (p i : pyval) :
  let rq := build_request (obj st) GET "get_projects" PNone in
  server (sent st) rq = Reply None body ->
  py_iter (decoded body) = Ok (before ++ p :: rest)%list ->
  Forall named before ->
  (forall q, In q before -> ~ name_is name q) ->
  name_is name p ->
  subscript p "id" = Ok i ->
  let st' := {| obj := with_project_id i (with_project (Some name) (obj st));
                sent := (sent st ++ [rq])%list |} in
  project_setter server (Some name) st = (Ok tt, st')
  /\ (truthy i = true -> project_id st' = (Ok i, st')).
Proof.
  intros rq Hs Hit Hnamed Hno Hp Hi st'. split.
  - unfold project_setter, bind at 1, modify_self at 1.
    unfold __get_project_by_name, __get_projects, send_get.
    erewrite (bind_ok (bind _ _))
      by (erewrite bind_ok
            by (apply send_request_ok; unfold build_request in *; simpl; exact Hs);
          rewrite (lift_ok _ _ _ _ Hit); unfold lift;
          rewrite (first_named_first name before rest p Hnamed Hno Hp);
          reflexivity).
    rewrite (lift_ok _ _ _ _ Hi). reflexivity.
  - intros Ht. unfold project_id, bind, get_self. simpl. now rewrite Ht.
Qed.

(** X21.  Assigning [suite] while the project id is unset raises the
    configuration error of the project -- the one that asks for
    [client.project] -- without any request; the suite name is stored
    all the same. *)
Theorem suite_assignment_needs_project (name : string) (st : state) :
  truthy (__project_id (obj st)) = false ->
  suite_setter server (Some name) st
  = (Raise (EnvironmentError
              ("Define the project name as an object attribute like so"
                 ++ newline ++ "client.project = 'Velocloud'")),
     {| obj := with_suite (Some name) (obj st); sent := sent st |}).
Proof.
  intros H.
  unfold suite_setter, __get_suite_by_name, default_project_id, project_id,
    bind, modify_self, get_self, raise.
  simpl. now rewrite H.
Qed.

Lemma init_inv (u p base : string) (history : list request) (st : state) :
  __init__ server u p base history = (Ok tt, st) ->
  exists pid sid,
    truthy pid = true
    /\ obj st = with_suite_id sid
                  (with_suite (Some "Master")
                     (with_project_id pid
                        (with_project (Some "Velocloud") (new_Testrail u p base))))
    /\ sent st
       = (history ++ [build_request (new_Testrail u p base) GET "get_projects" PNone;
                      build_request (new_Testrail u p base) GET
                        ("get_suites/" ++ py_str pid) PNone])%list.
Proof.
  unfold __init__. intros H.
  apply bind_inv_ok in H as ([] & s1 & H1 & H2).
  unfold project_setter in H1.
  apply bind_inv_ok in H1 as ([] & s0 & H0 & H1).
  injection H0 as <-.
  apply bind_inv_ok in H1 as (proj & s0' & Hproj & H1).
  apply get_project_by_name_inv in Hproj. subst s0'.
  apply lift_inv_ok in H1 as (pid & _ & H1).
  injection H1 as <-.
  unfold suite_setter in H2.
  apply bind_inv_ok in H2 as ([] & s2 & H0 & H2).
  injection H0 as <-.
  apply bind_inv_ok in H2 as (su & s2' & Hsu & H2).
  apply get_suite_by_name_inv in Hsu as [Hp ->].
  apply lift_inv_ok in H2 as (sid & _ & H2).
  injection H2 as <-.
  simpl in Hp. exists pid, sid. split; [exact Hp|]. split; [reflexivity|].
  simpl. now rewrite <- app_assoc.
Qed.

(** X22.  A constructor that returns has sent exactly two GETs --
    [get_projects], then [get_suites/<project id>] -- and leaves an
    object with project ["Velocloud"], suite ["Master"], a project id
    that [project_id] will return without raising, no current run, an
    empty cache and the two-entry [result_map]. *)
Theorem init_success (u p base : string) (history : list request) (st : state) :
  __init__ server u p base history = (Ok tt, st) ->
  __project (obj st) = Some "Velocloud"
  /\ __suite (obj st) = Some "Master"
  /\ project_id st = (Ok (__project_id (obj st)), st)
  /\ __run_id (obj st) = PNone
  /\ cases_in_run (obj st) = []
  /\ result_map (obj st) = [("passed", PInt 1); ("failed", PInt 5)]
  /\ user (obj st) = u /\ password (obj st) = p
  /\ sent st
     = (history ++ [build_request (new_Testrail u p base) GET "get_projects" PNone;
                    build_request (new_Testrail u p base) GET
                      ("get_suites/" ++ py_str (__project_id (obj st))) PNone])%list.
Proof.
  intros H. destruct (init_inv _ _ _ _ _ H) as (pid & sid & Hp & Ho & Hs).
  assert (Hpid : __project_id (obj st) = pid) by now rewrite Ho.
  repeat split; try (rewrite Ho; reflexivity).
  - apply project_id_ok. now rewrite Hpid.
  - now rewrite Hpid.
Qed.

(** X23.  The API URL of a new object is the base URL, one [/] and
    [index.php?/api/v2/]: a base URL given with or without its trailing
    slash yields the same URL. *)
Theorem base_url_trailing_slash (u p base : string) :
  (exists b, __url (new_Testrail u p base) = b ++ "/index.php?/api/v2/"
             /\ (base = b \/ base = b ++ "/"))
  /\ (ends_with_slash base = false ->
      __url (new_Testrail u p (base ++ "/")) = __url (new_Testrail u p base)).
Proof.
  split.
  - simpl. destruct (ends_with_slash base) eqn:E.
    + apply ends_with_slash_spec in E as [b ->]. exists b.
      split; [now rewrite append_assoc | now right].
    + exists base. split; [now rewrite append_assoc | now left].
  - intros E. simpl. rewrite E.
    now rewrite (proj2 (ends_with_slash_spec (base ++ "/")) (ex_intro _ base eq_refl)).
Qed.

End SetterProperties.

Lemma failed_assignment_witness :
  __project (obj (snd (project_setter Demo.server (Some "Nope") Demo.start)))
  = Some "Nope"
  /\ __project_id (obj (snd (project_setter Demo.server (Some "Nope") Demo.start)))
     = PInt 1.
Proof.
  destruct (failed_assignment_keeps_old_id Demo.server (Some "Nope") Demo.start
              (snd (project_setter Demo.server (Some "Nope") Demo.start))
              TypeError) as [H _].
  exact (H eq_refl).
Defined.

Lemma project_assignment_witness :
  project_setter Demo.server (Some "Velocloud")
    {| obj := new_Testrail "u" "p" "https://tr.example"; sent := [] |}
  = (Ok tt,
     {| obj := with_project_id (PInt 1)
                 (with_project (Some "Velocloud")
                    (new_Testrail "u" "p" "https://tr.example"));
        sent := [Demo.get "get_projects"] |}).
Proof.
  apply (project_assignment_stores_first_match Demo.server "Velocloud"
           {| obj := new_Testrail "u" "p" "https://tr.example"; sent := [] |}
           (Some Demo.projects)
           [PDict [("id", PInt 3); ("name", PStr "Other")]] []
           (PDict [("id", PInt 1); ("name", PStr "Velocloud")]) (PInt 1)
           eq_refl eq_refl).
  - repeat constructor. eexists. reflexivity.
  - intros q [<-|[]]. discriminate.
  - reflexivity.
  - reflexivity.
Defined.

Lemma suite_assignment_witness :
  sent (snd (suite_setter Demo.server (Some "Master")
               {| obj := new_Testrail "u" "p" "https://tr.example"; sent := [] |}))
  = [].
Proof.
  rewrite (suite_assignment_needs_project Demo.server "Master"
             {| obj := new_Testrail "u" "p" "https://tr.example"; sent := [] |}
             eq_refl).
  reflexivity.
Defined.

Lemma init_success_witness :
  sent (snd (__init__ Demo.server "u" "p" "https://tr.example" []))
  = [Demo.get "get_projects"; Demo.get "get_suites/1"].
Proof.
  destruct (init_success Demo.server "u" "p" "https://tr.example" []
              (snd (__init__ Demo.server "u" "p" "https://tr.example" []))
              eq_refl) as (_ & _ & _ & _ & _ & _ & _ & _ & H).
  exact H.
Defined.

Lemma base_url_witness :
  __url (new_Testrail "u" "p" ("https://tr.example" ++ "/"))
  = __url (new_Testrail "u" "p" "https://tr.example").
Proof.
  destruct (base_url_trailing_slash "u" "p" "https://tr.example") as [_ H].
  exact (H eq_refl).
Defined.

(* ================================================================= *)
(** ** The elapsed time of a result *)

Section ElapsedProperties.

Context {rt : Runtime}.

(** X24.  The elapsed time is printed as three numbers: hours below 24,
    minutes and seconds below 60, which add up to the number of seconds
    modulo one day.  Whole days are dropped: a run of 25 hours is
    reported as one of 1 hour. *)
Theorem elapsed_drops_whole_days (secs : Z) :
  (exists h m s,
      strftime_hms secs = pad2 h ++ "h " ++ pad2 m ++ "m " ++ pad2 s ++ "s"
      /\ 0 <= h < 24 /\ 0 <= m < 60 /\ 0 <= s < 60
      /\ secs mod 86400 = 3600 * h + 60 * m + s)
  /\ strftime_hms (secs + 86400) = strftime_hms secs.
Proof.
  split.
  - exists ((secs mod 86400) / 3600), ((secs mod 3600) / 60), (secs mod 60).
    split; [reflexivity|]. repeat split; Z.div_mod_to_equations; lia.
  - unfold strftime_hms.
    replace ((secs + 86400) mod 86400) with (secs mod 86400)
      by (Z.div_mod_to_equations; lia).
    replace ((secs + 86400) mod 3600) with (secs mod 3600)
      by (Z.div_mod_to_equations; lia).
    replace ((secs + 86400) mod 60) with (secs mod 60)
      by (Z.div_mod_to_equations; lia).
    reflexivity.
Qed.

(** X25.  The duration of a report is rounded up to whole seconds before
    it is printed: a duration above [n - 1] and up to [n] seconds is
    reported as [n] seconds, so no test that took any time is reported
    with zero seconds. *)
Theorem elapsed_rounds_up (self : Testrail) (test_id : pyval) (report : TestReport)
    (n : Z) :
  (inject_Z (n - 1) < duration report)%Q ->
  (duration report <= inject_Z n)%Q ->
  subscript (result_record self test_id report) "elapsed"
  = Ok (PStr (strftime_hms n)).
Proof.
  intros Hlo Hhi.
  assert (E : Qceiling (duration report) = n).
  { pose proof (Qle_ceiling (duration report)) as H1.
    pose proof (Qceiling_resp_le _ _ Hhi) as H2. rewrite Qceiling_Z in H2.
    pose proof (Qlt_le_trans _ _ _ Hlo H1) as H3.
    rewrite <- Zlt_Qlt in H3. lia. }
  unfold result_record. simpl. now rewrite E.
Qed.

End ElapsedProperties.

Lemma elapsed_rounds_up_witness :
  subscript (result_record Demo.client (PInt 100)
               {| outcome_ := "passed"; duration := 1 # 5;
                  longreprtext := EmptyString |}) "elapsed"
  = Ok (PStr "00h 00m 01s").
Proof.
  apply (elapsed_rounds_up Demo.client (PInt 100)
           {| outcome_ := "passed"; duration := 1 # 5; longreprtext := EmptyString |}
           1); [vm_compute; reflexivity | vm_compute; discriminate].
Defined.

(* ================================================================= *)
(** ** The HTTP handler *)

Section HandlerProperties.

Context {rt : Runtime}.
Variable server : list request -> request -> http_reply.
Variable json_dumps : pyval -> string.

Lemma send_get_inv (uri : string) (st st1 : state) (v : pyval) :
  send_get server uri st = (Ok v, st1) ->
  exists body,
    server (sent st) (build_request (obj st) GET uri PNone) = Reply None body
    /\ v = decoded body
    /\ st1 = after st (build_request (obj st) GET uri PNone).
Proof.
  unfold send_get, __send_request.
  destruct (server _ _) as [[code|] body | code]; cbv beta iota.
  - destruct (error_text _); discriminate.
  - intros [= <- <-]. exists body. repeat split.
  - discriminate.
Qed.

Lemma init_inv_server (u p base : string) (history : list request) (st : state) :
  __init__ server u p base history = (Ok tt, st) ->
  exists body items project pid,
    server history (build_request (new_Testrail u p base) GET "get_projects" PNone)
    = Reply None body
    /\ py_iter (decoded body) = Ok items
    /\ first_named "Velocloud" items = Ok project
    /\ subscript project "id" = Ok pid
    /\ obj st = with_suite_id (__suite_id (obj st))
                  (with_suite (Some "Master")
                     (with_project_id pid
                        (with_project (Some "Velocloud") (new_Testrail u p base))))
    /\ sent st
       = (history ++ [build_request (new_Testrail u p base) GET "get_projects" PNone;
                      build_request (new_Testrail u p base) GET
                        ("get_suites/" ++ py_str pid) PNone])%list.
Proof.
  unfold __init__. intros H.
  apply bind_inv_ok in H as ([] & s1 & H1 & H2).
  unfold project_setter in H1.
  apply bind_inv_ok in H1 as ([] & s0 & H0 & H1).
  injection H0 as <-.
  apply bind_inv_ok in H1 as (proj & s0' & Hproj & H1).
  unfold __get_project_by_name, __get_projects in Hproj.
  apply bind_inv_ok in Hproj as (ps & sp & Hget & Hproj).
  apply send_get_inv in Hget as (body & Hsrv & -> & ->).
  apply lift_inv_ok in Hproj as (items & Hitems & Hproj).
  unfold lift in Hproj. injection Hproj as Hfirst <-.
  apply lift_inv_ok in H1 as (pid & Hpid & H1).
  injection H1 as <-.
  unfold suite_setter in H2.
  apply bind_inv_ok in H2 as ([] & s2 & H0 & H2).
  injection H0 as <-.
  apply bind_inv_ok in H2 as (su & s2' & Hsu & H2).
  apply get_suite_by_name_inv in Hsu as [Hp ->].
  apply lift_inv_ok in H2 as (sid & _ & H2).
  injection H2 as <-.
  exists body, items, proj, pid. simpl in Hsrv.
  repeat split; try assumption. simpl. now rewrite <- app_assoc.
Qed.

(** X26.  [hello] only reads: whatever the server replies, the requests
    it adds are GETs.  When it returns, the server has answered three
    GETs sent to the hosted API with the credentials of the module:
    [get_projects]; [get_suites/<id>], where the id is that of the first
    project named ["Velocloud"] in the first answer; and [get_users].
    The result is the status code 200 with, as body, the JSON text of
    the message and of the users the third answer holds. *)
Theorem hello_reads_users (event context : pyval) (history : list request) :
  (exists new,
      sent (snd (hello server json_dumps event context history))
      = (history ++ new)%list
      /\ existsb is_post new = false)
  /\ (forall r st,
        hello server json_dumps event context history = (Ok r, st) ->
        exists projects items project pid users,
          let self := new_Testrail username handler_password default_base_url in
          let rq1 := build_request self GET "get_projects" PNone in
          let rq2 := build_request self GET ("get_suites/" ++ py_str pid) PNone in
          let rq3 := build_request self GET "get_users" PNone in
          server history rq1 = Reply None projects
          /\ py_iter (decoded projects) = Ok items
          /\ first_named "Velocloud" items = Ok project
          /\ subscript project "id" = Ok pid
          /\ server (history ++ [rq1; rq2])%list rq3 = Reply None users
          /\ sent st = (history ++ [rq1; rq2; rq3])%list
          /\ rq_url rq3 = "https://velocloud.testrail.com/index.php?/api/v2/get_users"
          /\ rq_auth rq3 = ("shreyasj@velocloud.net", "Cisco123")
          /\ r = PDict [("statusCode", PInt 200);
                        ("body",
                         PStr (json_dumps
                                 (PDict [("message",
                                          PStr "BRO...Go Serverless v1.0! Your function executed successfully!");
                                         ("input", decoded users)])))]).
Proof.
  split.
  - assert (N : no_post (project_setter server (Some "Velocloud") ;;;
                         suite_setter server (Some "Master") ;;;
                         rrr <- get_users server ;;
                         ret (PDict [("statusCode", PInt 200);
                                     ("body",
                                      PStr (json_dumps
                                              (PDict [("message",
                                                       PStr "BRO...Go Serverless v1.0! Your function executed successfully!");
                                                      ("input", rrr)])))]))).
    { unfold project_setter, suite_setter, get_users, __get_project_by_name,
        __get_projects, __get_suite_by_name, __get_suites, default_project_id,
        project_id. frame. }
    specialize (N {| obj := new_Testrail username handler_password default_base_url;
                     sent := history |}).
    unfold hello, __init__.
    unfold bind at 1 2 in N. unfold bind at 1.
    destruct (project_setter server (Some "Velocloud") _) as [[[]|e] s1];
      [|exact N].
    destruct (suite_setter server (Some "Master") s1) as [[[]|e] s2]; exact N.
  - intros r st H. unfold hello in H.
    destruct (__init__ server username handler_password default_base_url history)
      as [[[]|e] s2] eqn:Hinit; [|discriminate].
    destruct (init_inv_server _ _ _ _ _ Hinit)
      as (projects & items & project & pid & Hsrv & Hitems & Hfirst & Hpid
          & Ho & Hs).
    apply bind_inv_ok in H as (rrr & s3 & Hu & H).
    injection H as <- <-.
    unfold get_users in Hu.
    apply send_get_inv in Hu as (users & Husers & -> & ->).
    exists projects, items, project, pid, users. cbv zeta.
    rewrite Hs, Ho in Husers. simpl in Husers.
    repeat split; try assumption.
    simpl. rewrite Hs, Ho, <- app_assoc. reflexivity.
Qed.

End HandlerProperties.

Lemma hello_witness :
  fst (hello Demo2.server Demo2.dumps PNone PNone [])
  = Ok (PDict [("statusCode", PInt 200); ("body", PStr "users: 1")]).
Proof.
  destruct (hello_reads_users Demo2.server Demo2.dumps PNone PNone []) as [_ H].
  destruct (hello Demo2.server Demo2.dumps PNone PNone []) as [[r|e] st] eqn:E.
  - destruct (H r st eq_refl)
      as (projects & items & project & pid & users & Hp & Hi & Hf & Hpid
          & Hu & _ & _ & _ & Hr).
    vm_compute in Hp. injection Hp as <-.
    vm_compute in Hi. injection Hi as <-.
    vm_compute in Hf. injection Hf as <-.
    vm_compute in Hpid. injection Hpid as <-.
    vm_compute in Hu. injection Hu as <-.
    rewrite Hr. reflexivity.
  - vm_compute in E. discriminate E.
Defined.

(* ================================================================= *)
(** ** Results of a run by name; fetches that need the project *)

Section ProjectScopedProperties.

Context {rt : Runtime}.
Variable server : list request -> request -> http_reply.

(** X27.  [get_testrun_results] asks the server for results only for a
    run whose name is exactly [testrun_name]: when the lookup of the run
    finds none it returns [None] without a further request, and otherwise
    it requests the results of the [id] of the run found. *)
Theorem get_testrun_results_only_for_exact_name
    (project_name plan_name testrun_name : string) (st st1 : state) (r : pyval) :
  _get_testrun_by_name server project_name plan_name testrun_name st = (Ok r, st1) ->
  (r = PNone
   /\ get_testrun_results server project_name plan_name testrun_name st
      = (Ok PNone, st1))
  \/ (name_is testrun_name r
      /\ exists id,
          subscript r "id" = Ok id
          /\ get_testrun_results server project_name plan_name testrun_name st
             = _get_results_for_run server id st1)
  \/ (name_is testrun_name r
      /\ subscript r "id" = Raise (KeyError "id")
      /\ get_testrun_results server project_name plan_name testrun_name st
         = (Raise (KeyError "id"), st1)).
Proof.
  intros H. unfold get_testrun_results. rewrite (bind_ok _ _ _ _ _ H).
  assert (Hsound : r = PNone \/ name_is testrun_name r).
  { unfold _get_testrun_by_name in H.
    apply bind_inv_ok in H as (project & s1 & _ & H).
    apply lift_inv_ok in H as (pid & _ & H).
    apply bind_inv_ok in H as (plan & s2 & _ & H).
    apply lift_inv_ok in H as (plan_id & _ & H).
    apply bind_inv_ok in H as (detail & s3 & _ & H).
    apply lift_inv_ok in H as (entries & _ & H).
    apply lift_inv_ok in H as (items & _ & H).
    unfold lift in H. injection H as H _.
    destruct (scan_named_entries_sound _ _ _ H) as [->|[Hr _]]; auto. }
  destruct Hsound as [->|Hname]; [left; now split|].
  right. unfold name_is in Hname.
  destruct r as [| b | z | s | l | d]; try discriminate Hname.
  simpl. destruct (assoc "id" d) as [id|] eqn:Hid.
  - left. split; [exact Hname|]. exists id. split; reflexivity.
  - right. repeat split. exact Hname.
Qed.

(** X28.  On a session whose project id is unset, every fetch that is
    scoped to the project -- the cases, the milestones, the cases of a
    milestone, the sections, and the runs, the plans and a plan by name
    when no project id is passed -- raises the configuration error
    before anything is sent. *)
Theorem project_scoped_fetches_need_project (st : state) :
  truthy (__project_id (obj st)) = false ->
  let failure :=
    (@Raise pyval
       (EnvironmentError
          ("Define the project name as an object attribute like so"
             ++ newline ++ "client.project = 'Velocloud'")), st) in
  get_all_cases server st = failure
  /\ (forall name, get_milestone_id server name st = failure)
  /\ (forall m, get_cases_based_on_milestone server m st = failure)
  /\ get_sections server st = failure
  /\ _get_runs server PNone st = failure
  /\ _get_plans server PNone st = failure
  /\ (forall name, _get_plan_by_name server name PNone st = failure).
Proof.
  intros H. cbv zeta.
  repeat split; intros;
    unfold get_all_cases, get_milestone_id, get_cases_based_on_milestone,
      get_sections, _get_runs, _get_plan_by_name, _get_plans,
      default_project_id, project_id, bind, get_self, raise;
    cbn [truthy]; now rewrite H.
Qed.

End ProjectScopedProperties.

Lemma get_testrun_results_witness :
  get_testrun_results Demo2.server "Velocloud" "Exact" "smoke" Demo.start
  = _get_results_for_run Demo2.server (PInt 21)
      (after (after (after Demo.start (Demo.get "get_projects"))
                (Demo.get "get_plans/1")) (Demo.get "get_plan/11")).
Proof.
  destruct (get_testrun_results_only_for_exact_name Demo2.server
              "Velocloud" "Exact" "smoke" Demo.start
              (after (after (after Demo.start (Demo.get "get_projects"))
                        (Demo.get "get_plans/1")) (Demo.get "get_plan/11"))
              Demo2.exact_run eq_refl)
    as [[H _] | [(_ & id & Hid & H) | (_ & Hid & _)]].
  - discriminate H.
  - injection Hid as <-. exact H.
  - discriminate Hid.
Defined.

Lemma project_scoped_fetches_witness :
  sent (snd (get_sections Demo.server
               {| obj := new_Testrail "u" "p" "https://tr.example"; sent := [] |}))
  = [].
Proof.
  destruct (project_scoped_fetches_need_project Demo.server
              {| obj := new_Testrail "u" "p" "https://tr.example"; sent := [] |}
              eq_refl) as (_ & _ & _ & H & _).
  rewrite H. reflexivity.
Defined.

(* ================================================================= *)
(** ** The status map is never reassigned *)

Lemma keeps_result_map_bind {A B} (m : M A) (k : A -> M B) :
  keeps_result_map m -> (forall a, keeps_result_map (k a)) ->
  keeps_result_map (bind m k).
Proof.
  intros Hm Hk st. unfold bind. specialize (Hm st).
  destruct (m st) as [[a|e] st1]; simpl in Hm.
  - now rewrite Hk.
  - exact Hm.
Qed.

Lemma keeps_result_map_of_object {A} (m : M A) :
  keeps_object m -> keeps_result_map m.
Proof. intros H st. now rewrite H. Qed.

Lemma keeps_result_map_modify (f : Testrail -> Testrail) :
  (forall t, result_map (f t) = result_map t) ->
  keeps_result_map (modify_self f).
Proof. intros H st. apply H. Qed.

Section StatusMap.

Context {rt : Runtime}.
Variable server : list request -> request -> http_reply.

(** The three setters, the only methods that change the object, leave
    [result_map] alone; so an object keeps the [result_map] its
    constructor built, through any sequence of calls. *)
Lemma setters_keep_result_map :
  (forall n, keeps_result_map (project_setter server n))
  /\ (forall n, keeps_result_map (suite_setter server n))
  /\ (forall r, keeps_result_map (run_id_setter server r)).
Proof.
  assert (Kp : forall n, keeps_object (__get_project_by_name server n)).
  { intros n. unfold __get_project_by_name, __get_projects, send_get. frame. }
  assert (Ks : forall n, keeps_object (__get_suite_by_name server n PNone)).
  { intros n. unfold __get_suite_by_name, __get_suites, default_project_id,
      project_id, send_get. frame. }
  assert (Kr : forall r, keeps_object (get_cases_in_run server r)).
  { intros r. unfold get_cases_in_run, send_get. frame. }
  repeat split.
  - intros [n|]; unfold project_setter.
    + apply keeps_result_map_bind; [now apply keeps_result_map_modify|]. intros _.
      apply keeps_result_map_bind; [apply keeps_result_map_of_object, Kp|].
      intros p. apply keeps_result_map_bind;
        [apply keeps_result_map_of_object, keeps_object_lift|].
      intros i. now apply keeps_result_map_modify.
    + apply keeps_result_map_bind; [now apply keeps_result_map_modify|]. intros _.
      now apply keeps_result_map_modify.
  - intros [n|]; unfold suite_setter.
    + apply keeps_result_map_bind; [now apply keeps_result_map_modify|]. intros _.
      apply keeps_result_map_bind; [apply keeps_result_map_of_object, Ks|].
      intros p. apply keeps_result_map_bind;
        [apply keeps_result_map_of_object, keeps_object_lift|].
      intros i. now apply keeps_result_map_modify.
    + apply keeps_result_map_bind; [now apply keeps_result_map_modify|]. intros _.
      now apply keeps_result_map_modify.
  - intros r. unfold run_id_setter.
    apply keeps_result_map_bind; [now apply keeps_result_map_modify|]. intros _.
    apply keeps_result_map_bind; [apply keeps_result_map_of_object, Kr|].
    intros c. destruct (hashable r).
    + now apply keeps_result_map_modify.
    + apply keeps_result_map_of_object, keeps_object_raise.
Qed.

(** Whether the constructor returns or raises, the object it worked on
    has the [result_map] of [new_Testrail]. *)
Lemma init_result_map (u p base : string) (history : list request) :
  result_map (obj (snd (__init__ server u p base history)))
  = result_map (new_Testrail u p base).
Proof.
  destruct setters_keep_result_map as (Hp & Hs & _).
  unfold __init__.
  now rewrite (keeps_result_map_bind _ _ (Hp _) (fun _ => Hs _)).
Qed.

End StatusMap.
